(** * An ETL pipeline over pandas frames: model and verification

    The development embeds the extraction, transformation, load and
    reporting logic of the pipeline ([src/extract.py], [src/transform.py],
    [src/load.py], [src/analytics.py], [main.py]) and proves the properties
    its specification states, and further properties of the code.

    Conventions of the embedding.
    - A Python [str] is a Rocq [string]: the code points 0..255 (Latin-1),
      on which [str.lower], [str.strip] and [str.split] act character by
      character exactly as defined below.
    - A cell of a frame holds the Python value it was built from
      ([value]); the storage type pandas picks for a column (an [int]
      stored as the equal [float] once the column also holds NaN) is not
      modelled.
    - A JSON object is a [gmap string value], and the columns of a frame
      are a [gmap] from their names: the order of keys and of columns is
      not modelled.
    - What pandas decides internally and the code merely relies on (dtype
      inference, numeric and timestamp parsing, the text of a non-string
      value) is an interface, [Pandas], with the laws the proofs use.
    - An exception is a value of [exn]; a call that may raise returns a
      [result]. *)

From Stdlib Require Import ZArith Ascii String SpecFloat.
From stdpp Require Import gmap strings list fin_maps.

#[local] Set Warnings "-register-all".
#[local] Open Scope Z_scope.
#[local] Open Scope string_scope.

(** ** Exceptions and fallible calls *)

Inductive exn : Type :=
  | KeyError (key : string)
  | AttributeError (msg : string)
  | FileNotFoundError (path : string)
  | ValueError (msg : string)
  | EngineError (msg : string).

Inductive result (A : Type) : Type :=
  | Ok (a : A)
  | Raise (e : exn).
Arguments Ok {A} a.
Arguments Raise {A} e.

#[global] Instance result_ret : MRet result := @Ok.
#[global] Instance result_bind : MBind result :=
  fun A B (f : A -> result B) (m : result A) =>
    match m with
    | Ok a => f a
    | Raise e => Raise e
    end.

(** [for x in xs: acc = step(acc, x)], in a monad of fallible calls. *)
Fixpoint for_each {M : Type -> Type} `{!MBind M, !MRet M} {A B : Type}
    (step : B -> A -> M B) (xs : list A) (acc : B) : M B :=
  match xs with
  | [] => mret acc
  | x :: xs' => acc' ← step acc x; for_each step xs' acc'
  end.

(** [str(e)]: the text of an exception, as recorded in reports. *)
Definition str_exn (e : exn) : string :=
  match e with
  | KeyError k => "'" +:+ k +:+ "'"
  | AttributeError m => m
  | FileNotFoundError p => "File not found: " +:+ p
  | ValueError m => m
  | EngineError m => m
  end.

(** ** Python strings *)

Module PyStr.

(** [c.isspace()] on the code points 0..255. *)
Definition isspace (c : ascii) : bool :=
  let n := N_of_ascii c in
  ((9 <=? n) && (n <=? 13) || (28 <=? n) && (n <=? 32)
   || (n =? 133) || (n =? 160))%N.

(** [c.lower()]: A..Z and the Latin-1 capitals 192..222 (the
    multiplication sign 215 apart) move up by 32. *)
Definition lower_char (c : ascii) : ascii :=
  let n := N_of_ascii c in
  if ((65 <=? n) && (n <=? 90)
      || (192 <=? n) && (n <=? 222) && negb (n =? 215))%N
  then ascii_of_N (n + 32) else c.

Fixpoint lower (s : string) : string :=
  match s with
  | EmptyString => EmptyString
  | String c s' => String (lower_char c) (lower s')
  end.

Fixpoint lstrip (s : string) : string :=
  match s with
  | EmptyString => EmptyString
  | String c s' => if isspace c then lstrip s' else s
  end.

Fixpoint rstrip (s : string) : string :=
  match s with
  | EmptyString => EmptyString
  | String c s' =>
      match rstrip s' with
      | EmptyString => if isspace c then EmptyString else String c EmptyString
      | r => String c r
      end
  end.

(** [s.strip()] *)
Definition strip (s : string) : string := rstrip (lstrip s).

(** [s.split(sep)] for a separator of one character: the pieces between
    the occurrences of [sep], at least one piece. *)
Fixpoint split_on (sep : ascii) (s : string) : list string :=
  match s with
  | EmptyString => [EmptyString]
  | String c s' =>
      if Ascii.eqb c sep then EmptyString :: split_on sep s'
      else match split_on sep s' with
           | piece :: rest => String c piece :: rest
           | [] => [String c EmptyString]
           end
  end.

(** [s.split()]: the maximal runs of non-space characters. *)
Fixpoint split_ws (s : string) : list string :=
  match s with
  | EmptyString => []
  | String c s' =>
      if isspace c then split_ws s'
      else match s' with
           | EmptyString => [String c EmptyString]
           | String c' _ =>
               if isspace c' then String c EmptyString :: split_ws s'
               else match split_ws s' with
                    | w :: ws => String c w :: ws
                    | [] => [String c EmptyString]
                    end
           end
  end.

(** [s[:n]] *)
Fixpoint take (n : nat) (s : string) : string :=
  match n, s with
  | S n', String c s' => String c (take n' s')
  | _, _ => EmptyString
  end.

(** [s[i]], a string of one character, when [i] is in range. *)
Definition index_char (i : nat) (s : string) : option string :=
  match String.get i s with
  | Some c => Some (String c EmptyString)
  | None => None
  end.

(** The number of occurrences of a character. *)
Fixpoint count (c : ascii) (s : string) : nat :=
  match s with
  | EmptyString => O
  | String c' s' => (if Ascii.eqb c' c then 1 else 0)%nat + count c s'
  end.

(** The part of a string after the first occurrence of a character,
    when there is one: stated on its own, to compare [split_on] with. *)
Fixpoint after_first (c : ascii) (s : string) : option string :=
  match s with
  | EmptyString => None
  | String c' s' => if Ascii.eqb c' c then Some s' else after_first c s'
  end.

End PyStr.

(** ** Python values and pandas frames *)

Inductive value : Type :=
  | VNone
  | VBool (b : bool)
  | VInt (z : Z)
  | VFloat (f : spec_float)
  | VStr (s : string)
  | VList (l : list value)
  | VDict (d : gmap string value)
  | VTimestamp (ns : Z)
  | VNaT.

Abbreviation NaN := (VFloat S754_nan).

(** [pd.isna(v)] on one cell. *)
Definition isna (v : value) : bool :=
  match v with
  | VNone | VFloat S754_nan | VNaT => true
  | _ => false
  end.

Definition is_str (v : value) : bool :=
  match v with VStr _ => true | _ => false end.

(** A string, a list or a dict: what makes a column an object column that
    is not purely numeric, boolean or temporal. *)
Definition is_container (v : value) : bool :=
  match v with VStr _ | VList _ | VDict _ => true | _ => false end.

Abbreviation Series := (list value).

(** A frame: the length of its index, and its columns by name. *)
Record DataFrame : Type := mkDataFrame {
  index : nat;
  columns : gmap string Series
}.

(** Every column of a frame pandas builds has one cell per row. *)
Definition wf_frame (df : DataFrame) : Prop :=
  forall k s, columns df !! k = Some s -> length s = index df.

(** [len(df)] *)
Definition df_len (df : DataFrame) : nat := index df.

(** [pd.DataFrame()] *)
Definition DataFrame_empty : DataFrame :=
  {| index := 0; columns := ∅ |}.

(** The column [k] of a list of dicts: the value under [k], NaN where the
    dict has none. *)
Definition column_of (data : list (gmap string value)) (k : string) : Series :=
  (fun r : gmap string value => default NaN (r !! k)) <$> data.

Definition keys_of (data : list (gmap string value)) : gset string :=
  ⋃ (dom <$> data).

(** [pd.DataFrame(data)] for a list of dicts: one row per dict, one column
    per key that occurs in some dict. *)
Definition DataFrame_from_records (data : list (gmap string value)) : DataFrame :=
  {| index := length data;
     columns := set_to_map (fun k => (k, column_of data k)) (keys_of data) |}.

(** [df[k]]: raises [KeyError] when the frame has no such column. *)
Definition getitem (df : DataFrame) (k : string) : result Series :=
  match columns df !! k with
  | Some s => Ok s
  | None => Raise (KeyError k)
  end.

(** A series assigned into a frame is aligned with the frame's index:
    cut, or padded with NaN. *)
Definition reindex (n : nat) (s : Series) : Series :=
  List.firstn n (s ++ replicate (n - length s) NaN).

(** [df[k] = s] for a series [s]: a frame whose index is empty takes the
    index of a non-empty [s]. *)
Definition setitem (df : DataFrame) (k : string) (s : Series) : DataFrame :=
  if (index df =? 0)%nat && negb (length s =? 0)%nat
  then {| index := length s;
          columns := <[k := s]> (reindex (length s) <$> columns df) |}
  else {| index := index df;
          columns := <[k := reindex (index df) s]> (columns df) |}.

(** [df[k] = v] for a scalar [v]: the value in every row. *)
Definition setitem_scalar (df : DataFrame) (k : string) (v : value) : DataFrame :=
  {| index := index df;
     columns := <[k := replicate (index df) v]> (columns df) |}.

(** [s.apply(f)] *)
Definition Series_apply (f : value -> result value) (s : Series) : result Series :=
  mapM f s.

(** [df.fillna(v)]: every missing cell becomes [v]. *)
Definition fillna_cell (v c : value) : value := if isna c then v else c.

Definition fillna (v : value) (df : DataFrame) : DataFrame :=
  {| index := index df;
     columns := (fun s : Series => fillna_cell v <$> s) <$> columns df |}.

(** The cell of column [k] in row [i]. *)
Definition cell (df : DataFrame) (k : string) (i : nat) : option value :=
  s ← columns df !! k; s !! i.

(** [obj.get(k, dflt)]: only a dict has the method. *)
Definition py_get (obj : value) (k : string) (dflt : value) : result value :=
  match obj with
  | VDict d => Ok (default dflt (d !! k))
  | _ => Raise (AttributeError "object has no attribute 'get'")
  end.

(** ** What the code relies on pandas for *)

(** The inferred types on which pandas grants the [.str] accessor. *)
Definition str_allowed_types : list string :=
  ["string"; "empty"; "bytes"; "mixed"; "mixed-integer"].

Definition is_temporal (v : value) : bool :=
  match v with VTimestamp _ | VNaT => true | _ => false end.

Class Pandas : Type := {
  (** [lib.infer_dtype(col, skipna=True)] on a column as the frame stores
      it; a column that holds a string, a list or a dict is never inferred
      as purely numeric, boolean or temporal. *)
  infer_dtype : Series -> string;
  infer_dtype_container : forall col : Series,
    Exists (fun v => is_container v = true) col ->
    infer_dtype col ∈ str_allowed_types;
  (** So is a column of strings only, as [astype(str)] yields, even with
      no row. *)
  infer_dtype_strings : forall col : Series,
    Forall (fun v => is_str v = true) col ->
    infer_dtype col ∈ str_allowed_types;
  (** One element under [pd.to_numeric(..., errors="coerce")]: a number, or
      NaN where the element does not convert. *)
  to_numeric_coerce : value -> value;
  to_numeric_coerce_None : to_numeric_coerce VNone = NaN;
  to_numeric_coerce_scalar : forall v,
    is_container (to_numeric_coerce v) = false;
  (** [pd.api.types.is_string_dtype(col)]: true at least of a non-empty
      column of strings. *)
  is_string_dtype : Series -> bool;
  is_string_dtype_strings : forall col : Series,
    col <> [] -> Forall (fun v => is_str v = true) col ->
    is_string_dtype col = true;
  (** [pd.to_datetime(col, errors="coerce")]: a timestamp per row, NaT
      where the row does not parse. *)
  to_datetime_coerce : Series -> Series;
  to_datetime_coerce_length : forall col : Series,
    length (to_datetime_coerce col) = length col;
  to_datetime_coerce_temporal : forall col : Series,
    Forall (fun v => is_temporal v = true) (to_datetime_coerce col);
  (** [str(v)], the text [astype(str)] gives a cell. *)
  py_str : value -> string;
  py_str_str : forall s, py_str (VStr s) = s
}.

Section Accessors.
Context `{Pandas}.

(** [s.str]: refused unless the inferred type of [s] is allowed. *)
Definition str_accessor (s : Series) : result Series :=
  if bool_decide (infer_dtype s ∈ str_allowed_types) then Ok s
  else Raise (AttributeError "Can only use .str accessor with string values!").

(** The element-wise application behind every [.str] method: a missing
    element, and one on which the method fails, gives NaN. *)
Definition str_cell (f : value -> option value) (v : value) : value :=
  if isna v then NaN else default NaN (f v).

Definition str_map (f : value -> option value) (s : Series) : Series :=
  str_cell f <$> s.

Definition str_method (f : value -> option value) (s : Series) : result Series :=
  col ← str_accessor s; mret (str_map f col).

(** The methods on one element; [None] where Python raises. *)
Definition lower_f (v : value) : option value :=
  match v with VStr x => Some (VStr (PyStr.lower x)) | _ => None end.

Definition strip_f (v : value) : option value :=
  match v with VStr x => Some (VStr (PyStr.strip x)) | _ => None end.

Definition split_f (sep : ascii) (v : value) : option value :=
  match v with
  | VStr x => Some (VList (VStr <$> PyStr.split_on sep x))
  | _ => None
  end.

Definition split_ws_f (v : value) : option value :=
  match v with
  | VStr x => Some (VList (VStr <$> PyStr.split_ws x))
  | _ => None
  end.

(** [len] of a string, a list or a dict. *)
Definition len_f (v : value) : option value :=
  match v with
  | VStr x => Some (VInt (Z.of_nat (String.length x)))
  | VList l => Some (VInt (Z.of_nat (length l)))
  | VDict d => Some (VInt (Z.of_nat (size d)))
  | _ => None
  end.

(** The element of a list or the character of a string at [i >= 0]; a
    dict is asked for the key [i], which a dict with string keys does not
    have. *)
Definition get_f (i : nat) (v : value) : option value :=
  match v with
  | VList l => l !! i
  | VStr x => VStr <$> PyStr.index_char i x
  | VDict _ => Some VNone
  | _ => None
  end.

Definition slice_to_f (n : nat) (v : value) : option value :=
  match v with
  | VStr x => Some (VStr (PyStr.take n x))
  | VList l => Some (VList (List.firstn n l))
  | _ => None
  end.

(** [s.str.lower()] *)
Definition str_lower : Series -> result Series := str_method lower_f.

(** [s.str.strip()] *)
Definition str_strip : Series -> result Series := str_method strip_f.

(** [s.str.split(sep)] for a separator of one character *)
Definition str_split (sep : ascii) : Series -> result Series :=
  str_method (split_f sep).

(** [s.str.split()] *)
Definition str_split_ws : Series -> result Series := str_method split_ws_f.

(** [s.str.len()] *)
Definition str_len : Series -> result Series := str_method len_f.

(** [s.str[i]] *)
Definition str_get (i : nat) : Series -> result Series := str_method (get_f i).

(** [s.str[:n]] *)
Definition str_slice_to (n : nat) : Series -> result Series :=
  str_method (slice_to_f n).

(** [pd.to_numeric(s, errors="coerce")] *)
Definition to_numeric (s : Series) : Series := to_numeric_coerce <$> s.

(** [s.astype(str)] *)
Definition astype_str (s : Series) : Series :=
  (fun v => VStr (py_str v)) <$> s.

End Accessors.

(** [pd.cut(x, bins, labels)] with its defaults: the intervals are open on
    the left and closed on the right, and the lowest edge is in none. *)
Inductive edge : Type :=
  | Finite (z : Z)
  | Infinity.

Definition edge_lt (e : edge) (x : Z) : bool :=
  match e with Finite z => (z <? x)%Z | Infinity => false end.

Definition edge_ge (e : edge) (x : Z) : bool :=
  match e with Finite z => (x <=? z)%Z | Infinity => true end.

Fixpoint cut_label (bins : list edge) (labels : list string) (x : Z) : option string :=
  match bins, labels with
  | lo :: (hi :: _) as rest, lab :: labs =>
      if edge_lt lo x && edge_ge hi x then Some lab else cut_label rest labs x
  | _, _ => None
  end.

(** On a column of lengths: an integer gets the label of its interval, a
    missing length and one outside every interval get NaN. *)
Definition cut_cell (bins : list edge) (labels : list string) (v : value) : value :=
  match v with
  | VInt x => match cut_label bins labels x with
              | Some lab => VStr lab
              | None => NaN
              end
  | _ => NaN
  end.

Definition pd_cut (bins : list edge) (labels : list string) (s : Series) : Series :=
  cut_cell bins labels <$> s.

(** [.astype(str)] on the categorical [pd.cut] returns: a label stays, the
    missing category becomes the text of NaN. *)
Definition category_text (v : value) : value :=
  match v with VStr lab => VStr lab | _ => VStr "nan" end.

Definition categorical_astype_str (s : Series) : Series := category_text <$> s.

(** [~(a.isna() | b.isna())] *)
Definition neither_isna_cell (x y : value) : value :=
  VBool (negb (isna x || isna y)).

Definition neither_isna (a b : Series) : Series := zip_with neither_isna_cell a b.

(** ** The transformer ([src/transform.py], class [DataTransformer]) *)

Module Transform.
Section Transformer.
Context `{Pandas}.

(** [datetime.now().isoformat()] at the time of the call. *)
Variable now : string.

Definition is_dict (x : value) : bool :=
  match x with VDict _ => true | _ => false end.

(** [lambda x: x.get(k, "") if isinstance(x, dict) else ""] *)
Definition field_or_empty (k : string) (x : value) : result value :=
  if is_dict x then py_get x k (VStr "") else mret (VStr "").

(** [lambda x: x.get("geo", {}).get(k, None) if isinstance(x, dict) else None] *)
Definition geo_field (k : string) (x : value) : result value :=
  if is_dict x then geo ← py_get x "geo" (VDict ∅); py_get geo k VNone
  else mret VNone.

Definition transform_users_data (users_data : list (gmap string value))
  : result DataFrame :=
  let df := DataFrame_from_records users_data in
  let df_transformed := DataFrame_empty in
  c ← getitem df "id";
  let df_transformed := setitem df_transformed "user_id" c in
  c ← getitem df "username";
  let df_transformed := setitem df_transformed "username" c in
  c ← getitem df "name";
  let df_transformed := setitem df_transformed "name" c in
  c ← getitem df "email";
  c ← str_lower c;
  let df_transformed := setitem df_transformed "email" c in
  c ← getitem df "phone";
  let df_transformed := setitem df_transformed "phone" c in
  c ← getitem df "website";
  let df_transformed := setitem df_transformed "website" c in
  a ← getitem df "address";
  c ← Series_apply (field_or_empty "city") a;
  let df_transformed := setitem df_transformed "city" c in
  a ← getitem df "address";
  c ← Series_apply (field_or_empty "zipcode") a;
  let df_transformed := setitem df_transformed "zipcode" c in
  a ← getitem df "address";
  c ← Series_apply (geo_field "lat") a;
  let df_transformed := setitem df_transformed "lat" (to_numeric c) in
  a ← getitem df "address";
  c ← Series_apply (geo_field "lng") a;
  let df_transformed := setitem df_transformed "lng" (to_numeric c) in
  a ← getitem df "company";
  c ← Series_apply (field_or_empty "name") a;
  let df_transformed := setitem df_transformed "company_name" c in
  a ← getitem df "company";
  c ← Series_apply (field_or_empty "catchPhrase") a;
  let df_transformed := setitem df_transformed "company_catchphrase" c in
  e ← getitem df_transformed "email";
  parts ← str_split "@" e;
  c ← str_get 1 parts;
  let df_transformed := setitem df_transformed "email_domain" c in
  lat ← getitem df_transformed "lat";
  lng ← getitem df_transformed "lng";
  let df_transformed :=
    setitem df_transformed "has_coordinates" (neither_isna lat lng) in
  let df_transformed := setitem_scalar df_transformed "created_at" (VStr now) in
  let df_transformed := fillna (VStr "") df_transformed in
  mret df_transformed.

Definition category_bins : list edge :=
  [Finite 0; Finite 100; Finite 200; Infinity].

Definition category_labels : list string := ["short"; "medium"; "long"].

Definition transform_posts_data (posts_data : list (gmap string value))
  : result DataFrame :=
  let df := DataFrame_from_records posts_data in
  let df_transformed := DataFrame_empty in
  c ← getitem df "id";
  let df_transformed := setitem df_transformed "post_id" c in
  c ← getitem df "userId";
  let df_transformed := setitem df_transformed "user_id" c in
  c ← getitem df "title";
  c ← str_strip c;
  let df_transformed := setitem df_transformed "title" c in
  c ← getitem df "body";
  c ← str_strip c;
  let df_transformed := setitem df_transformed "body" c in
  t ← getitem df_transformed "title";
  c ← str_len t;
  let df_transformed := setitem df_transformed "title_length" c in
  b ← getitem df_transformed "body";
  c ← str_len b;
  let df_transformed := setitem df_transformed "body_length" c in
  b ← getitem df_transformed "body";
  words ← str_split_ws b;
  c ← str_len words;
  let df_transformed := setitem df_transformed "word_count" c in
  let df_transformed := setitem_scalar df_transformed "created_at" (VStr now) in
  l ← getitem df_transformed "body_length";
  let df_transformed :=
    setitem df_transformed "post_category"
      (categorical_astype_str (pd_cut category_bins category_labels l)) in
  mret df_transformed.

End Transformer.
End Transform.

(** ** The world the loader and the analytics act on *)

(** The processed snapshots on disk, by date and file name; the tables of
    the relational store; and the queries sent to the store so far. *)
Record World : Type := mkWorld {
  processed_files : gmap (string * string) DataFrame;
  tables : gmap string DataFrame;
  queries_run : list string
}.

Definition set_tables (t : gmap string DataFrame) (w : World) : World :=
  {| processed_files := processed_files w; tables := t;
     queries_run := queries_run w |}.

Definition log_query (name : string) (w : World) : World :=
  {| processed_files := processed_files w; tables := tables w;
     queries_run := queries_run w ++ [name] |}.

(** A method that reads and writes the world and may raise; the world an
    exception leaves behind is kept, for the handler that catches it. *)
Definition Run (A : Type) : Type := World -> result A * World.

#[global] Instance Run_ret : MRet Run := fun A (a : A) (w : World) => (Ok a, w).
#[global] Instance Run_bind : MBind Run :=
  fun A B (f : A -> Run B) (m : Run A) (w : World) =>
    match m w with
    | (Ok a, w') => f a w'
    | (Raise e, w') => (Raise e, w')
    end.

(** [raise e] *)
Definition raise {A : Type} (e : exn) : Run A := fun w => (Raise e, w).

(** [try: body / except Exception as e: handler(e)] *)
Definition try_except {A : Type} (body : Run A) (handler : exn -> Run A) : Run A :=
  fun w =>
    match body w with
    | (Ok a, w') => (Ok a, w')
    | (Raise e, w') => handler e w'
    end.

(** A call that touches no part of the world. *)
Definition pure_call {A : Type} (r : result A) : Run A := fun w => (r, w).

(** ** The loader ([src/load.py], class [DatabaseLoader]) *)

Module Loader.

Definition LENGTH_RULES : gmap string (list (string * nat)) :=
  list_to_map
    [("users", [("username", 100); ("name", 200); ("email", 200);
                ("phone", 50); ("website", 200); ("city", 100);
                ("zipcode", 20); ("company_name", 200);
                ("email_domain", 100)]%nat);
     ("posts", [("title", 500); ("post_category", 20)]%nat)].

(** The tables the declarative models [User] and [Post] describe. *)
Definition metadata : list (string * list string) :=
  [("users", ["user_id"; "username"; "name"; "email"; "phone"; "website";
              "city"; "zipcode"; "lat"; "lng"; "company_name";
              "company_catchphrase"; "email_domain"; "has_coordinates";
              "created_at"]);
   ("posts", ["post_id"; "user_id"; "title"; "body"; "title_length";
              "body_length"; "word_count"; "post_category"; "created_at"])].

(** What the loader asks of the storage engine. *)
Inductive engine_op : Type :=
  | OpCreateAll
  | OpToSql (table_name : string) (df : DataFrame)
  | OpCount (table_name : string).

(** The result of one load, as [verify_data_load] and the handlers of
    [load_all_data] build it: the keys "table", "count" and, in a
    handler, "error". *)
Record load_result : Type := mkLoadResult {
  res_table : string;
  res_count : nat;
  res_error : option string
}.

Section DatabaseLoader.
Context `{Pandas}.

(** [datetime.now().strftime("%Y-%m-%d")] at the time of the call. *)
Variable today : string.

(** The engine is outside the pipeline: [engine_fault op t] is the
    exception with which it refuses [op] on the tables [t], if it does,
    and the tables it leaves. *)
Variable engine_fault :
  engine_op -> gmap string DataFrame -> option (exn * gmap string DataFrame).

Definition empty_table (cols : list string) : DataFrame :=
  {| index := 0; columns := list_to_map ((fun c => (c, [])) <$> cols) |}.

(** [Base.metadata.create_all(engine)]: a declared table that the store
    lacks is created empty. *)
Definition create_all (t : gmap string DataFrame) : gmap string DataFrame :=
  foldr (fun '(name, cols) acc =>
           match acc !! name with
           | Some _ => acc
           | None => <[name := empty_table cols]> acc
           end) t metadata.

Definition create_tables : Run unit :=
  fun w =>
    match engine_fault OpCreateAll (tables w) with
    | Some (e, t') => (Raise e, set_tables t' w)
    | None => (Ok (), set_tables (create_all (tables w)) w)
    end.

Definition load_processed_data (filename : string) (date : option string)
  : Run DataFrame :=
  let date := default today date in
  fun w =>
    match processed_files w !! (date, filename) with
    | None => (Raise (FileNotFoundError (date +:+ "/" +:+ filename)), w)
    | Some df => (Ok df, w)
    end.

Definition has_column (df : DataFrame) (k : string) : bool :=
  bool_decide (is_Some (columns df !! k)).

(** One round of the loop over the length rules of a table. *)
Definition enforce_length (df_clean : DataFrame) (rule : string * nat)
  : result DataFrame :=
  let '(col, max_len) := rule in
  if has_column df_clean col
  then c ← getitem df_clean col;
       if is_string_dtype c
       then c ← getitem df_clean col;
            c ← str_slice_to max_len (astype_str c);
            mret (setitem df_clean col c)
       else mret df_clean
  else mret df_clean.

Definition clean_dataframe_for_db (df : DataFrame) (table_type : string)
  : result DataFrame :=
  let df_clean := df in
  df_clean ←
    (if has_column df_clean "created_at"
     then c ← getitem df_clean "created_at";
          mret (setitem df_clean "created_at" (to_datetime_coerce c))
     else mret df_clean);
  df_clean ←
    match LENGTH_RULES !! table_type with
    | Some rules => for_each enforce_length rules df_clean
    | None => mret df_clean
    end;
  mret df_clean.

(** [df.to_sql(table_name, engine, if_exists="replace", index=False)]:
    the table is dropped and created anew from the frame. *)
Definition to_sql (df : DataFrame) (table_name : string) : Run unit :=
  fun w =>
    match engine_fault (OpToSql table_name df) (tables w) with
    | Some (e, t') => (Raise e, set_tables t' w)
    | None => (Ok (), set_tables (<[table_name := df]> (tables w)) w)
    end.

(** No caller passes [if_exists]: it is "replace" throughout. *)
Definition load_to_database (df : DataFrame) (table_name : string) : Run unit :=
  try_except (to_sql df table_name) (fun e => raise e).

(** The query that counts the rows of [table_name]. *)
Definition verify_data_load (table_name : string) : Run load_result :=
  fun w =>
    match engine_fault (OpCount table_name) (tables w) with
    | Some (e, t') => (Raise e, set_tables t' w)
    | None =>
        match tables w !! table_name with
        | Some df =>
            (Ok {| res_table := table_name; res_count := index df;
                   res_error := None |}, w)
        | None => (Raise (EngineError ("no such table: " +:+ table_name)), w)
        end
    end.

Definition load_all_data (date : option string) : Run (gmap string load_result) :=
  let results : gmap string load_result := ∅ in
  _ ← create_tables;
  r ← try_except
        (users_df ← load_processed_data "users.parquet" date;
         users_df_clean ← pure_call (clean_dataframe_for_db users_df "users");
         _ ← load_to_database users_df_clean "users";
         verify_data_load "users")
        (fun e => mret {| res_table := "users"; res_count := 0;
                          res_error := Some (str_exn e) |});
  let results := <["users" := r]> results in
  r ← try_except
        (posts_df ← load_processed_data "posts.parquet" date;
         posts_df_clean ← pure_call (clean_dataframe_for_db posts_df "posts");
         _ ← load_to_database posts_df_clean "posts";
         verify_data_load "posts")
        (fun e => mret {| res_table := "posts"; res_count := 0;
                          res_error := Some (str_exn e) |});
  let results := <["posts" := r]> results in
  mret results.

(** The load stage of the orchestrator ([main.py], [DataPipeline.run_load]):
    whatever [load_all_data] raises is logged and raised again. *)
Definition run_load : Run (gmap string load_result) :=
  try_except (load_all_data None) (fun e => raise e).

End DatabaseLoader.
End Loader.

(** ** The analytics ([src/analytics.py], class [DataAnalytics]) *)

Module Analytics.

(** The three fixed aggregate queries: the user statistics (the counts of
    users, of distinct email domains, of users with coordinates and with
    a company), the post statistics (the counts of posts and of authors,
    and averages and extrema of the lengths), and the posts of each user
    (a left join of users with posts, grouped by user). *)
Inductive sql_query : Type :=
  | user_statistics_sql
  | post_statistics_sql
  | user_post_activity_sql.

(** One entry of [report["analytics"]]: the keys "data" and
    "record_count", with "columns" after a query that succeeded and
    "error" after one that failed. *)
Record entry : Type := mkEntry {
  entry_error : option string;
  entry_data : list (gmap string value);
  entry_record_count : nat;
  entry_columns : option (gset string)
}.

Record report : Type := mkReport {
  generated_at : string;
  database : string;
  analytics : gmap string entry
}.

(** [df.to_dict('records')]: one dict per row. *)
Definition to_dict_records (df : DataFrame) : list (gmap string value) :=
  (fun i => (fun s : Series => default NaN (s !! i)) <$> columns df)
    <$> seq 0 (index df).

Section DataAnalytics.

(** [datetime.now().isoformat()] and [self.db_path]. *)
Variable now : string.
Variable db_path : string.

(** [pd.read_sql(query, con=conn)]: the engine's answer on the tables. *)
Variable read_sql : sql_query -> gmap string DataFrame -> result DataFrame.

Definition execute_query (query : sql_query) (query_name : string) : Run DataFrame :=
  try_except
    (fun w => (read_sql query (tables w), log_query query_name w))
    (fun e => raise e).

Definition user_statistics : Run DataFrame :=
  execute_query user_statistics_sql "user_statistics".

Definition post_statistics : Run DataFrame :=
  execute_query post_statistics_sql "post_statistics".

Definition user_post_activity : Run DataFrame :=
  execute_query user_post_activity_sql "user_post_activity".

Definition analytics_functions : list (string * Run DataFrame) :=
  [("user_statistics", user_statistics);
   ("post_statistics", post_statistics);
   ("user_post_activity", user_post_activity)].

Definition set_analytics (name : string) (e : entry) (r : report) : report :=
  {| generated_at := generated_at r; database := database r;
     analytics := <[name := e]> (analytics r) |}.

Definition success_entry (df : DataFrame) : entry :=
  {| entry_error := None;
     entry_data := to_dict_records df;
     entry_record_count := df_len df;
     entry_columns := Some (dom (columns df)) |}.

Definition error_entry (e : exn) : entry :=
  {| entry_error := Some (str_exn e);
     entry_data := [];
     entry_record_count := 0;
     entry_columns := None |}.

(** The body of the loop of [generate_report]. *)
Definition run_analysis (r : report) (item : string * Run DataFrame) : Run report :=
  let '(name, func) := item in
  try_except
    (df ← func; mret (set_analytics name (success_entry df) r))
    (fun e => mret (set_analytics name (error_entry e) r)).

Definition generate_report : Run report :=
  let report := {| generated_at := now; database := db_path; analytics := ∅ |} in
  for_each run_analysis analytics_functions report.

End DataAnalytics.
End Analytics.

(** ** A small instance of the pandas interface

    Enough of pandas to run the model on examples: it reads integer
    literals only as numbers and parses no timestamp text. *)

Module SimplePandas.

Definition infer_dtype (col : Series) : string :=
  if existsb is_container col
  then (if forallb (fun v => is_str v || isna v) col then "string" else "mixed")
  else if forallb isna col then "empty" else "numeric".

Fixpoint digits (s : string) (acc : Z) : option Z :=
  match s with
  | EmptyString => Some acc
  | String c s' =>
      let n := Z.of_N (N_of_ascii c) in
      if (48 <=? n)%Z && (n <=? 57)%Z then digits s' (10 * acc + (n - 48)) else None
  end.

Definition to_numeric_coerce (v : value) : value :=
  match v with
  | VInt _ | VFloat _ => v
  | VBool b => VInt (if b then 1 else 0)
  | VStr (String c s) =>
      match digits (String c s) 0 with Some z => VInt z | None => NaN end
  | _ => NaN
  end.

Definition is_string_dtype (col : Series) : bool :=
  match col with [] => false | _ => forallb is_str col end.

Definition to_datetime_coerce (col : Series) : Series :=
  (fun v => match v with VTimestamp ns => VTimestamp ns | _ => VNaT end) <$> col.

Definition py_str (v : value) : string :=
  match v with
  | VStr s => s
  | VNone => "None"
  | VBool true => "True"
  | VBool false => "False"
  | VNaT => "NaT"
  | _ => "nan"
  end.

End SimplePandas.

(** ** The files of the pipeline

    The pipeline is run from the directory of [main.py], where the data
    directory of the extractor, of the transformer and of the loader is
    the same directory, and the database of the loader is the database of
    the analytics. A raw file holds the JSON array of objects that was
    written to it; directories are not part of the state. *)

(** A file under [reports]: the frame of a CSV file, the report of the
    JSON file. *)
Inductive report_file : Type :=
  | CsvFile (df : DataFrame)
  | JsonFile (r : Analytics.report).

(** The raw files by date and file name, the world of the loader and the
    analytics, and the reports by file name. *)
Record Site : Type := mkSite {
  raw_files : gmap (string * string) (list (gmap string value));
  world : World;
  report_files : gmap string report_file
}.

Definition set_raw_files (f : gmap (string * string) (list (gmap string value)))
    (s : Site) : Site :=
  {| raw_files := f; world := world s; report_files := report_files s |}.

Definition set_world (w : World) (s : Site) : Site :=
  {| raw_files := raw_files s; world := w; report_files := report_files s |}.

Definition set_report_files (f : gmap string report_file) (s : Site) : Site :=
  {| raw_files := raw_files s; world := world s; report_files := f |}.

(** A method that reads and writes the files and the world, and may
    raise. *)
Definition Act (A : Type) : Type := Site -> result A * Site.

#[global] Instance Act_ret : MRet Act := fun A (a : A) (s : Site) => (Ok a, s).
#[global] Instance Act_bind : MBind Act :=
  fun A B (f : A -> Act B) (m : Act A) (s : Site) =>
    match m s with
    | (Ok a, s') => f a s'
    | (Raise e, s') => (Raise e, s')
    end.

Definition act_raise {A : Type} (e : exn) : Act A := fun s => (Raise e, s).

(** [try: body / except Exception as e: handler(e)] *)
Definition act_try {A : Type} (body : Act A) (handler : exn -> Act A) : Act A :=
  fun s =>
    match body s with
    | (Ok a, s') => (Ok a, s')
    | (Raise e, s') => handler e s'
    end.

(** A method of the loader or of the analytics, run on the world of the
    site. *)
Definition on_world {A : Type} (m : Run A) : Act A :=
  fun s => let '(r, w') := m (world s) in (r, set_world w' s).

(** A call that touches no file. *)
Definition act_pure {A : Type} (r : result A) : Act A := fun s => (r, s).

(** ** The extractor ([src/extract.py], class [DataExtractor]) *)

Module Extractor.

(** [s.rstrip(c)] for one character [c]. *)
Fixpoint rstrip_char (c : ascii) (s : string) : string :=
  match s with
  | EmptyString => EmptyString
  | String c' s' =>
      match rstrip_char c s' with
      | EmptyString => if Ascii.eqb c' c then EmptyString else String c' EmptyString
      | r => String c' r
      end
  end.

Section DataExtractor.

(** [self.base_url], and [datetime.now().strftime("%Y-%m-%d")] during
    the stage. *)
Variable base_url : string.
Variable today : string.

(** The network is outside the pipeline: [http_get url params] is what
    [requests.get], [raise_for_status] and [response.json] give for the
    request, the decoded body or the exception. *)
Variable http_get :
  string -> option (gmap string string) -> result (list (gmap string value)).

(** So is the disk: [raw_fault path data files] is the exception with
    which creating the directory of the day or writing [data] to [path]
    fails, if it does, and the files it leaves. *)
Variable raw_fault :
  string * string -> list (gmap string value) ->
  gmap (string * string) (list (gmap string value)) ->
  option (exn * gmap (string * string) (list (gmap string value))).

(** The directory of the day; one that exists is no error. *)
Definition create_directories : Act string := mret today.

Definition request_url (endpoint : string) : string :=
  rstrip_char "/" base_url +:+ endpoint.

(** The handler catches the exceptions of the request, logs and raises
    them again; any other exception leaves the method as well. *)
Definition fetch_data (endpoint : string) (params : option (gmap string string))
  : Act (list (gmap string value)) :=
  let url := request_url endpoint in
  act_try (act_pure (http_get url params)) (fun e => act_raise e).

Definition save_raw_data (data : list (gmap string value)) (filename : option string)
  : Act (string * string) :=
  let filename := default "response.json" filename in
  raw_dir ← create_directories;
  let file_path := (raw_dir, filename) in
  act_try
    (fun s =>
       match raw_fault file_path data (raw_files s) with
       | Some (e, files') => (Raise e, set_raw_files files' s)
       | None => (Ok file_path, set_raw_files (<[file_path := data]> (raw_files s)) s)
       end)
    (fun e => act_raise e).

Definition extract_and_save (endpoint filename : string)
    (params : option (gmap string string)) : Act (list (gmap string value)) :=
  data ← fetch_data endpoint params;
  _ ← save_raw_data data (Some filename);
  mret data.

End DataExtractor.
End Extractor.

(** ** The files of the transformer ([src/transform.py]) *)

Module TransformFiles.
Section DataTransformer.
Context `{Pandas}.

(** [datetime.now().isoformat()] inside a transform, and
    [datetime.now().strftime("%Y-%m-%d")] during the stage. *)
Variable now : string.
Variable today : string.

(** [parquet_fault path df files] is the exception with which
    converting [df] to an Arrow table or writing it to [path] fails, if
    it does, and the snapshots it leaves. *)
Variable parquet_fault :
  string * string -> DataFrame -> gmap (string * string) DataFrame ->
  option (exn * gmap (string * string) DataFrame).

Definition create_processed_directory : Act string := mret today.

(** The exception carries the path below the raw directory; its text is
    read by no method of the pipeline. *)
Definition load_raw_data (filename : string) (date : option string)
  : Act (list (gmap string value)) :=
  let date := default today date in
  fun s =>
    match raw_files s !! (date, filename) with
    | None => (Raise (FileNotFoundError (date +:+ "/" +:+ filename)), s)
    | Some data => (Ok data, s)
    end.

Definition set_processed_files (f : gmap (string * string) DataFrame) (s : Site)
  : Site :=
  set_world {| processed_files := f; tables := tables (world s);
               queries_run := queries_run (world s) |} s.

(** [pa.Table.from_pandas(df)] and [pq.write_table(table, file_path)]. *)
Definition write_table (df : DataFrame) (file_path : string * string)
  : Act (string * string) :=
  fun s =>
    match parquet_fault file_path df (processed_files (world s)) with
    | Some (e, files') => (Raise e, set_processed_files files' s)
    | None =>
        (Ok file_path,
         set_processed_files (<[file_path := df]> (processed_files (world s))) s)
    end.

Definition save_to_parquet (df : DataFrame) (filename : string)
  : Act (string * string) :=
  processed_dir ← create_processed_directory;
  let file_path := (processed_dir, filename) in
  write_table df file_path.

Definition process_data (raw_filename processed_filename data_type : string)
  : Act DataFrame :=
  raw_data ← load_raw_data raw_filename None;
  df_processed ←
    (if String.eqb data_type "users"
     then act_pure (Transform.transform_users_data now raw_data)
     else if String.eqb data_type "posts"
     then act_pure (Transform.transform_posts_data now raw_data)
     else act_raise (ValueError "Unknown data type"));
  _ ← save_to_parquet df_processed processed_filename;
  mret df_processed.

End DataTransformer.
End TransformFiles.

(** ** The reports of the analytics ([src/analytics.py]) *)

Module Reports.

(** What [run_analytics] returns. *)
Record analytics_result : Type := mkAnalyticsResult {
  json_report : string;
  csv_files : list string;
  queries_executed : list string;
  total_csv_files : nat
}.

(** The names under which [generate_report] files its entries, in the
    order in which it inserts them. *)
Definition analysis_names : list string :=
  ["user_statistics"; "post_statistics"; "user_post_activity"].

(** [report["analytics"].items()] for a report of [generate_report]: the
    entries in the order of their insertion. *)
Definition items (r : Analytics.report) : list (string * Analytics.entry) :=
  omap (fun name => pair name <$> Analytics.analytics r !! name) analysis_names.

Section DataAnalytics.

(** [datetime.now()] as [generate_report] and the two savers format
    it, and [self.db_path]. *)
Variable now : string.
Variable csv_stamp : string.
Variable json_stamp : string.
Variable db_path : string.

Variable read_sql :
  Analytics.sql_query -> gmap string DataFrame -> result DataFrame.

(** [report_fault name file files] is the exception with which writing
    [file] under the name [name] fails, if it does, and the reports it
    leaves. *)
Variable report_fault :
  string -> report_file -> gmap string report_file ->
  option (exn * gmap string report_file).

Definition write_report (filename : string) (file : report_file) : Act string :=
  fun s =>
    match report_fault filename file (report_files s) with
    | Some (e, files') => (Raise e, set_report_files files' s)
    | None =>
        (Ok filename, set_report_files (<[filename := file]> (report_files s)) s)
    end.

(** The body of the loop of [save_csv_reports]. *)
Definition save_csv (saved_files : list string) (item : string * Analytics.entry)
  : Act (list string) :=
  let '(analysis_name, analysis_data) := item in
  match Analytics.entry_data analysis_data with
  | [] => mret saved_files
  | data =>
      let df := DataFrame_from_records data in
      let filename := analysis_name +:+ "_" +:+ csv_stamp +:+ ".csv" in
      file_path ← write_report filename (CsvFile df);
      mret (saved_files ++ [file_path])%list
  end.

Definition save_csv_reports (report : Analytics.report) : Act (list string) :=
  for_each save_csv (items report) [].

Definition save_json_report (report : Analytics.report) : Act string :=
  let filename := "summary_report_" +:+ json_stamp +:+ ".json" in
  write_report filename (JsonFile report).

Definition run_analytics : Act analytics_result :=
  report ← on_world (Analytics.generate_report now db_path read_sql);
  csv_files ← save_csv_reports report;
  json_file ← save_json_report report;
  mret {| json_report := json_file;
          csv_files := csv_files;
          queries_executed := (items report).*1;
          total_csv_files := length csv_files |}.

End DataAnalytics.
End Reports.

(** ** The orchestrator ([main.py], class [DataPipeline]) *)

Module Pipeline.

(** What is outside the pipeline: the network, the disk, the store, and
    the clock as each stage reads it. *)
Record Outside : Type := mkOutside {
  http_get :
    string -> option (gmap string string) -> result (list (gmap string value));
  raw_fault :
    string * string -> list (gmap string value) ->
    gmap (string * string) (list (gmap string value)) ->
    option (exn * gmap (string * string) (list (gmap string value)));
  parquet_fault :
    string * string -> DataFrame -> gmap (string * string) DataFrame ->
    option (exn * gmap (string * string) DataFrame);
  engine_fault :
    Loader.engine_op -> gmap string DataFrame ->
    option (exn * gmap string DataFrame);
  read_sql : Analytics.sql_query -> gmap string DataFrame -> result DataFrame;
  report_fault :
    string -> report_file -> gmap string report_file ->
    option (exn * gmap string report_file);
  extract_day : string;
  transform_day : string;
  transform_now : string;
  load_day : string;
  report_now : string;
  csv_stamp : string;
  json_stamp : string;
  start_time : string;
  end_time : string;
  (** [(end_time - start_time).total_seconds()], in microseconds. *)
  duration_micros : Z
}.

(** The entries of the results of the first two stages. *)
Record extract_entry : Type := mkExtractEntry {
  extract_success : bool;
  extract_count : nat;
  extract_data : list (gmap string value)
}.

Record transform_entry : Type := mkTransformEntry {
  transform_success : bool;
  transform_count : nat;
  transform_columns : gset string
}.

(** [pipeline_results] of a run that succeeded. *)
Record pipeline_results : Type := mkPipelineResults {
  results_start_time : string;
  stage_extract : gmap string extract_entry;
  stage_transform : gmap string transform_entry;
  stage_load : gmap string Loader.load_result;
  stage_analytics : Reports.analytics_result;
  results_end_time : string;
  results_duration : Z;
  results_success : bool
}.

(** What a single stage returns. *)
Inductive stage_results : Type :=
  | ExtractResults (r : gmap string extract_entry)
  | TransformResults (r : gmap string transform_entry)
  | LoadResults (r : gmap string Loader.load_result)
  | AnalyticsResults (r : Reports.analytics_result).

(** [d[k]] on the dict of the stages. *)
Fixpoint stage_lookup {A : Type} (stages : list (string * A)) (stage : string)
  : option A :=
  match stages with
  | [] => None
  | (name, run) :: rest =>
      if String.eqb name stage then Some run else stage_lookup rest stage
  end.

Section DataPipeline.
Context `{Pandas}.

Variable api_url : string.
Variable db_path : string.
Variable out : Outside.

(** In both stages the handler sets an "error" in a dict it then drops,
    and raises the exception again. *)
Definition run_extract : Act (gmap string extract_entry) :=
  let results : gmap string extract_entry := ∅ in
  act_try
    (users_data ←
       Extractor.extract_and_save api_url (extract_day out) (http_get out)
         (raw_fault out) "/users" "users.json" None;
     let results :=
       <["users" := {| extract_success := true;
                       extract_count := length users_data;
                       extract_data := users_data |}]> results in
     posts_data ←
       Extractor.extract_and_save api_url (extract_day out) (http_get out)
         (raw_fault out) "/posts" "posts.json" None;
     let results :=
       <["posts" := {| extract_success := true;
                       extract_count := length posts_data;
                       extract_data := posts_data |}]> results in
     mret results)
    (fun e => act_raise e).

Definition run_transform : Act (gmap string transform_entry) :=
  let results : gmap string transform_entry := ∅ in
  act_try
    (users_df ←
       TransformFiles.process_data (transform_now out) (transform_day out)
         (parquet_fault out) "users.json" "users.parquet" "users";
     let results :=
       <["users" := {| transform_success := true;
                       transform_count := df_len users_df;
                       transform_columns := dom (columns users_df) |}]> results in
     posts_df ←
       TransformFiles.process_data (transform_now out) (transform_day out)
         (parquet_fault out) "posts.json" "posts.parquet" "posts";
     let results :=
       <["posts" := {| transform_success := true;
                       transform_count := df_len posts_df;
                       transform_columns := dom (columns posts_df) |}]> results in
     mret results)
    (fun e => act_raise e).

Definition run_load : Act (gmap string Loader.load_result) :=
  on_world (Loader.run_load (load_day out) (engine_fault out)).

Definition run_analytics : Act Reports.analytics_result :=
  act_try
    (Reports.run_analytics (report_now out) (csv_stamp out) (json_stamp out)
       db_path (read_sql out) (report_fault out))
    (fun e => act_raise e).

Definition run_full_pipeline : Act pipeline_results :=
  act_try
    (extract ← run_extract;
     transform ← run_transform;
     load ← run_load;
     analytics ← run_analytics;
     mret {| results_start_time := start_time out;
             stage_extract := extract;
             stage_transform := transform;
             stage_load := load;
             stage_analytics := analytics;
             results_end_time := end_time out;
             results_duration := duration_micros out;
             results_success := true |})
    (fun e => act_raise e).

Definition stages : list (string * Act stage_results) :=
  [("extract", r ← run_extract; mret (ExtractResults r));
   ("transform", r ← run_transform; mret (TransformResults r));
   ("load", r ← run_load; mret (LoadResults r));
   ("analytics", r ← run_analytics; mret (AnalyticsResults r))].

Definition run_single_stage (stage : string) : Act stage_results :=
  match stage_lookup stages stage with
  | None =>
      act_raise
        (ValueError ("Unknown stage: " +:+ stage +:+
                     ". Available: ['extract', 'transform', 'load', 'analytics']"))
  | Some run => run
  end.

End DataPipeline.
End Pipeline.

(** ** Vocabulary of the statements *)

(** Some dict of the list has the key [k]: the frame built from the list
    has the column [k]. *)
Definition has_key (data : list (gmap string value)) (k : string) : bool :=
  existsb (fun r : gmap string value => bool_decide (is_Some (r !! k))) data.

(** The row [i] of a frame, as a dict. *)
Definition row (df : DataFrame) (i : nat) : option (gmap string value) :=
  if bool_decide (i < index df)%nat
  then Some ((fun s : Series => default NaN (s !! i)) <$> columns df)
  else None.

Module TransformSpec.
Section Rows.
Context `{Pandas}.
Variable now : string.
Import Transform.

Definition granted (s : Series) : bool :=
  bool_decide (infer_dtype s ∈ str_allowed_types).

(** The address of a record lets [geo_field] through: it is no dict, or
    its "geo" is absent or a dict. *)
Definition geo_ok (x : value) : bool :=
  match x with
  | VDict d =>
      match d !! "geo" with
      | None | Some (VDict _) => true
      | Some _ => false
      end
  | _ => true
  end.

(** What the two lambdas return, where they return. *)
Definition field_or_empty_value (k : string) (x : value) : value :=
  match x with
  | VDict d => default (VStr "") (d !! k)
  | _ => VStr ""
  end.

Definition geo_value (k : string) (x : value) : value :=
  match x with
  | VDict d =>
      match d !! "geo" with
      | Some (VDict g) => default VNone (g !! k)
      | _ => VNone
      end
  | _ => VNone
  end.

(** The columns [transform_users_data] assigns, before the final fill. *)
Definition users_columns (users : list (gmap string value)) : gmap string Series :=
  let email := str_map lower_f (column_of users "email") in
  let lat := to_numeric (geo_value "lat" <$> column_of users "address") in
  let lng := to_numeric (geo_value "lng" <$> column_of users "address") in
  <["created_at" := replicate (length users) (VStr now)]>
  (<["has_coordinates" := neither_isna lat lng]>
  (<["email_domain" := str_map (get_f 1) (str_map (split_f "@") email)]>
  (<["company_catchphrase" :=
       field_or_empty_value "catchPhrase" <$> column_of users "company"]>
  (<["company_name" := field_or_empty_value "name" <$> column_of users "company"]>
  (<["lng" := lng]>
  (<["lat" := lat]>
  (<["zipcode" := field_or_empty_value "zipcode" <$> column_of users "address"]>
  (<["city" := field_or_empty_value "city" <$> column_of users "address"]>
  (<["website" := column_of users "website"]>
  (<["phone" := column_of users "phone"]>
  (<["email" := email]>
  (<["name" := column_of users "name"]>
  (<["username" := column_of users "username"]>
  ({["user_id" := column_of users "id"]})))))))))))))).

Definition users_frame (users : list (gmap string value)) : DataFrame :=
  fillna (VStr "") {| index := length users; columns := users_columns users |}.

(** When [transform_users_data] returns: every key it reads is in some
    record, pandas grants [.str] on the e-mail columns, and no address
    stops [geo_field]. *)
Definition users_pre (users : list (gmap string value)) : bool :=
  let email := str_map lower_f (column_of users "email") in
  forallb (has_key users)
    ["id"; "username"; "name"; "email"; "phone"; "website"; "address"; "company"]
  && granted (column_of users "email")
  && granted email
  && granted (str_map (split_f "@") email)
  && forallb geo_ok (column_of users "address").

(** The row of one record, from that record alone. *)
Definition user_row (r : gmap string value) : gmap string value :=
  let at_key k := default NaN (r !! k) in
  let email := str_cell lower_f (at_key "email") in
  let lat := to_numeric_coerce (geo_value "lat" (at_key "address")) in
  let lng := to_numeric_coerce (geo_value "lng" (at_key "address")) in
  fillna_cell (VStr "") <$>
  (<["created_at" := VStr now]>
  (<["has_coordinates" := neither_isna_cell lat lng]>
  (<["email_domain" := str_cell (get_f 1) (str_cell (split_f "@") email)]>
  (<["company_catchphrase" := field_or_empty_value "catchPhrase" (at_key "company")]>
  (<["company_name" := field_or_empty_value "name" (at_key "company")]>
  (<["lng" := lng]>
  (<["lat" := lat]>
  (<["zipcode" := field_or_empty_value "zipcode" (at_key "address")]>
  (<["city" := field_or_empty_value "city" (at_key "address")]>
  (<["website" := at_key "website"]>
  (<["phone" := at_key "phone"]>
  (<["email" := email]>
  (<["name" := at_key "name"]>
  (<["username" := at_key "username"]>
  ({["user_id" := at_key "id"]}))))))))))))))).

(** The columns [transform_posts_data] assigns. *)
Definition posts_columns (posts : list (gmap string value)) : gmap string Series :=
  let title := str_map strip_f (column_of posts "title") in
  let body := str_map strip_f (column_of posts "body") in
  let body_length := str_map len_f body in
  <["post_category" :=
      categorical_astype_str (pd_cut category_bins category_labels body_length)]>
  (<["created_at" := replicate (length posts) (VStr now)]>
  (<["word_count" := str_map len_f (str_map split_ws_f body)]>
  (<["body_length" := body_length]>
  (<["title_length" := str_map len_f title]>
  (<["body" := body]>
  (<["title" := title]>
  (<["user_id" := column_of posts "userId"]>
  ({["post_id" := column_of posts "id"]})))))))).

Definition posts_frame (posts : list (gmap string value)) : DataFrame :=
  {| index := length posts; columns := posts_columns posts |}.

(** When [transform_posts_data] returns: every key it reads is in some
    record, and pandas grants [.str] on the text columns and on what the
    code derives from them. *)
Definition posts_pre (posts : list (gmap string value)) : bool :=
  let title := str_map strip_f (column_of posts "title") in
  let body := str_map strip_f (column_of posts "body") in
  forallb (has_key posts) ["id"; "userId"; "title"; "body"]
  && granted (column_of posts "title")
  && granted (column_of posts "body")
  && granted title
  && granted body
  && granted (str_map split_ws_f body).

(** The row of one record, from that record alone. *)
Definition post_row (r : gmap string value) : gmap string value :=
  let at_key k := default NaN (r !! k) in
  let title := str_cell strip_f (at_key "title") in
  let body := str_cell strip_f (at_key "body") in
  let body_length := str_cell len_f body in
  <["post_category" :=
      category_text (cut_cell category_bins category_labels body_length)]>
  (<["created_at" := VStr now]>
  (<["word_count" := str_cell len_f (str_cell split_ws_f body)]>
  (<["body_length" := body_length]>
  (<["title_length" := str_cell len_f title]>
  (<["body" := body]>
  (<["title" := title]>
  (<["user_id" := at_key "userId"]>
  ({["post_id" := at_key "id"]})))))))).

(** The category of a post by the length of its trimmed body, as the
    code gives it: the three labels from the length 1 on, the text of NaN
    on the length 0. *)
Definition category_of_length (n : nat) : string :=
  if (n =? 0)%nat then "nan"
  else if (n <=? 100)%nat then "short"
  else if (n <=? 200)%nat then "medium"
  else "long".

(** Raw records the transform accepts: each key it reads is in some
    record, some record has a string under each key it treats as text,
    and a "geo" that is present is a dict. *)
Definition has_text (data : list (gmap string value)) (k : string) : bool :=
  existsb (fun r : gmap string value => is_str (default NaN (r !! k))) data.

Definition users_wellformed (users : list (gmap string value)) : bool :=
  forallb (has_key users)
    ["id"; "username"; "name"; "email"; "phone"; "website"; "address"; "company"]
  && has_text users "email"
  && forallb geo_ok (column_of users "address").

Definition posts_wellformed (posts : list (gmap string value)) : bool :=
  forallb (has_key posts) ["id"; "userId"; "title"; "body"]
  && has_text posts "title"
  && has_text posts "body".

End Rows.
End TransformSpec.

Module LoaderSpec.
Section Cleaning.
Context `{Pandas}.

(** What one length rule does to the column [k]: the column the rule
    names is cut to the length of the rule if pandas takes it for a
    column of strings. *)
Definition enforce_rule (rule : string * nat) (k : string) (c : Series) : Series :=
  if bool_decide (k = rule.1) && is_string_dtype c
  then str_map (slice_to_f rule.2) (astype_str c)
  else c.

Definition enforce_rules (rules : list (string * nat)) (k : string) (c : Series)
  : Series :=
  foldl (fun c rule => enforce_rule rule k c) c rules.

End Cleaning.

Section Blocks.
Context `{Pandas}.
Variable today : string.
Variable engine_fault :
  Loader.engine_op -> gmap string DataFrame -> option (exn * gmap string DataFrame).

(** The guarded block of [load_all_data] for one kind. *)
Definition load_block (filename table_name : string) (date : option string)
  : Run Loader.load_result :=
  try_except
    (df ← Loader.load_processed_data today filename date;
     df_clean ← pure_call (Loader.clean_dataframe_for_db df table_name);
     _ ← Loader.load_to_database engine_fault df_clean table_name;
     Loader.verify_data_load engine_fault table_name)
    (fun e => mret {| Loader.res_table := table_name; Loader.res_count := 0;
                      Loader.res_error := Some (str_exn e) |}).

End Blocks.
End LoaderSpec.

(** The small instance satisfies the laws of the interface. *)
#[global, refine] Instance simple_pandas : Pandas := {|
  infer_dtype := SimplePandas.infer_dtype;
  to_numeric_coerce := SimplePandas.to_numeric_coerce;
  is_string_dtype := SimplePandas.is_string_dtype;
  to_datetime_coerce := SimplePandas.to_datetime_coerce;
  py_str := SimplePandas.py_str
|}.
Proof.
  - intros col Hex. unfold SimplePandas.infer_dtype.
    assert (existsb is_container col = true) as ->.
    { apply existsb_exists. apply Exists_exists in Hex as (v & Hv & Hc).
      exists v. split; [by apply list_elem_of_In | done]. }
    unfold str_allowed_types. destruct (forallb _ col); set_solver.
  - intros col Hall. unfold SimplePandas.infer_dtype, str_allowed_types.
    destruct col as [|w col]; [set_solver |].
    assert (forallb (fun v => is_str v || isna v) (w :: col) = true) as ->.
    { apply forallb_forall. intros v Hv. rewrite Forall_forall in Hall.
      rewrite Hall; [done | by apply list_elem_of_In]. }
    inversion_clear Hall as [|? ? Hw _]. destruct w; try done. set_solver.
  - reflexivity.
  - intros v. destruct v as [| [] | | | [|c s] | | | |]; try done.
    unfold SimplePandas.to_numeric_coerce.
    by destruct (SimplePandas.digits _ _).
  - intros col Hne Hall. destruct col as [|v col]; [done |].
    unfold SimplePandas.is_string_dtype. apply forallb_forall.
    intros x Hx. rewrite Forall_forall in Hall. apply Hall.
    by apply list_elem_of_In.
  - intros col. apply length_fmap.
  - intros col. unfold SimplePandas.to_datetime_coerce.
    induction col as [|v col IH]; simpl; constructor; [by destruct v | done].
  - reflexivity.
Defined.

(** ** Inputs the statements are run on *)

Module Examples.

Definition bob : gmap string value :=
  list_to_map
    [("id", VInt 1); ("username", VStr "bob"); ("name", VStr "Bob");
     ("email", VStr "BOB@X.com"); ("phone", VStr "1"); ("website", VStr "w");
     ("address",
      VDict (list_to_map
               [("city", VStr "A"); ("zipcode", VStr "1");
                ("geo", VDict (list_to_map [("lat", VStr "1"); ("lng", VStr "2")]))]));
     ("company", VDict (list_to_map [("name", VStr "Acme"); ("catchPhrase", VStr "go")]))].

(** A user whose address has no "geo". *)
Definition user_without_geo : gmap string value :=
  list_to_map
    [("id", VInt 2); ("username", VStr "al"); ("name", VStr "Al");
     ("email", VStr "al@y.org"); ("phone", VStr "2"); ("website", VStr "w");
     ("address", VDict (list_to_map [("city", VStr "B"); ("zipcode", VStr "2")]));
     ("company", VDict (list_to_map [("name", VStr "Co"); ("catchPhrase", VStr "do")]))].

Definition post_hello : gmap string value :=
  list_to_map
    [("id", VInt 1); ("userId", VInt 1); ("title", VStr " hi there ");
     ("body", VStr "  a bc   d ")].

(** A post whose body is empty. *)
Definition post_with_empty_body : gmap string value :=
  list_to_map
    [("id", VInt 2); ("userId", VInt 1); ("title", VStr "t"); ("body", VStr "")].

Definition day : string := "2024-05-01".

Definition stamp : string := "2024-05-01T10:00:00".

(** Two processed snapshots, some columns of each. *)
Definition processed_users : DataFrame :=
  {| index := 2;
     columns :=
       <["created_at" := [VStr stamp; VStr stamp]]>
       (<["username" := [VStr "bob"; VStr "al"]]>
       (<["user_id" := [VInt 1; VInt 2]]> ∅)) |}.

Definition processed_posts : DataFrame :=
  {| index := 1;
     columns :=
       <["title" := [VStr "hi there"]]> (<["post_id" := [VInt 1]]> ∅) |}.

(** [processed_users] as the small instance cleans it. *)
Definition processed_users_clean : DataFrame :=
  {| index := 2;
     columns :=
       <["created_at" := [VNaT; VNaT]]>
       (<["username" := [VStr "bob"; VStr "al"]]>
       (<["user_id" := [VInt 1; VInt 2]]> ∅)) |}.

Definition world_with (files : gmap (string * string) DataFrame) : World :=
  {| processed_files := files; tables := ∅; queries_run := [] |}.

Definition both_files : World :=
  world_with (<[(day, "posts.parquet") := processed_posts]>
              (<[(day, "users.parquet") := processed_users]> ∅)).

Definition posts_file_only : World :=
  world_with (<[(day, "posts.parquet") := processed_posts]> ∅).

Definition users_file_only : World :=
  world_with (<[(day, "users.parquet") := processed_users]> ∅).

(** A store that refuses nothing, and one that refuses to write the
    table of users. *)
Definition sound_engine (op : Loader.engine_op) (t : gmap string DataFrame)
  : option (exn * gmap string DataFrame) := None.

Definition users_locked (op : Loader.engine_op) (t : gmap string DataFrame)
  : option (exn * gmap string DataFrame) :=
  match op with
  | Loader.OpToSql table_name _ =>
      if String.eqb table_name "users"
      then Some (EngineError "database is locked", t) else None
  | _ => None
  end.

End Examples.

(** ** Further vocabulary *)

Module TextSpec.

(** The part of a string before the first occurrence of a character, the
    whole string when there is none. *)
Fixpoint before_first (c : ascii) (s : string) : string :=
  match s with
  | EmptyString => EmptyString
  | String c' s' =>
      if Ascii.eqb c' c then EmptyString else String c' (before_first c s')
  end.

(** What [s.split("@")[1]] is when there is such a piece: the text between
    the first "@" and the next one, or the end. *)
Definition domain_of (email : string) : option string :=
  before_first "@" <$> PyStr.after_first "@" email.

End TextSpec.

Module ReadOrder.

(** The keys [transform_users_data] and [transform_posts_data] read first,
    in the order of the reads, before any other call that may raise. *)
Definition users_first : list string := ["id"; "username"; "name"; "email"].

Definition posts_first : list string := ["id"; "userId"; "title"].

End ReadOrder.

Module MoreExamples.

(** A post whose body is null. *)
Definition post_without_body : gmap string value :=
  list_to_map
    [("id", VInt 3); ("userId", VInt 1); ("title", VStr "t"); ("body", VNone)].

(** A user whose address is null and whose e-mail has no "@". *)
Definition user_without_address : gmap string value :=
  list_to_map
    [("id", VInt 3); ("username", VStr "cy"); ("name", VStr "Cy");
     ("email", VStr "Cy.Example"); ("phone", VStr "3"); ("website", VStr "w");
     ("address", VNone); ("company", VStr "none")].

(** A record with no "username". *)
Definition nameless : gmap string value :=
  list_to_map [("id", VInt 4); ("name", VStr "Di")].




End MoreExamples.

Module StageSpec.
Section Blocks.
Context `{Pandas}.
Variable today : string.

(** What a guarded block of [load_all_data] reports, and the frame it
    writes, under a store that refuses nothing: both are read off the
    snapshot on disk. *)
Definition block_result (files : gmap (string * string) DataFrame)
    (filename table_name : string) (date : option string) : Loader.load_result :=
  let day := default today date in
  match files !! (day, filename) with
  | None =>
      {| Loader.res_table := table_name; Loader.res_count := 0;
         Loader.res_error :=
           Some (str_exn (FileNotFoundError (day +:+ "/" +:+ filename))) |}
  | Some df =>
      match Loader.clean_dataframe_for_db df table_name with
      | Ok df_clean =>
          {| Loader.res_table := table_name; Loader.res_count := index df_clean;
             Loader.res_error := None |}
      | Raise e =>
          {| Loader.res_table := table_name; Loader.res_count := 0;
             Loader.res_error := Some (str_exn e) |}
      end
  end.

Definition written_frame (files : gmap (string * string) DataFrame)
    (filename table_name : string) (date : option string) : option DataFrame :=
  match files !! (default today date, filename) with
  | None => None
  | Some df =>
      match Loader.clean_dataframe_for_db df table_name with
      | Ok df_clean => Some df_clean
      | Raise _ => None
      end
  end.

End Blocks.

(** The world after a table is replaced by a frame, if by any. *)
Definition put_table (table_name : string) (written : option DataFrame)
    (w : World) : World :=
  match written with
  | Some df => set_tables (<[table_name := df]> (tables w)) w
  | None => w
  end.

End StageSpec.

Module SiteSpec.


Definition site_with (raw : gmap (string * string) (list (gmap string value)))
    (w : World) : Site :=
  {| raw_files := raw; world := w; report_files := ∅ |}.

(** The disk never fails. *)
Definition sound_raw (path : string * string) (data : list (gmap string value))
    (files : gmap (string * string) (list (gmap string value)))
  : option (exn * gmap (string * string) (list (gmap string value))) := None.

Definition sound_parquet (path : string * string) (df : DataFrame)
    (files : gmap (string * string) DataFrame)
  : option (exn * gmap (string * string) DataFrame) := None.

Definition sound_reports (name : string) (file : report_file)
    (files : gmap string report_file)
  : option (exn * gmap string report_file) := None.

(** An API that serves one user and one post, and one that serves the
    users only. *)
Definition api (url : string) (params : option (gmap string string))
  : result (list (gmap string value)) :=
  if String.eqb url "http://api/users"
  then Ok [Examples.bob]
  else if String.eqb url "http://api/posts"
  then Ok [Examples.post_hello]
  else Raise (ValueError "404 Client Error").

Definition api_without_posts (url : string) (params : option (gmap string string))
  : result (list (gmap string value)) :=
  if String.eqb url "http://api/users"
  then Ok [Examples.bob]
  else Raise (ValueError "404 Client Error").

Definition empty_site : Site :=
  site_with ∅ {| processed_files := ∅; tables := ∅; queries_run := [] |}.

(** A store that cannot be opened. *)
Definition closed_store (op : Loader.engine_op) (t : gmap string DataFrame)
  : option (exn * gmap string DataFrame) :=
  match op with
  | Loader.OpCreateAll => Some (EngineError "unable to open database file", t)
  | _ => None
  end.

End SiteSpec.

Module FilesSpec.
Section Kinds.
Context `{Pandas}.

(** The branch [process_data] takes for a data type. *)
Definition transform_for (data_type now : string)
    (raw_data : list (gmap string value)) : result DataFrame :=
  if String.eqb data_type "users"
  then Transform.transform_users_data now raw_data
  else if String.eqb data_type "posts"
  then Transform.transform_posts_data now raw_data
  else Raise (ValueError "Unknown data type").

End Kinds.
End FilesSpec.

Module ReportSpec.

(** The query behind each name of [analytics_functions]. *)
Definition analyses : list (string * Analytics.sql_query) :=
  [("user_statistics", Analytics.user_statistics_sql);
   ("post_statistics", Analytics.post_statistics_sql);
   ("user_post_activity", Analytics.user_post_activity_sql)].

Definition csv_name (analysis_name stamp : string) : string :=
  analysis_name +:+ "_" +:+ stamp +:+ ".csv".

Definition json_name (stamp : string) : string :=
  "summary_report_" +:+ stamp +:+ ".json".

(** What the saver of the CSV files does with one entry: the file it
    writes, and the path it records. *)
Definition put_csv (stamp analysis_name : string) (e : Analytics.entry)
    (files : gmap string report_file) : gmap string report_file :=
  match Analytics.entry_data e with
  | [] => files
  | data => <[csv_name analysis_name stamp := CsvFile (DataFrame_from_records data)]> files
  end.

Definition csv_of (stamp analysis_name : string) (e : Analytics.entry)
  : list string :=
  match Analytics.entry_data e with
  | [] => []
  | _ => [csv_name analysis_name stamp]
  end.

Section Queries.
Variable read_sql :
  Analytics.sql_query -> gmap string DataFrame -> result DataFrame.

(** The entry [generate_report] files for a query on the tables [t]. *)
Definition entry_of (t : gmap string DataFrame) (q : Analytics.sql_query)
  : Analytics.entry :=
  match read_sql q t with
  | Ok df => Analytics.success_entry df
  | Raise e => Analytics.error_entry e
  end.

(** The query succeeds on the tables [t] and returns a row at least. *)
Definition answered (t : gmap string DataFrame) (q : Analytics.sql_query) : bool :=
  match read_sql q t with
  | Ok df => negb (index df =? 0)%nat
  | Raise _ => false
  end.

Definition report_of (now db_path : string) (t : gmap string DataFrame)
  : Analytics.report :=
  {| Analytics.generated_at := now;
     Analytics.database := db_path;
     Analytics.analytics :=
       <["user_post_activity" := entry_of t Analytics.user_post_activity_sql]>
       (<["post_statistics" := entry_of t Analytics.post_statistics_sql]>
       (<["user_statistics" := entry_of t Analytics.user_statistics_sql]> ∅)) |}.

End Queries.

(** A store that answers the user statistics with one row, the post
    statistics with no row, and fails the third query. *)
Definition one_row : DataFrame :=
  {| index := 1; columns := {[ "total_users" := [VInt 2] ]} |}.

Definition no_row : DataFrame :=
  {| index := 0; columns := {[ "total_posts" := [] ]} |}.

Definition partial_store (q : Analytics.sql_query) (t : gmap string DataFrame)
  : result DataFrame :=
  match q with
  | Analytics.user_statistics_sql => Ok one_row
  | Analytics.post_statistics_sql => Ok no_row
  | Analytics.user_post_activity_sql => Raise (EngineError "no such table: posts")
  end.

End ReportSpec.

(** A method leaves a part of the state as it is, whether it returns or
    raises. *)
Definition keeps {S A B : Type} (part : S -> B) (m : S -> result A * S) : Prop :=
  forall s r s', m s = (r, s') -> part s' = part s.

Module PipelineSpec.

(** The site after the extraction saved the users and the posts of the
    day. *)
Definition extracted (day : string) (users posts : list (gmap string value))
    (s : Site) : Site :=
  set_raw_files
    (<[(day, "posts.json") := posts]>
       (<[(day, "users.json") := users]> (raw_files s))) s.

Definition extract_results (users posts : list (gmap string value))
  : gmap string Pipeline.extract_entry :=
  <["posts" := {| Pipeline.extract_success := true;
                  Pipeline.extract_count := length posts;
                  Pipeline.extract_data := posts |}]>
  (<["users" := {| Pipeline.extract_success := true;
                   Pipeline.extract_count := length users;
                   Pipeline.extract_data := users |}]> ∅).

(** The site after the transformation saved the two snapshots of the
    day. *)
Definition transformed (day : string) (users_df posts_df : DataFrame) (s : Site)
  : Site :=
  TransformFiles.set_processed_files
    (<[(day, "posts.parquet") := posts_df]>
       (<[(day, "users.parquet") := users_df]> (processed_files (world s)))) s.

Definition transform_results (users_df posts_df : DataFrame)
  : gmap string Pipeline.transform_entry :=
  <["posts" := {| Pipeline.transform_success := true;
                  Pipeline.transform_count := df_len posts_df;
                  Pipeline.transform_columns := dom (columns posts_df) |}]>
  (<["users" := {| Pipeline.transform_success := true;
                   Pipeline.transform_count := df_len users_df;
                   Pipeline.transform_columns := dom (columns users_df) |}]> ∅).

(** A setting in which nothing outside the pipeline fails, on one day. *)
Definition calm (http_get :
    string -> option (gmap string string) -> result (list (gmap string value)))
    (engine_fault :
      Loader.engine_op -> gmap string DataFrame ->
      option (exn * gmap string DataFrame))
    (transform_day : string) : Pipeline.Outside :=
  {| Pipeline.http_get := http_get;
     Pipeline.raw_fault := SiteSpec.sound_raw;
     Pipeline.parquet_fault := SiteSpec.sound_parquet;
     Pipeline.engine_fault := engine_fault;
     Pipeline.read_sql := ReportSpec.partial_store;
     Pipeline.report_fault := SiteSpec.sound_reports;
     Pipeline.extract_day := Examples.day;
     Pipeline.transform_day := transform_day;
     Pipeline.transform_now := Examples.stamp;
     Pipeline.load_day := Examples.day;
     Pipeline.report_now := Examples.stamp;
     Pipeline.csv_stamp := "20240501_100000";
     Pipeline.json_stamp := "20240501_100001";
     Pipeline.start_time := "2024-05-01T09:59:59";
     Pipeline.end_time := "2024-05-01T10:00:02";
     Pipeline.duration_micros := 3000000 |}.

End PipelineSpec.


(** ** Fallible calls in sequence *)

Lemma result_bind_Ok {A B : Type} (a : A) (f : A -> result B) :
  (Ok a ≫= f) = f a.
Proof. reflexivity. Qed.

Lemma result_bind_Raise {A B : Type} (e : exn) (f : A -> result B) :
  (Raise e ≫= f) = Raise e.
Proof. reflexivity. Qed.

(** The call at the head of a sequence has returned. *)
Ltac bind_ok := cbv iota; rewrite result_bind_Ok; cbv beta.

(** ** Frames: lookups and assignments *)

Lemma has_key_elem_of (data : list (gmap string value)) (k : string) :
  has_key data k = true <-> k ∈ keys_of data.
Proof.
  unfold has_key, keys_of. rewrite existsb_exists, elem_of_union_list. split.
  - intros (r & Hin & Hk). apply bool_decide_eq_true in Hk.
    exists (dom r). split; [| by apply elem_of_dom].
    apply list_elem_of_fmap. exists r. split; [done | by apply list_elem_of_In].
  - intros (X & HX & Hk). apply list_elem_of_fmap in HX as (r & -> & Hr).
    exists r. split; [by apply list_elem_of_In |].
    apply bool_decide_eq_true. by apply elem_of_dom.
Qed.

Lemma getitem_from_records (data : list (gmap string value)) (k : string) :
  getitem (DataFrame_from_records data) k =
    if has_key data k then Ok (column_of data k) else Raise (KeyError k).
Proof.
  unfold getitem, DataFrame_from_records. simpl.
  destruct (has_key data k) eqn:Hk.
  - apply has_key_elem_of in Hk.
    assert ((set_to_map (fun k0 => (k0, column_of data k0)) (keys_of data)
               : gmap string Series) !! k = Some (column_of data k)) as ->; [| done].
    apply lookup_set_to_map; [by intros ? ? _ _ [= ->] |].
    by exists k.
  - assert ((set_to_map (fun k0 => (k0, column_of data k0)) (keys_of data)
               : gmap string Series) !! k = None) as ->; [| done].
    apply eq_None_not_Some. intros [s Hs].
    apply lookup_set_to_map in Hs as (k' & Hin & [= -> _]); [| by intros ? ? _ _ [= ->]].
    apply has_key_elem_of in Hin. congruence.
Qed.

Lemma has_key_nonempty (data : list (gmap string value)) (k : string) :
  has_key data k = true -> data <> [].
Proof. by destruct data. Qed.

Lemma reindex_aligned (n : nat) (s : Series) : length s = n -> reindex n s = s.
Proof.
  intros <-. unfold reindex. rewrite Nat.sub_diag. simpl.
  rewrite app_nil_r. apply firstn_all.
Qed.

Lemma setitem_empty (k : string) (s : Series) :
  s <> [] ->
  setitem DataFrame_empty k s = {| index := length s; columns := {[k := s]} |}.
Proof.
  intros Hs. unfold setitem. simpl. destruct s; [done |]. simpl.
  by rewrite fmap_empty, insert_empty.
Qed.

Lemma setitem_aligned (df : DataFrame) (k : string) (s : Series) :
  length s = index df ->
  setitem df k s = {| index := index df; columns := <[k := s]> (columns df) |}.
Proof.
  intros Hlen. unfold setitem.
  destruct (index df =? 0)%nat eqn:Hi; simpl.
  - apply Nat.eqb_eq in Hi.
    assert (s = []) as -> by (apply length_zero_iff_nil; lia).
    simpl. by rewrite Hi.
  - by rewrite reindex_aligned.
Qed.

Lemma getitem_insert_eq (n : nat) (m : gmap string Series) (k : string) (s : Series) :
  getitem (mkDataFrame n (<[k := s]> m)) k = Ok s.
Proof. unfold getitem. simpl. by rewrite lookup_insert_eq. Qed.

Lemma getitem_insert_ne (n : nat) (m : gmap string Series) (k k' : string) (s : Series) :
  k' <> k ->
  getitem (mkDataFrame n (<[k' := s]> m)) k = getitem (mkDataFrame n m) k.
Proof. intros Hne. unfold getitem. simpl. by rewrite lookup_insert_ne. Qed.

(** Reading a column back from a frame given by its assignments. *)
Ltac getitem_assigned :=
  repeat first [rewrite getitem_insert_eq | rewrite getitem_insert_ne by done].

Lemma length_column_of (data : list (gmap string value)) (k : string) :
  length (column_of data k) = length data.
Proof. apply length_fmap. Qed.

Lemma length_neither_isna (a b : Series) :
  length a = length b -> length (neither_isna a b) = length a.
Proof. intros Hab. unfold neither_isna. rewrite length_zip_with. lia. Qed.

(** The length of a series built from the columns of the source frame. *)
Ltac series_length :=
  cbn [index];
  unfold str_map, to_numeric, pd_cut, categorical_astype_str, astype_str;
  repeat first
    [ rewrite length_column_of
    | rewrite length_fmap
    | rewrite length_replicate
    | rewrite length_neither_isna ];
  done.


(** ** The transformer, column by column *)

Section TransformFacts.
Context `{Pandas}.
Variable now : string.
Import Transform TransformSpec.

Lemma str_method_granted (f : value -> option value) (s : Series) :
  str_method f s = if granted s then Ok (str_map f s)
                   else Raise (AttributeError "Can only use .str accessor with string values!").
Proof.
  unfold str_method, str_accessor, granted.
  by destruct (bool_decide _).
Qed.

Lemma apply_field_or_empty (k : string) (s : Series) :
  Series_apply (field_or_empty k) s = Ok (field_or_empty_value k <$> s).
Proof.
  unfold Series_apply. induction s as [|x s IH]; [done |].
  simpl. rewrite IH. by destruct x.
Qed.

Lemma apply_geo_field (k : string) (s : Series) :
  match Series_apply (geo_field k) s with
  | Ok c => forallb geo_ok s = true /\ c = geo_value k <$> s
  | Raise _ => forallb geo_ok s = false
  end.
Proof.
  unfold Series_apply. induction s as [|x s IH]; [done |].
  simpl. destruct x as [| | | | | |d| |]; simpl;
    try (destruct (mapM _ s); simpl; [by destruct IH as [-> ->] | done]).
  unfold geo_field, py_get; simpl.
  destruct (d !! "geo") as [[| | | | | |g| |]|]; simpl; try done;
    (destruct (mapM _ s); simpl; [by destruct IH as [-> ->] | done]).
Qed.

Lemma transform_users_data_spec (users : list (gmap string value)) :
  match transform_users_data now users with
  | Ok df => users_pre users = true /\ df = users_frame now users
  | Raise _ => users_pre users = false
  end.
Proof.
  unfold transform_users_data, users_pre. cbv zeta.
  rewrite !getitem_from_records. cbn [forallb].
  destruct (has_key users "id") eqn:Hid; [bind_ok | done].
  destruct (has_key users "username"); [bind_ok | done].
  destruct (has_key users "name"); [bind_ok | done].
  destruct (has_key users "email"); [bind_ok | done].
  unfold str_lower, str_split, str_get. rewrite str_method_granted.
  destruct (granted (column_of users "email"));
    [bind_ok | by rewrite !andb_false_r].
  destruct (has_key users "phone"); [bind_ok | done].
  destruct (has_key users "website"); [bind_ok | done].
  destruct (has_key users "address"); [| done].
  repeat first [bind_ok | rewrite apply_field_or_empty].
  pose proof (apply_geo_field "lat" (column_of users "address")) as Hlat.
  destruct (Series_apply (geo_field "lat") _) as [clat|];
    [| by rewrite Hlat, !andb_false_r].
  destruct Hlat as [Hgeo ->]. repeat bind_ok.
  pose proof (apply_geo_field "lng" (column_of users "address")) as Hlng.
  destruct (Series_apply (geo_field "lng") _) as [clng|];
    [| by rewrite Hlng, !andb_false_r].
  destruct Hlng as [_ ->]. bind_ok. rewrite Hgeo, !andb_true_r.
  destruct (has_key users "company"); [| done].
  repeat first [bind_ok | rewrite apply_field_or_empty].
  assert (column_of users "id" <> []) as Hne.
  { apply has_key_nonempty in Hid. by destruct users. }
  rewrite (setitem_empty _ _ Hne), length_column_of.
  repeat (rewrite (setitem_aligned (mkDataFrame _ _)) by series_length;
          cbn [index columns]).
  getitem_assigned. bind_ok.
  rewrite str_method_granted.
  destruct (granted (str_map lower_f (column_of users "email")));
    [bind_ok | done].
  rewrite str_method_granted.
  destruct (granted (str_map (split_f "@") _)); [bind_ok | done].
  repeat (rewrite (setitem_aligned (mkDataFrame _ _)) by series_length;
          cbn [index columns]).
  getitem_assigned. repeat bind_ok.
  repeat (rewrite (setitem_aligned (mkDataFrame _ _)) by series_length;
          cbn [index columns]).
  split; [reflexivity |].
  unfold users_frame, users_columns, setitem_scalar, fillna.
  cbn [index columns]. done.
Qed.

Lemma cell_column_of (data : list (gmap string value)) (k : string) (i : nat)
    (r : gmap string value) :
  data !! i = Some r -> column_of data k !! i = Some (default NaN (r !! k)).
Proof. intros Hi. unfold column_of. by rewrite list_lookup_fmap, Hi. Qed.

Lemma cell_neither_isna (a b : Series) (i : nat) (x y : value) :
  a !! i = Some x -> b !! i = Some y ->
  neither_isna a b !! i = Some (neither_isna_cell x y).
Proof. intros Ha Hb. unfold neither_isna. by rewrite lookup_zip_with, Ha, Hb. Qed.

Lemma row_users_frame (users : list (gmap string value)) (i : nat)
    (r : gmap string value) :
  users !! i = Some r -> row (users_frame now users) i = Some (user_row now r).
Proof.
  intros Hi. unfold row, users_frame, fillna. cbn [index columns].
  rewrite bool_decide_eq_true_2 by (by apply lookup_lt_Some in Hi).
  f_equal. rewrite <- map_fmap_compose.
  unfold users_columns, user_row. cbv zeta.
  rewrite !fmap_insert, !map_fmap_singleton. cbn [compose].
  unfold str_map, to_numeric. rewrite !list_lookup_fmap.
  rewrite (cell_neither_isna _ _ i
             (to_numeric_coerce (geo_value "lat" (default NaN (r !! "address"))))
             (to_numeric_coerce (geo_value "lng" (default NaN (r !! "address")))))
    by (by rewrite !list_lookup_fmap, (cell_column_of _ _ _ _ Hi)).
  rewrite !(cell_column_of _ _ _ _ Hi).
  rewrite lookup_replicate_2 by (by apply lookup_lt_Some in Hi).
  reflexivity.
Qed.

End TransformFacts.

Section PostsFacts.
Context `{Pandas}.
Variable now : string.
Import Transform TransformSpec.

Lemma transform_posts_data_spec (posts : list (gmap string value)) :
  match transform_posts_data now posts with
  | Ok df => posts_pre posts = true /\ df = posts_frame now posts
  | Raise _ => posts_pre posts = false
  end.
Proof.
  unfold transform_posts_data, posts_pre. cbv zeta.
  rewrite !getitem_from_records. cbn [forallb].
  destruct (has_key posts "id") eqn:Hid; [bind_ok | done].
  destruct (has_key posts "userId"); [bind_ok | done].
  destruct (has_key posts "title"); [bind_ok | done].
  unfold str_strip, str_len, str_split_ws. rewrite str_method_granted.
  destruct (granted (column_of posts "title"));
    [bind_ok | by rewrite !andb_false_r].
  destruct (has_key posts "body"); [bind_ok | done].
  rewrite str_method_granted.
  destruct (granted (column_of posts "body")); [bind_ok | done].
  assert (column_of posts "id" <> []) as Hne.
  { apply has_key_nonempty in Hid. by destruct posts. }
  rewrite (setitem_empty _ _ Hne), length_column_of.
  repeat (rewrite (setitem_aligned (mkDataFrame _ _)) by series_length;
          cbn [index columns]).
  getitem_assigned. bind_ok. rewrite str_method_granted.
  destruct (granted (str_map strip_f (column_of posts "title")));
    [bind_ok | by rewrite !andb_false_r].
  repeat (rewrite (setitem_aligned (mkDataFrame _ _)) by series_length;
          cbn [index columns]).
  getitem_assigned. bind_ok. rewrite !str_method_granted.
  destruct (granted (str_map strip_f (column_of posts "body"))) eqn:Hbody;
    [repeat bind_ok | done].
  repeat (rewrite (setitem_aligned (mkDataFrame _ _)) by series_length;
          cbn [index columns]).
  getitem_assigned. repeat bind_ok. rewrite str_method_granted, Hbody.
  bind_ok. rewrite str_method_granted.
  destruct (granted (str_map split_ws_f _)); [repeat bind_ok | done].
  unfold setitem_scalar. cbn [index columns].
  repeat (rewrite (setitem_aligned (mkDataFrame _ _)) by series_length;
          cbn [index columns]).
  getitem_assigned. repeat bind_ok.
  repeat (rewrite (setitem_aligned (mkDataFrame _ _)) by series_length;
          cbn [index columns]).
  split; reflexivity.
Qed.

Lemma row_posts_frame (posts : list (gmap string value)) (i : nat)
    (r : gmap string value) :
  posts !! i = Some r -> row (posts_frame now posts) i = Some (post_row now r).
Proof.
  intros Hi. unfold row, posts_frame. cbn [index columns].
  rewrite bool_decide_eq_true_2 by (by apply lookup_lt_Some in Hi).
  f_equal. unfold posts_columns, post_row. cbv zeta.
  rewrite !fmap_insert, !map_fmap_singleton.
  unfold categorical_astype_str, pd_cut, str_map.
  rewrite !list_lookup_fmap, !(cell_column_of _ _ _ _ Hi).
  rewrite lookup_replicate_2 by (by apply lookup_lt_Some in Hi).
  reflexivity.
Qed.

End PostsFacts.

(** ** Well-formed frames and their rows *)

Lemma cell_of_row (df : DataFrame) (k : string) (i : nat) :
  wf_frame df -> (i < index df)%nat ->
  cell df k i = (row df i ≫= fun rw : gmap string value => rw !! k).
Proof.
  intros Hwf Hi. unfold cell, row.
  rewrite bool_decide_eq_true_2 by done. cbn [mbind option_bind].
  rewrite lookup_fmap. destruct (columns df !! k) as [s|] eqn:Hs; [| done].
  cbn. apply Hwf in Hs.
  destruct (lookup_lt_is_Some_2 s i) as [x Hx]; [lia |]. by rewrite Hx.
Qed.

Lemma wf_frame_insert (n : nat) (m : gmap string Series) (k : string) (s : Series) :
  length s = n -> wf_frame (mkDataFrame n m) -> wf_frame (mkDataFrame n (<[k := s]> m)).
Proof.
  intros Hs Hwf k' s'. cbn [columns index]. rewrite lookup_insert.
  case_decide; [naive_solver | apply (Hwf k')].
Qed.

Lemma wf_frame_no_column (n : nat) : wf_frame (mkDataFrame n ∅).
Proof. intros k s. cbn [columns]. by rewrite lookup_empty. Qed.

Lemma wf_frame_fillna (v : value) (df : DataFrame) :
  wf_frame df -> wf_frame (fillna v df).
Proof.
  intros Hwf k s. unfold fillna. cbn [columns index]. rewrite lookup_fmap.
  destruct (columns df !! k) as [s0|] eqn:Hs0; [| done].
  intros [= <-]. rewrite length_fmap. by apply (Hwf k).
Qed.

Section FrameFacts.
Context `{Pandas}.
Variable now : string.
Import Transform TransformSpec.

Lemma wf_users_frame (users : list (gmap string value)) :
  wf_frame (users_frame now users).
Proof.
  unfold users_frame, users_columns. apply wf_frame_fillna. cbv zeta.
  repeat (apply wf_frame_insert; [by series_length |]).
  apply wf_frame_no_column.
Qed.

Lemma wf_posts_frame (posts : list (gmap string value)) :
  wf_frame (posts_frame now posts).
Proof.
  unfold posts_frame, posts_columns. cbv zeta.
  repeat (apply wf_frame_insert; [by series_length |]).
  apply wf_frame_no_column.
Qed.

Lemma cell_users_frame (users : list (gmap string value)) (k : string) (i : nat)
    (r : gmap string value) :
  users !! i = Some r -> cell (users_frame now users) k i = user_row now r !! k.
Proof.
  intros Hi. rewrite cell_of_row.
  - by rewrite (row_users_frame now users i r Hi).
  - apply wf_users_frame.
  - by apply lookup_lt_Some in Hi.
Qed.

Lemma cell_posts_frame (posts : list (gmap string value)) (k : string) (i : nat)
    (r : gmap string value) :
  posts !! i = Some r -> cell (posts_frame now posts) k i = post_row now r !! k.
Proof.
  intros Hi. rewrite cell_of_row.
  - by rewrite (row_posts_frame now posts i r Hi).
  - apply wf_posts_frame.
  - by apply lookup_lt_Some in Hi.
Qed.

(** *** Well-formed raw records are accepted *)

Lemma granted_container (s : Series) :
  Exists (fun v => is_container v = true) s -> granted s = true.
Proof.
  intros Hs. unfold granted. apply bool_decide_eq_true.
  by apply infer_dtype_container.
Qed.

Lemma has_text_column (data : list (gmap string value)) (k : string) :
  has_text data k = true ->
  Exists (fun v => is_str v = true) (column_of data k).
Proof.
  unfold has_text, column_of. rewrite existsb_exists.
  intros (r & Hr & Hs). apply Exists_exists.
  exists (default NaN (r !! k)). split; [| done].
  apply list_elem_of_fmap. exists r. split; [done | by apply list_elem_of_In].
Qed.

Lemma Exists_str_container (s : Series) :
  Exists (fun v => is_str v = true) s ->
  Exists (fun v => is_container v = true) s.
Proof. intros Hs. eapply Exists_impl; [exact Hs | by intros []]. Qed.

Lemma Exists_str_map (f : value -> option value) (P : value -> Prop) (s : Series) :
  (forall x, exists y, f (VStr x) = Some y /\ P y) ->
  Exists (fun v => is_str v = true) s ->
  Exists P (str_map f s).
Proof.
  intros Hf Hs. unfold str_map. apply Exists_fmap.
  eapply Exists_impl; [exact Hs |].
  intros [| | | | x | | | |] Hv; try done.
  destruct (Hf x) as (y & Hy & HP). unfold str_cell. simpl. by rewrite Hy.
Qed.

Lemma users_wellformed_pre (users : list (gmap string value)) :
  users_wellformed users = true -> users_pre users = true.
Proof.
  unfold users_wellformed, users_pre. cbv zeta.
  rewrite !andb_true_iff. intros [[Hkeys Htext] Hgeo].
  apply has_text_column in Htext.
  assert (Exists (fun v => is_str v = true)
            (str_map lower_f (column_of users "email"))) as Hlower.
  { apply Exists_str_map; [| done]. intros x. by eexists. }
  repeat split; try done; apply granted_container.
  - by apply Exists_str_container.
  - by apply Exists_str_container.
  - apply Exists_str_map; [| done]. intros x. by eexists.
Qed.

Lemma posts_wellformed_pre (posts : list (gmap string value)) :
  posts_wellformed posts = true -> posts_pre posts = true.
Proof.
  unfold posts_wellformed, posts_pre. cbv zeta.
  rewrite !andb_true_iff. intros [[Hkeys Htitle] Hbody].
  apply has_text_column in Htitle, Hbody.
  assert (Exists (fun v => is_str v = true)
            (str_map strip_f (column_of posts "body"))) as Hstripped.
  { apply Exists_str_map; [| done]. intros x. by eexists. }
  repeat split; try done; apply granted_container.
  - by apply Exists_str_container.
  - by apply Exists_str_container.
  - apply Exists_str_map; [| done]. intros x. by eexists.
  - by apply Exists_str_container.
  - apply Exists_str_map; [| done]. intros x. by eexists.
Qed.

Lemma transform_users_data_returns (users : list (gmap string value)) :
  users_wellformed users = true ->
  transform_users_data now users = Ok (users_frame now users).
Proof.
  intros Hwf%users_wellformed_pre.
  pose proof (transform_users_data_spec now users) as Hspec.
  destruct (transform_users_data now users) as [df|e].
  - by destruct Hspec as [_ ->].
  - congruence.
Qed.

Lemma transform_users_data_returned (users : list (gmap string value)) (df : DataFrame) :
  transform_users_data now users = Ok df -> df = users_frame now users.
Proof.
  intros Hdf. pose proof (transform_users_data_spec now users) as Hspec.
  rewrite Hdf in Hspec. by destruct Hspec.
Qed.

Lemma transform_posts_data_returns (posts : list (gmap string value)) :
  posts_wellformed posts = true ->
  transform_posts_data now posts = Ok (posts_frame now posts).
Proof.
  intros Hwf%posts_wellformed_pre.
  pose proof (transform_posts_data_spec now posts) as Hspec.
  destruct (transform_posts_data now posts) as [df|e].
  - by destruct Hspec as [_ ->].
  - congruence.
Qed.

Lemma transform_posts_data_returned (posts : list (gmap string value)) (df : DataFrame) :
  transform_posts_data now posts = Ok df -> df = posts_frame now posts.
Proof.
  intros Hdf. pose proof (transform_posts_data_spec now posts) as Hspec.
  rewrite Hdf in Hspec. by destruct Hspec.
Qed.

Lemma transform_users_data_empty : transform_users_data now [] = Raise (KeyError "id").
Proof. reflexivity. Qed.

Lemma transform_posts_data_empty : transform_posts_data now [] = Raise (KeyError "id").
Proof. reflexivity. Qed.

End FrameFacts.

(** ** The model on the scenarios of the specification *)

(** The user of the scenario (with the coordinates "1" and "2", which the
    small instance reads). *)
Example scenario_bob :
  (df ← Transform.transform_users_data Examples.stamp [Examples.bob];
   mret [cell df "email" 0; cell df "email_domain" 0;
         cell df "has_coordinates" 0; cell df "lat" 0; cell df "lng" 0;
         cell df "city" 0; cell df "company_name" 0])
  = Ok [Some (VStr "bob@x.com"); Some (VStr "x.com"); Some (VBool true);
        Some (VInt 1); Some (VInt 2); Some (VStr "A"); Some (VStr "Acme")].
Proof. vm_compute. reflexivity. Qed.

(** The user without geo: the text fields and the coordinates alike are
    the empty string. *)
Example scenario_user_without_geo :
  (df ← Transform.transform_users_data Examples.stamp
          [Examples.bob; Examples.user_without_geo];
   mret [cell df "city" 1; cell df "lat" 1; cell df "lng" 1;
         cell df "has_coordinates" 1; cell df "lat" 0])
  = Ok [Some (VStr "B"); Some (VStr ""); Some (VStr "");
        Some (VBool false); Some (VInt 1)].
Proof. vm_compute. reflexivity. Qed.

Example scenario_posts :
  (df ← Transform.transform_posts_data Examples.stamp
          [Examples.post_hello; Examples.post_with_empty_body];
   mret [cell df "title" 0; cell df "body" 0; cell df "title_length" 0;
         cell df "body_length" 0; cell df "word_count" 0;
         cell df "post_category" 0; cell df "body_length" 1;
         cell df "post_category" 1])
  = Ok [Some (VStr "hi there"); Some (VStr "a bc   d"); Some (VInt 8);
        Some (VInt 8); Some (VInt 3); Some (VStr "short"); Some (VInt 0);
        Some (VStr "nan")].
Proof. vm_compute. reflexivity. Qed.

(** The categories at the edges of the bins. *)
Example category_at_the_edges :
  categorical_astype_str
    (pd_cut Transform.category_bins Transform.category_labels
       [VInt 0; VInt 1; VInt 100; VInt 101; VInt 150; VInt 200; VInt 201; NaN])
  = [VStr "nan"; VStr "short"; VStr "short"; VStr "medium"; VStr "medium";
     VStr "medium"; VStr "long"; VStr "nan"].
Proof. reflexivity. Qed.

(** An e-mail with two "@": the domain is what lies between them. *)
Example split_two_at : PyStr.split_on "@" "a@b@c" = ["a"; "b"; "c"].
Proof. reflexivity. Qed.

Example strip_and_split :
  PyStr.strip "  a bc   d " = "a bc   d"
  /\ PyStr.split_ws "  a bc   d " = ["a"; "bc"; "d"]
  /\ PyStr.lower "BOB@X.com" = "bob@x.com".
Proof. repeat split; reflexivity. Qed.

(** ** Python strings: the e-mail address *)

Lemma lower_char_keeps_at (c : ascii) :
  Ascii.eqb (PyStr.lower_char c) "@" = Ascii.eqb c "@".
Proof. by destruct c as [[] [] [] [] [] [] [] []]. Qed.

Lemma count_at_lower (s : string) :
  PyStr.count "@" (PyStr.lower s) = PyStr.count "@" s.
Proof.
  induction s as [|c s IH]; [done |].
  simpl. by rewrite lower_char_keeps_at, IH.
Qed.

Lemma split_on_absent (c : ascii) (s : string) :
  PyStr.count c s = 0%nat -> PyStr.split_on c s = [s].
Proof.
  induction s as [|c' s IH]; [done |].
  simpl. destruct (Ascii.eqb c' c); [done |].
  intros Hs. by rewrite IH.
Qed.

Lemma split_on_once (c : ascii) (s : string) :
  PyStr.count c s = 1%nat ->
  exists a d, PyStr.split_on c s = [a; d] /\ PyStr.after_first c s = Some d.
Proof.
  induction s as [|c' s IH]; [done |].
  simpl. destruct (Ascii.eqb c' c).
  - intros Hs. exists EmptyString, s. rewrite split_on_absent by lia. done.
  - intros Hs. destruct (IH Hs) as (a & d & -> & ->). by exists (String c' a), d.
Qed.

(** ** The transformer: what its rows hold *)

Section TransformClaims.
Context `{Pandas}.
Variable now : string.
Import Transform TransformSpec.

Lemma cut_category_of_length (n : nat) :
  category_text (cut_cell category_bins category_labels (VInt (Z.of_nat n)))
  = VStr (category_of_length n).
Proof.
  unfold category_of_length, cut_cell, category_bins, category_labels.
  cbn [cut_label edge_lt edge_ge].
  destruct (Nat.eqb_spec n 0), (Nat.leb_spec n 100), (Nat.leb_spec n 200),
    (Z.ltb_spec 0 (Z.of_nat n)), (Z.leb_spec (Z.of_nat n) 100),
    (Z.ltb_spec 100 (Z.of_nat n)), (Z.leb_spec (Z.of_nat n) 200),
    (Z.ltb_spec 200 (Z.of_nat n));
    cbn [andb category_text]; try reflexivity; lia.
Qed.

(** Every post with a string body gets the length of the trimmed body and
    the category of that length. *)
Lemma post_category_of_body (posts : list (gmap string value)) (df : DataFrame)
    (i : nat) (r : gmap string value) (body : string) :
  transform_posts_data now posts = Ok df ->
  posts !! i = Some r -> r !! "body" = Some (VStr body) ->
  let n := String.length (PyStr.strip body) in
  cell df "body_length" i = Some (VInt (Z.of_nat n))
  /\ cell df "post_category" i = Some (VStr (category_of_length n)).
Proof.
  intros Hdf%transform_posts_data_returned Hi Hbody n. subst df.
  rewrite !(cell_posts_frame now posts _ i r Hi). unfold post_row.
  cbv zeta. rewrite Hbody. cbn [default from_option id str_cell strip_f isna len_f].
  rewrite cut_category_of_length.
  split; [by repeat (rewrite lookup_insert_ne by done); rewrite lookup_insert_eq |].
  by rewrite lookup_insert_eq.
Qed.

(** A nested block is let through where it is null, no dict, or absent
    from some records. The transform raises where a key it reads is in
    no record at all, and where some "geo" is present and no dict. *)
Lemma transform_users_data_raises (users : list (gmap string value)) :
  users_pre users = false -> exists e, transform_users_data now users = Raise e.
Proof.
  intros Hpre. pose proof (transform_users_data_spec now users) as Hspec.
  destruct (transform_users_data now users) as [df|e]; [| by eexists].
  destruct Hspec as [Hok _]. congruence.
Qed.

Lemma address_in_no_record_raises (users : list (gmap string value)) :
  has_key users "address" = false ->
  exists e, transform_users_data now users = Raise e.
Proof.
  intros Hkey. apply transform_users_data_raises. unfold users_pre.
  cbn [forallb]. rewrite Hkey.
  by rewrite !andb_false_r.
Qed.

Lemma geo_no_dict_raises (users : list (gmap string value)) :
  forallb geo_ok (column_of users "address") = false ->
  exists e, transform_users_data now users = Raise e.
Proof.
  intros Hgeo. apply transform_users_data_raises. unfold users_pre.
  rewrite Hgeo. by rewrite !andb_false_r.
Qed.

(** No cell of the frame [transform_users_data] returns is missing: the
    final fill replaces every missing value, the coordinates included. *)
Lemma users_frame_never_null (users : list (gmap string value)) (df : DataFrame)
    (k : string) (i : nat) (v : value) :
  transform_users_data now users = Ok df ->
  cell df k i = Some v -> isna v = false.
Proof.
  intros Hdf%transform_users_data_returned Hcell. subst df. revert Hcell.
  unfold users_frame, fillna, cell. cbn [columns]. rewrite lookup_fmap.
  destruct (users_columns now users !! k) as [s|]; [| done].
  cbn. rewrite list_lookup_fmap. destruct (s !! i) as [x|]; [| done].
  intros [= <-]. unfold fillna_cell. by destruct (isna x) eqn:Hx.
Qed.

(** The flag is computed before the fill, from the coordinates as
    [to_numeric] leaves them: it holds exactly where neither cell of the
    returned frame is the empty string the fill puts in. *)
Lemma has_coordinates_iff_present (users : list (gmap string value)) (df : DataFrame)
    (i : nat) (r : gmap string value) :
  transform_users_data now users = Ok df -> users !! i = Some r ->
  exists b lat lng,
    cell df "has_coordinates" i = Some (VBool b)
    /\ cell df "lat" i = Some lat /\ cell df "lng" i = Some lng
    /\ (b = true <-> lat <> VStr "" /\ lng <> VStr "").
Proof.
  intros Hdf%transform_users_data_returned Hi. subst df.
  rewrite !(cell_users_frame now users _ i r Hi). unfold user_row. cbv zeta.
  rewrite !lookup_fmap.
  repeat (rewrite lookup_insert_ne by done). rewrite lookup_insert_eq.
  repeat (rewrite lookup_insert_ne by done). rewrite lookup_insert_eq.
  repeat (rewrite lookup_insert_ne by done). rewrite lookup_insert_eq.
  cbn [fmap option_fmap option_map].
  set (lat0 := to_numeric_coerce (geo_value "lat" (default NaN (r !! "address")))).
  set (lng0 := to_numeric_coerce (geo_value "lng" (default NaN (r !! "address")))).
  assert (is_container lat0 = false) as Hlat by apply to_numeric_coerce_scalar.
  assert (is_container lng0 = false) as Hlng by apply to_numeric_coerce_scalar.
  eexists _, _, _. split; [reflexivity |]. split; [reflexivity |].
  split; [reflexivity |].
  unfold fillna_cell.
  destruct (isna lat0) eqn:Hna1, (isna lng0) eqn:Hna2; cbn; split;
    try done; try (by intros [? ?]); intros _; split; intros ->; done.
Qed.

End TransformClaims.

(** ** The claims on the transformer *)

(** C1 (fails on the code). The specification gives every post one of the
    categories short, medium and long, a post with an empty trimmed body
    being short. The code computes the category with [pd.cut] over the bins
    0, 100, 200, infinity, whose lowest edge belongs to no interval: on the
    post with the empty body the length is 0 and the category is the text
    "nan". *)
Theorem C1_empty_body_category_is_nan `{Pandas} (now : string) :
  exists df,
    Transform.transform_posts_data now [Examples.post_with_empty_body] = Ok df
    /\ cell df "body_length" 0 = Some (VInt 0)
    /\ cell df "post_category" 0 = Some (VStr "nan").
Proof.
  exists (TransformSpec.posts_frame now [Examples.post_with_empty_body]).
  assert (Transform.transform_posts_data now [Examples.post_with_empty_body]
          = Ok (TransformSpec.posts_frame now [Examples.post_with_empty_body])) as Hdf
    by (by apply transform_posts_data_returns).
  split; [done |].
  by apply (post_category_of_body now _ _ 0 Examples.post_with_empty_body "" Hdf).
Qed.

(** The user without geo: the coordinates of the row and its flag. *)
Lemma user_without_geo_row `{Pandas} (now : string) :
  let df := TransformSpec.users_frame now [Examples.user_without_geo] in
  Transform.transform_users_data now [Examples.user_without_geo] = Ok df
  /\ cell df "lat" 0 = Some (VStr "")
  /\ cell df "lng" 0 = Some (VStr "")
  /\ cell df "has_coordinates" 0 = Some (VBool false).
Proof.
  intros df. split; [by apply transform_users_data_returns |]. subst df.
  rewrite !(cell_users_frame now [Examples.user_without_geo] _ 0
             Examples.user_without_geo eq_refl).
  unfold TransformSpec.user_row. cbv zeta. rewrite !lookup_fmap.
  repeat (rewrite lookup_insert_ne by done). rewrite lookup_insert_eq.
  repeat (rewrite lookup_insert_ne by done). rewrite lookup_insert_eq.
  repeat (rewrite lookup_insert_ne by done). rewrite lookup_insert_eq.
  assert (Examples.user_without_geo !! "address"
          = Some (VDict (list_to_map [("city", VStr "B"); ("zipcode", VStr "2")])))
    as -> by reflexivity.
  assert (forall k, TransformSpec.geo_value k
            (VDict (list_to_map [("city", VStr "B"); ("zipcode", VStr "2")])) = VNone)
    as Hgeo by reflexivity.
  cbn [default from_option id]. rewrite !Hgeo, to_numeric_coerce_None. done.
Qed.

(** C2 (fails on the code). The specification keeps lat and lng null when
    the geo block is absent. The code coerces them to NaN and then fills
    every missing cell of the frame with the empty string: for the user
    without geo, lat and lng are the empty string, like the text fields. *)
Theorem C2_absent_geo_gives_empty_string `{Pandas} (now : string) :
  exists df,
    Transform.transform_users_data now [Examples.user_without_geo] = Ok df
    /\ cell df "lat" 0 = Some (VStr "")
    /\ cell df "lng" 0 = Some (VStr "").
Proof.
  destruct (user_without_geo_row now) as (Hdf & Hlat & Hlng & _).
  exists (TransformSpec.users_frame now [Examples.user_without_geo]).
  repeat split; assumption.
Qed.

(** C4. For a record whose e-mail has exactly one "@", the row holds the
    lower-cased e-mail, and as its domain what follows the "@" in it. *)
Theorem C4_email_lowercase_and_domain `{Pandas} (now : string)
    (users : list (gmap string value)) (i : nat) (r : gmap string value)
    (e : string) :
  TransformSpec.users_wellformed users = true ->
  users !! i = Some r ->
  r !! "email" = Some (VStr e) ->
  PyStr.count "@" e = 1%nat ->
  exists df d,
    Transform.transform_users_data now users = Ok df
    /\ cell df "email" i = Some (VStr (PyStr.lower e))
    /\ PyStr.after_first "@" (PyStr.lower e) = Some d
    /\ cell df "email_domain" i = Some (VStr d).
Proof.
  intros Hwf Hi He Hat.
  rewrite <- count_at_lower in Hat.
  destruct (split_on_once _ _ Hat) as (a & d & Hsplit & Hafter).
  exists (TransformSpec.users_frame now users), d.
  split; [by apply transform_users_data_returns |].
  rewrite !(cell_users_frame now users _ i r Hi).
  unfold TransformSpec.user_row. cbv zeta. rewrite !lookup_fmap, He.
  repeat (rewrite lookup_insert_ne by done). rewrite lookup_insert_eq.
  repeat (rewrite lookup_insert_ne by done). rewrite lookup_insert_eq.
  cbn [default from_option id str_cell lower_f split_f isna].
  rewrite Hsplit. done.
Qed.

(** C4 on the user of the scenario. *)
Lemma C4_witness :
  exists df,
    Transform.transform_users_data "2024-05-01T10:00:00" [Examples.bob] = Ok df
    /\ cell df "email" 0 = Some (VStr "bob@x.com")
    /\ cell df "email_domain" 0 = Some (VStr "x.com").
Proof.
  destruct (C4_email_lowercase_and_domain "2024-05-01T10:00:00" [Examples.bob] 0
              Examples.bob "BOB@X.com" eq_refl eq_refl eq_refl eq_refl)
    as (df & d & Hdf & Hemail & Hd & Hdomain).
  exists df. injection Hd as <-.
  split; [exact Hdf |]. split; [exact Hemail | exact Hdomain].
Defined.

(** C5 (fails on the code). The specification makes has_coordinates true
    exactly when lat and lng of the row are both non-null. The code sets
    the flag before it fills the missing cells: for the user without geo
    the flag is false, and neither lat nor lng of the row is null. *)
Theorem C5_flag_false_coordinates_not_null `{Pandas} (now : string) :
  exists df lat lng,
    Transform.transform_users_data now [Examples.user_without_geo] = Ok df
    /\ cell df "has_coordinates" 0 = Some (VBool false)
    /\ cell df "lat" 0 = Some lat /\ isna lat = false
    /\ cell df "lng" 0 = Some lng /\ isna lng = false.
Proof.
  destruct (user_without_geo_row now) as (Hdf & Hlat & Hlng & Hflag).
  exists (TransformSpec.users_frame now [Examples.user_without_geo]),
    (VStr ""), (VStr "").
  repeat split; assumption.
Qed.

Lemma transform_posts_data_raises `{Pandas} (now : string)
    (posts : list (gmap string value)) :
  TransformSpec.posts_pre posts = false ->
  exists e, Transform.transform_posts_data now posts = Raise e.
Proof.
  intros Hpre. pose proof (transform_posts_data_spec now posts) as Hspec.
  destruct (Transform.transform_posts_data now posts) as [df|e]; [| by eexists].
  destruct Hspec as [Hok _]. congruence.
Qed.

(** C10 (amended). Whenever a transform returns, its frame has one row per
    input record, in the order of the input, and row [i] is the row of
    record [i] alone; and it returns on every list of well-formed records.
    It does not return on every list: it raises whenever a key it reads is
    in no record, and so on the empty list, where the first column read,
    "id", is missing. *)
Theorem C10_one_row_per_record `{Pandas} (now : string)
    (users posts : list (gmap string value)) :
  (TransformSpec.users_wellformed users = true ->
   exists df, Transform.transform_users_data now users = Ok df)
  /\ (forall df, Transform.transform_users_data now users = Ok df ->
      df_len df = length users
      /\ forall i r, users !! i = Some r ->
           row df i = Some (TransformSpec.user_row now r))
  /\ (TransformSpec.posts_wellformed posts = true ->
      exists df, Transform.transform_posts_data now posts = Ok df)
  /\ (forall df, Transform.transform_posts_data now posts = Ok df ->
      df_len df = length posts
      /\ forall i r, posts !! i = Some r ->
           row df i = Some (TransformSpec.post_row now r))
  /\ (forall k,
        k ∈ ["id"; "username"; "name"; "email"; "phone"; "website"; "address";
             "company"] ->
        has_key users k = false ->
        exists e, Transform.transform_users_data now users = Raise e)
  /\ (forall k,
        k ∈ ["id"; "userId"; "title"; "body"] ->
        has_key posts k = false ->
        exists e, Transform.transform_posts_data now posts = Raise e)
  /\ Transform.transform_users_data now [] = Raise (KeyError "id")
  /\ Transform.transform_posts_data now [] = Raise (KeyError "id").
Proof.
  split; [| split; [| split; [| split; [| split; [| split; [| split]]]]]].
  - intros Hwf. eexists. by apply transform_users_data_returns.
  - intros df ->%transform_users_data_returned. split; [done |].
    intros i r Hi. by apply row_users_frame.
  - intros Hwf. eexists. by apply transform_posts_data_returns.
  - intros df ->%transform_posts_data_returned. split; [done |].
    intros i r Hi. by apply row_posts_frame.
  - intros k Hk Hkey. apply transform_users_data_raises.
    unfold TransformSpec.users_pre. cbn [forallb].
    rewrite !elem_of_cons, elem_of_nil in Hk.
    destruct Hk as [-> | [-> | [-> | [-> | [-> | [-> | [-> | [-> | []]]]]]]]];
      rewrite Hkey; by rewrite ?andb_false_r.
  - intros k Hk Hkey. apply transform_posts_data_raises.
    unfold TransformSpec.posts_pre. cbn [forallb].
    rewrite !elem_of_cons, elem_of_nil in Hk.
    destruct Hk as [-> | [-> | [-> | [-> | []]]]];
      rewrite Hkey; by rewrite ?andb_false_r.
  - apply transform_users_data_empty.
  - apply transform_posts_data_empty.
Qed.

(** C10 on two users and two posts. *)
Lemma C10_witness :
  exists dfu dfp,
    Transform.transform_users_data "2024-05-01T10:00:00"
      [Examples.bob; Examples.user_without_geo] = Ok dfu
    /\ df_len dfu = 2%nat
    /\ row dfu 1
       = Some (TransformSpec.user_row "2024-05-01T10:00:00" Examples.user_without_geo)
    /\ Transform.transform_posts_data "2024-05-01T10:00:00"
         [Examples.post_hello; Examples.post_with_empty_body] = Ok dfp
    /\ df_len dfp = 2%nat
    /\ row dfp 0 = Some (TransformSpec.post_row "2024-05-01T10:00:00" Examples.post_hello).
Proof.
  destruct (C10_one_row_per_record "2024-05-01T10:00:00"
              [Examples.bob; Examples.user_without_geo]
              [Examples.post_hello; Examples.post_with_empty_body])
    as (Hu & Hurows & Hp & Hprows & _).
  destruct (Hu eq_refl) as [dfu Hdfu]. destruct (Hp eq_refl) as [dfp Hdfp].
  destruct (Hurows dfu Hdfu) as [Hulen Hurow].
  destruct (Hprows dfp Hdfp) as [Hplen Hprow].
  exists dfu, dfp.
  split; [exact Hdfu |]. split; [exact Hulen |].
  split; [exact (Hurow 1%nat Examples.user_without_geo eq_refl) |].
  split; [exact Hdfp |]. split; [exact Hplen |].
  exact (Hprow 0%nat Examples.post_hello eq_refl).
Defined.

(** C10, as first stated, at the empty list: no frame is produced, so none
    with as many rows as records; the first column read is missing. *)
Lemma C10_empty_list_raises :
  Transform.transform_users_data "2024-05-01T10:00:00" [] = Raise (KeyError "id")
  /\ Transform.transform_posts_data "2024-05-01T10:00:00" [] = Raise (KeyError "id")
  /\ ~ (exists df,
          Transform.transform_users_data "2024-05-01T10:00:00" [] = Ok df
          /\ df_len df = 0%nat).
Proof.
  split; [reflexivity |]. split; [reflexivity |].
  intros (df & Hdf & _). discriminate Hdf.
Qed.

(** ** The loader: cleaning a frame for the store *)


Lemma length_rules_tables (table_type : string) (rules : list (string * nat)) :
  Loader.LENGTH_RULES !! table_type = Some rules ->
  NoDup rules.*1 /\ "created_at" ∉ rules.*1.
Proof.
  unfold Loader.LENGTH_RULES. intros Hin%elem_of_list_to_map_2.
  apply list_elem_of_In in Hin. simpl in Hin.
  destruct Hin as [[= <- <-] | [[= <- <-] | []]]; split;
    first [ apply NoDup_ListNoDup; repeat constructor; simpl; intuition discriminate
          | rewrite list_elem_of_In; simpl; intuition discriminate ].
Qed.

Section CleanFacts.
Context `{Pandas}.
Import Loader LoaderSpec TransformSpec.

Lemma granted_astype_str (c : Series) : granted (astype_str c) = true.
Proof.
  unfold granted. apply bool_decide_eq_true, infer_dtype_strings.
  unfold astype_str. induction c as [|v c IH]; simpl; constructor; done.
Qed.

Lemma enforce_length_spec (df : DataFrame) (rule : string * nat) :
  wf_frame df ->
  exists df',
    enforce_length df rule = Ok df'
    /\ index df' = index df /\ wf_frame df'
    /\ forall k, columns df' !! k = enforce_rule rule k <$> columns df !! k.
Proof.
  intros Hwf. destruct rule as [col max_len].
  unfold enforce_length, has_column, getitem, enforce_rule. cbn [fst snd].
  destruct (columns df !! col) as [c|] eqn:Hc.
  - rewrite bool_decide_eq_true_2 by done. cbn [mbind result_bind].
    destruct (is_string_dtype c) eqn:Hdt.
    + unfold str_slice_to. rewrite str_method_granted, granted_astype_str.
      cbn [mbind result_bind mret result_ret].
      rewrite setitem_aligned
        by (unfold str_map, astype_str; rewrite !length_fmap; by apply (Hwf col)).
      eexists. split; [done |]. split; [done |]. split.
      * apply wf_frame_insert; [| by destruct df].
        unfold str_map, astype_str. rewrite !length_fmap. by apply (Hwf col).
      * intros k. cbn [columns]. rewrite lookup_insert. case_decide as Hk.
        -- subst k. rewrite Hc. cbn. rewrite bool_decide_eq_true_2 by done.
           by rewrite Hdt.
        -- rewrite bool_decide_eq_false_2 by done.
           by destruct (columns df !! k).
    + exists df. repeat split; try done. intros k.
      destruct (columns df !! k) as [c'|] eqn:Hc'; [| done]. cbn.
      case_bool_decide as Hk; [| done]. subst k.
      assert (c' = c) as -> by congruence. by rewrite Hdt.
  - rewrite bool_decide_eq_false_2 by (by intros [? ?]).
    exists df. repeat split; try done. intros k.
    destruct (columns df !! k) as [c'|] eqn:Hc'; [| done]. cbn.
    case_bool_decide as Hk; [| done]. congruence.
Qed.

Lemma for_each_enforce_length (rules : list (string * nat)) (df : DataFrame) :
  wf_frame df ->
  exists df',
    for_each enforce_length rules df = Ok df'
    /\ index df' = index df /\ wf_frame df'
    /\ forall k, columns df' !! k = enforce_rules rules k <$> columns df !! k.
Proof.
  revert df. induction rules as [|rule rules IH]; intros df Hwf.
  - exists df. repeat split; try done. intros k. by destruct (columns df !! k).
  - destruct (enforce_length_spec df rule Hwf) as (df1 & Hdf1 & Hi1 & Hwf1 & Hc1).
    destruct (IH df1 Hwf1) as (df2 & Hdf2 & Hi2 & Hwf2 & Hc2).
    exists df2. cbn [for_each]. rewrite Hdf1. cbn [mbind result_bind].
    split; [done |]. split; [congruence |]. split; [done |].
    intros k. rewrite Hc2, Hc1. by destruct (columns df !! k).
Qed.

Lemma enforce_rules_other (rules : list (string * nat)) (k : string) (c : Series) :
  k ∉ rules.*1 -> enforce_rules rules k c = c.
Proof.
  revert c. induction rules as [|[col n] rules IH]; intros c Hk; [done |].
  cbn in Hk. apply not_elem_of_cons in Hk as [Hne Hk].
  unfold enforce_rules. cbn [foldl]. unfold enforce_rule at 2. cbn [fst snd].
  rewrite bool_decide_eq_false_2 by done. by apply IH.
Qed.

Lemma enforce_rules_one (rules : list (string * nat)) (k : string) (n : nat)
    (c : Series) :
  NoDup rules.*1 -> (k, n) ∈ rules ->
  enforce_rules rules k c = enforce_rule (k, n) k c.
Proof.
  revert c. induction rules as [|[col m] rules IH]; intros c Hnd Hin.
  - by apply elem_of_nil in Hin.
  - cbn in Hnd. apply NoDup_cons in Hnd as [Hcol Hnd].
    unfold enforce_rules. cbn [foldl].
    apply elem_of_cons in Hin as [[= <- <-] | Hin].
    + by apply enforce_rules_other.
    + assert (k <> col) as Hne.
      { intros ->. apply Hcol. apply list_elem_of_fmap. by exists (col, n). }
      unfold enforce_rule at 2. cbn [fst snd].
      rewrite bool_decide_eq_false_2 by done. by apply IH.
Qed.

Lemma clean_dataframe_for_db_spec (df : DataFrame) (table_type : string) :
  wf_frame df ->
  exists df',
    clean_dataframe_for_db df table_type = Ok df'
    /\ index df' = index df /\ wf_frame df'
    /\ forall k,
         columns df' !! k =
           (fun c => enforce_rules (default [] (LENGTH_RULES !! table_type)) k
                       (if bool_decide (k = "created_at")
                        then to_datetime_coerce c else c))
             <$> columns df !! k.
Proof.
  intros Hwf. unfold clean_dataframe_for_db. cbv zeta.
  assert (exists df1,
             (if has_column df "created_at"
              then c ← getitem df "created_at";
                   mret (setitem df "created_at" (to_datetime_coerce c))
              else mret df) = Ok df1
             /\ index df1 = index df /\ wf_frame df1
             /\ forall k, columns df1 !! k =
                  (fun c => if bool_decide (k = "created_at")
                            then to_datetime_coerce c else c) <$> columns df !! k)
    as (df1 & -> & Hi1 & Hwf1 & Hc1).
  { unfold has_column, getitem.
    destruct (columns df !! "created_at") as [c|] eqn:Hc.
    - rewrite bool_decide_eq_true_2 by done. cbn [mbind result_bind mret result_ret].
      rewrite setitem_aligned
        by (rewrite to_datetime_coerce_length; by apply (Hwf "created_at")).
      eexists. split; [done |]. split; [done |]. split.
      + apply wf_frame_insert; [| by destruct df].
        rewrite to_datetime_coerce_length. by apply (Hwf "created_at").
      + intros k. cbn [columns]. rewrite lookup_insert. case_decide as Hk.
        * subst k. rewrite Hc. cbn. by rewrite bool_decide_eq_true_2.
        * rewrite bool_decide_eq_false_2 by done. by destruct (columns df !! k).
    - rewrite bool_decide_eq_false_2 by (by intros [? ?]).
      exists df. repeat split; try done. intros k.
      destruct (columns df !! k) as [c'|] eqn:Hc'; [| done]. cbn.
      case_bool_decide as Hk; [| done]. congruence. }
  cbn [mbind result_bind].
  destruct (LENGTH_RULES !! table_type) as [rules|]; cbn [default from_option id].
  - destruct (for_each_enforce_length rules df1 Hwf1) as (df2 & -> & Hi2 & Hwf2 & Hc2).
    cbn [mbind result_bind mret result_ret].
    exists df2. split; [done |]. split; [congruence |]. split; [done |].
    intros k. rewrite Hc2, Hc1. by destruct (columns df !! k).
  - cbn [mbind result_bind mret result_ret].
    exists df1. split; [done |]. split; [done |]. split; [done |].
    intros k. rewrite Hc1. by destruct (columns df !! k).
Qed.

End CleanFacts.

(** ** The loader: one kind after the other *)

(** A handler that returns makes the guarded block return. *)
Lemma try_except_returns {A : Type} (body : Run A) (h : exn -> A) (w : World) :
  exists r w', try_except body (fun e => mret (h e)) w = (Ok r, w').
Proof.
  unfold try_except. destruct (body w) as [[a|e] w']; by eexists _, _.
Qed.

Section LoadFacts.
Context `{Pandas}.
Variable today : string.
Variable engine_fault :
  Loader.engine_op -> gmap string DataFrame -> option (exn * gmap string DataFrame).
Import Loader LoaderSpec.

Lemma load_all_data_blocks (date : option string) :
  load_all_data today engine_fault date =
    (_ ← create_tables engine_fault;
     r ← load_block today engine_fault "users.parquet" "users" date;
     let results := <["users" := r]> (∅ : gmap string load_result) in
     r ← load_block today engine_fault "posts.parquet" "posts" date;
     let results := <["posts" := r]> results in
     mret results).
Proof. reflexivity. Qed.

(** The block never raises: its handler catches every exception. *)
Lemma load_block_returns (filename table_name : string) (date : option string)
    (w : World) :
  exists r w', load_block today engine_fault filename table_name date w = (Ok r, w').
Proof.
  unfold load_block.
  apply (try_except_returns _
           (fun e => {| res_table := table_name; res_count := 0;
                        res_error := Some (str_exn e) |})).
Qed.

Lemma load_block_missing (filename table_name : string) (date : option string)
    (w : World) :
  processed_files w !! (default today date, filename) = None ->
  load_block today engine_fault filename table_name date w =
    (Ok {| res_table := table_name; res_count := 0;
           res_error :=
             Some (str_exn (FileNotFoundError
                              (default today date +:+ "/" +:+ filename))) |}, w).
Proof.
  intros Hfile. unfold load_block, try_except, load_processed_data.
  unfold mbind, Run_bind; cbn beta iota zeta. by rewrite Hfile.
Qed.

Lemma load_block_write_fault (filename table_name : string) (date : option string)
    (w : World) (df df_clean : DataFrame) (e : exn) (t' : gmap string DataFrame) :
  processed_files w !! (default today date, filename) = Some df ->
  clean_dataframe_for_db df table_name = Ok df_clean ->
  engine_fault (OpToSql table_name df_clean) (tables w) = Some (e, t') ->
  load_block today engine_fault filename table_name date w =
    (Ok {| res_table := table_name; res_count := 0;
           res_error := Some (str_exn e) |}, set_tables t' w).
Proof.
  intros Hfile Hclean Hfault.
  unfold load_block, try_except, load_processed_data, load_to_database,
    try_except, to_sql, pure_call, raise.
  unfold mbind, Run_bind; cbn beta iota zeta. by rewrite Hfile, Hclean, Hfault.
Qed.

Lemma load_block_loaded (filename table_name : string) (date : option string)
    (w : World) (df df_clean : DataFrame) :
  processed_files w !! (default today date, filename) = Some df ->
  clean_dataframe_for_db df table_name = Ok df_clean ->
  engine_fault (OpToSql table_name df_clean) (tables w) = None ->
  engine_fault (OpCount table_name) (<[table_name := df_clean]> (tables w)) = None ->
  load_block today engine_fault filename table_name date w =
    (Ok {| res_table := table_name; res_count := index df_clean;
           res_error := None |},
     set_tables (<[table_name := df_clean]> (tables w)) w).
Proof.
  intros Hfile Hclean Hwrite Hcount.
  unfold load_block, try_except, load_processed_data, load_to_database,
    try_except, to_sql, pure_call, raise, verify_data_load.
  unfold mbind, Run_bind; cbn beta iota zeta. rewrite Hfile, Hclean, Hwrite.
  cbn [tables set_tables]. by rewrite Hcount, lookup_insert_eq.
Qed.

(** Only a failure to create the tables leaves [load_all_data]: no
    failure of a load does. *)
Lemma load_all_data_raises_only_creating (date : option string) (w w' : World)
    (e : exn) :
  load_all_data today engine_fault date w = (Raise e, w') ->
  exists t', engine_fault OpCreateAll (tables w) = Some (e, t').
Proof.
  rewrite load_all_data_blocks. unfold create_tables. unfold mbind, Run_bind; cbn beta iota zeta.
  destruct (engine_fault OpCreateAll (tables w)) as [[e0 t0]|].
  - intros [= <- _]. by eexists.
  - destruct (load_block_returns "users.parquet" "users" date
                (set_tables (create_all (tables w)) w)) as (r1 & w1 & ->).
    destruct (load_block_returns "posts.parquet" "posts" date w1) as (r2 & w2 & ->).
    done.
Qed.

Lemma load_to_database_writes (df : DataFrame) (table_name : string) (w : World) :
  engine_fault (OpToSql table_name df) (tables w) = None ->
  load_to_database engine_fault df table_name w =
    (Ok (), set_tables (<[table_name := df]> (tables w)) w).
Proof.
  intros Hwrite. unfold load_to_database, try_except, to_sql. by rewrite Hwrite.
Qed.

Lemma load_to_database_raises (df : DataFrame) (table_name : string) (w : World)
    (e : exn) (t' : gmap string DataFrame) :
  engine_fault (OpToSql table_name df) (tables w) = Some (e, t') ->
  load_to_database engine_fault df table_name w = (Raise e, set_tables t' w).
Proof.
  intros Hwrite. unfold load_to_database, try_except, to_sql, raise.
  by rewrite Hwrite.
Qed.

Lemma verify_data_load_counts (table_name : string) (w : World) (df : DataFrame) :
  engine_fault (OpCount table_name) (tables w) = None ->
  tables w !! table_name = Some df ->
  verify_data_load engine_fault table_name w =
    (Ok {| res_table := table_name; res_count := df_len df; res_error := None |}, w).
Proof. intros Hcount Hdf. unfold verify_data_load. by rewrite Hcount, Hdf. Qed.

End LoadFacts.

(** ** The claims on the loader *)


Lemma processed_users_wf : wf_frame Examples.processed_users.
Proof.
  unfold Examples.processed_users.
  repeat (apply wf_frame_insert; [reflexivity |]). apply wf_frame_no_column.
Qed.

Lemma processed_posts_wf : wf_frame Examples.processed_posts.
Proof.
  unfold Examples.processed_posts.
  repeat (apply wf_frame_insert; [reflexivity |]). apply wf_frame_no_column.
Qed.





(** C8. Loading a frame into a table replaces the table: after the same
    frame is loaded twice the table holds what it holds after one load,
    the frame itself, and the count read back is the same, the number of
    rows of the frame, whatever the table held before. *)
Theorem C8_load_twice_same_count (engine_fault :
      Loader.engine_op -> gmap string DataFrame -> option (exn * gmap string DataFrame))
    (df : DataFrame) (table_name : string) (w : World) :
  (forall t, engine_fault (Loader.OpToSql table_name df) t = None) ->
  (forall t, engine_fault (Loader.OpCount table_name) t = None) ->
  exists w1 w2 counted,
    Loader.load_to_database engine_fault df table_name w = (Ok (), w1)
    /\ Loader.verify_data_load engine_fault table_name w1 = (Ok counted, w1)
    /\ Loader.load_to_database engine_fault df table_name w1 = (Ok (), w2)
    /\ Loader.verify_data_load engine_fault table_name w2 = (Ok counted, w2)
    /\ Loader.res_count counted = df_len df
    /\ tables w1 !! table_name = Some df
    /\ tables w2 !! table_name = Some df.
Proof.
  intros Hwrite Hcount.
  eexists _, _, _.
  split; [by apply load_to_database_writes |].
  split; [apply verify_data_load_counts; [done | apply lookup_insert_eq] |].
  split; [by apply load_to_database_writes |].
  split; [apply verify_data_load_counts; [done | apply lookup_insert_eq] |].
  split; [done |]. split; apply lookup_insert_eq.
Qed.

(** C8 on a snapshot of two users and a store that refuses nothing. *)
Lemma C8_witness :
  exists w1 w2 counted,
    Loader.load_to_database Examples.sound_engine Examples.processed_users "users"
      Examples.both_files = (Ok (), w1)
    /\ Loader.load_to_database Examples.sound_engine Examples.processed_users "users" w1
       = (Ok (), w2)
    /\ Loader.verify_data_load Examples.sound_engine "users" w2 = (Ok counted, w2)
    /\ Loader.res_count counted = 2%nat.
Proof.
  destruct (C8_load_twice_same_count Examples.sound_engine Examples.processed_users
              "users" Examples.both_files (fun _ => eq_refl) (fun _ => eq_refl))
    as (w1 & w2 & counted & Hload1 & _ & Hload2 & Hcount2 & Hrows & _).
  exists w1, w2, counted.
  split; [exact Hload1 |]. split; [exact Hload2 |]. split; [exact Hcount2 |].
  exact Hrows.
Defined.

(** C6. In [load_all_data] the two kinds are loaded apart: where the
    processed file of one kind is missing, that kind is reported with the
    count 0 and the error, nothing is raised, and the other kind is loaded
    and counted. *)
Theorem C6_missing_file_is_reported `{Pandas} (today : string)
    (engine_fault :
      Loader.engine_op -> gmap string DataFrame -> option (exn * gmap string DataFrame))
    (date : option string) (w : World) (df : DataFrame) :
  let day := default today date in
  let missing name :=
    {| Loader.res_table := name; Loader.res_count := 0;
       Loader.res_error :=
         Some (str_exn (FileNotFoundError (day +:+ "/" +:+ name +:+ ".parquet"))) |} in
  let loaded name :=
    {| Loader.res_table := name; Loader.res_count := df_len df;
       Loader.res_error := None |} in
  (forall op t, engine_fault op t = None) ->
  wf_frame df ->
  (processed_files w !! (day, "users.parquet") = None ->
   processed_files w !! (day, "posts.parquet") = Some df ->
   exists df_clean w',
     Loader.clean_dataframe_for_db df "posts" = Ok df_clean
     /\ Loader.load_all_data today engine_fault date w
        = (Ok (<["posts" := loaded "posts"]> (<["users" := missing "users"]> ∅)), w')
     /\ tables w' !! "posts" = Some df_clean)
  /\ (processed_files w !! (day, "users.parquet") = Some df ->
      processed_files w !! (day, "posts.parquet") = None ->
      exists df_clean w',
        Loader.clean_dataframe_for_db df "users" = Ok df_clean
        /\ Loader.load_all_data today engine_fault date w
           = (Ok (<["posts" := missing "posts"]> (<["users" := loaded "users"]> ∅)), w')
        /\ tables w' !! "users" = Some df_clean).
Proof.
  intros day missing loaded Hsound Hwf. split.
  - intros Husers Hposts.
    destruct (clean_dataframe_for_db_spec df "posts" Hwf)
      as (df_clean & Hclean & Hindex & _ & _).
    exists df_clean. eexists. split; [done |].
    rewrite load_all_data_blocks. unfold Loader.create_tables.
    unfold mbind at 1, Run_bind at 1. cbn beta iota zeta. rewrite Hsound.
    unfold mbind at 1, Run_bind at 1. cbn beta iota zeta.
    rewrite load_block_missing by done.
    unfold mbind at 1, Run_bind at 1. cbn beta iota zeta.
    rewrite (load_block_loaded today engine_fault _ _ _ _ df df_clean) by done.
    unfold mret, Run_ret, loaded, missing, df_len, day. rewrite Hindex.
    split; [reflexivity |]. cbn [tables set_tables]. apply lookup_insert_eq.
  - intros Husers Hposts.
    destruct (clean_dataframe_for_db_spec df "users" Hwf)
      as (df_clean & Hclean & Hindex & _ & _).
    exists df_clean. eexists. split; [done |].
    rewrite load_all_data_blocks. unfold Loader.create_tables.
    unfold mbind at 1, Run_bind at 1. cbn beta iota zeta. rewrite Hsound.
    unfold mbind at 1, Run_bind at 1. cbn beta iota zeta.
    rewrite (load_block_loaded today engine_fault _ _ _ _ df df_clean) by done.
    unfold mbind at 1, Run_bind at 1. cbn beta iota zeta.
    rewrite load_block_missing by done.
    unfold mret, Run_ret, loaded, missing, df_len, day. rewrite Hindex.
    split; [reflexivity |]. cbn [tables set_tables]. apply lookup_insert_eq.
Qed.

(** C6 where only the posts, and where only the users, are on disk. *)
Lemma C6_witness :
  (exists results w',
     Loader.load_all_data Examples.day Examples.sound_engine None
       Examples.posts_file_only = (Ok results, w')
     /\ Loader.res_count <$> results !! "users" = Some 0%nat
     /\ Loader.res_count <$> results !! "posts" = Some 1%nat)
  /\ (exists results w',
        Loader.load_all_data Examples.day Examples.sound_engine None
          Examples.users_file_only = (Ok results, w')
        /\ Loader.res_count <$> results !! "users" = Some 2%nat
        /\ Loader.res_count <$> results !! "posts" = Some 0%nat).
Proof.
  split.
  - destruct (C6_missing_file_is_reported Examples.day Examples.sound_engine None
                Examples.posts_file_only Examples.processed_posts
                (fun _ _ => eq_refl) processed_posts_wf) as [Hposts _].
    destruct (Hposts eq_refl eq_refl) as (df_clean & w' & _ & Hload & _).
    eexists _, w'. split; [exact Hload |]. split; reflexivity.
  - destruct (C6_missing_file_is_reported Examples.day Examples.sound_engine None
                Examples.users_file_only Examples.processed_users
                (fun _ _ => eq_refl) processed_users_wf) as [_ Husers].
    destruct (Husers eq_refl eq_refl) as (df_clean & w' & _ & Hload & _).
    eexists _, w'. split; [exact Hload |]. split; reflexivity.
Defined.

(** C3 (fails on the code). The specification lets a failed write leave the
    loader and abort the run. [load_to_database] does raise; but its caller
    [load_all_data] runs it inside the block whose handler catches every
    exception, so the load stage returns, the kind reported with the
    count 0 and the error of the store. *)
Theorem C3_write_failure_is_caught `{Pandas} (today : string)
    (engine_fault :
      Loader.engine_op -> gmap string DataFrame -> option (exn * gmap string DataFrame))
    (w : World) (users_df users_clean : DataFrame) (e : exn)
    (t' : gmap string DataFrame) :
  let created := set_tables (Loader.create_all (tables w)) w in
  engine_fault Loader.OpCreateAll (tables w) = None ->
  processed_files w !! (today, "users.parquet") = Some users_df ->
  Loader.clean_dataframe_for_db users_df "users" = Ok users_clean ->
  engine_fault (Loader.OpToSql "users" users_clean) (tables created) = Some (e, t') ->
  Loader.load_to_database engine_fault users_clean "users" created
    = (Raise e, set_tables t' created)
  /\ exists results w',
       Loader.run_load today engine_fault w = (Ok results, w')
       /\ results !! "users"
          = Some {| Loader.res_table := "users"; Loader.res_count := 0;
                    Loader.res_error := Some (str_exn e) |}.
Proof.
  intros created Hcreate Hfile Hclean Hfault.
  split; [by apply load_to_database_raises |].
  unfold Loader.run_load, try_except. rewrite load_all_data_blocks.
  unfold Loader.create_tables.
  unfold mbind at 1, Run_bind at 1. cbn beta iota zeta. rewrite Hcreate.
  unfold mbind at 1, Run_bind at 1. cbn beta iota zeta.
  rewrite (load_block_write_fault today engine_fault _ _ None _ users_df users_clean e t')
    by done.
  unfold mbind at 1, Run_bind at 1. cbn beta iota zeta.
  destruct (load_block_returns today engine_fault "posts.parquet" "posts" None
              (set_tables t' (set_tables (Loader.create_all (tables w)) w)))
    as (r & w' & ->).
  unfold mret, Run_ret. eexists _, _. split; [done |].
  by rewrite lookup_insert_ne, lookup_insert_eq.
Qed.

(** C3 where both files are on disk and the store is locked for users. *)
Lemma C3_witness :
  exists results w',
    Loader.run_load Examples.day Examples.users_locked Examples.both_files
      = (Ok results, w')
    /\ results !! "users"
       = Some {| Loader.res_table := "users"; Loader.res_count := 0;
                 Loader.res_error := Some "database is locked" |}.
Proof.
  assert (Loader.clean_dataframe_for_db Examples.processed_users "users"
          = Ok Examples.processed_users_clean) as Hclean
    by (vm_compute; reflexivity).
  destruct (C3_write_failure_is_caught Examples.day Examples.users_locked
              Examples.both_files Examples.processed_users
              Examples.processed_users_clean (EngineError "database is locked")
              (Loader.create_all ∅) eq_refl eq_refl Hclean eq_refl)
    as (_ & results & w' & Hrun & Husers).
  exists results, w'. split; [exact Hrun | exact Husers].
Defined.

(** ** The claim on the analytics *)

Lemma to_dict_records_rows (df : DataFrame) :
  length (Analytics.to_dict_records df) = df_len df
  /\ forall i, Analytics.to_dict_records df !! i = row df i.
Proof.
  unfold Analytics.to_dict_records, row, df_len. split.
  - by rewrite length_fmap, length_seq.
  - intros i. rewrite list_lookup_fmap. case_bool_decide as Hi.
    + by rewrite lookup_seq_lt.
    + by rewrite lookup_seq_ge by lia.
Qed.

(** C7. [generate_report] always returns. It sends the three queries to
    the store, in order, whatever each of them answers; the entry of a
    query that fails holds the error, no data and the count 0, and the
    entry of a query that succeeds holds no error, the rows of the frame
    the store answered, one dict per row and in the order of the rows,
    their number, and the names of the columns. *)
Theorem C7_failed_query_becomes_an_entry (now db_path : string)
    (read_sql : Analytics.sql_query -> gmap string DataFrame -> result DataFrame)
    (w : World) :
  let entry_of query :=
    match read_sql query (tables w) with
    | Ok df =>
        {| Analytics.entry_error := None;
           Analytics.entry_data := Analytics.to_dict_records df;
           Analytics.entry_record_count := df_len df;
           Analytics.entry_columns := Some (dom (columns df)) |}
    | Raise e =>
        {| Analytics.entry_error := Some (str_exn e);
           Analytics.entry_data := [];
           Analytics.entry_record_count := 0;
           Analytics.entry_columns := None |}
    end in
  exists rep w',
    Analytics.generate_report now db_path read_sql w = (Ok rep, w')
    /\ queries_run w'
       = (queries_run w
          ++ ["user_statistics"; "post_statistics"; "user_post_activity"])%list
    /\ tables w' = tables w
    /\ Analytics.analytics rep !! "user_statistics"
       = Some (entry_of Analytics.user_statistics_sql)
    /\ Analytics.analytics rep !! "post_statistics"
       = Some (entry_of Analytics.post_statistics_sql)
    /\ Analytics.analytics rep !! "user_post_activity"
       = Some (entry_of Analytics.user_post_activity_sql)
    /\ (forall df,
          length (Analytics.to_dict_records df) = df_len df
          /\ forall i, Analytics.to_dict_records df !! i = row df i).
Proof.
  intros entry_of. subst entry_of. cbv beta.
  unfold Analytics.generate_report, Analytics.analytics_functions,
    Analytics.user_statistics, Analytics.post_statistics,
    Analytics.user_post_activity, Analytics.execute_query.
  cbn [for_each]. unfold Analytics.run_analysis, try_except, raise, mbind, Run_bind,
    mret, Run_ret.
  destruct (read_sql Analytics.user_statistics_sql (tables w));
    cbn beta iota zeta; cbn [tables log_query];
    destruct (read_sql Analytics.post_statistics_sql (tables w));
    cbn beta iota zeta; cbn [tables log_query];
    destruct (read_sql Analytics.user_post_activity_sql (tables w));
    cbn beta iota zeta; eexists _, _; (split; [reflexivity |]);
    cbn [queries_run log_query tables];
    rewrite <- !app_assoc;
    (split; [reflexivity |]); (split; [reflexivity |]); (split; [reflexivity |]);
    (split; [reflexivity |]); (split; [reflexivity |]);
    exact to_dict_records_rows.
Qed.

(** ** More on the transformer *)

(** *** Trimming and counting words *)

Lemma split_ws_lstrip (s : string) : PyStr.split_ws (PyStr.lstrip s) = PyStr.split_ws s.
Proof.
  induction s as [|c s IH]; [done |].
  cbn [PyStr.lstrip]. destruct (PyStr.isspace c) eqn:Hc.
  - rewrite IH. cbn [PyStr.split_ws]. by rewrite Hc.
  - done.
Qed.

Lemma rstrip_head (c : ascii) (s : string) (c' : ascii) (r : string) :
  PyStr.rstrip (String c s) = String c' r -> c' = c.
Proof.
  cbn [PyStr.rstrip]. destruct (PyStr.rstrip s); [destruct (PyStr.isspace c) |];
    by intros [= <- _].
Qed.

Lemma split_ws_rstrip_blank (s : string) :
  PyStr.rstrip s = EmptyString -> PyStr.split_ws s = [].
Proof.
  induction s as [|c s IH]; [done |].
  cbn [PyStr.rstrip]. destruct (PyStr.rstrip s) eqn:Hr; [| done].
  destruct (PyStr.isspace c) eqn:Hc; [| done].
  intros _. cbn [PyStr.split_ws]. rewrite Hc. by apply IH.
Qed.

Lemma split_ws_rstrip (s : string) : PyStr.split_ws (PyStr.rstrip s) = PyStr.split_ws s.
Proof.
  induction s as [|c s IH]; [done |].
  cbn [PyStr.rstrip]. destruct (PyStr.rstrip s) as [|c2 r] eqn:Hr.
  - pose proof (split_ws_rstrip_blank s Hr) as Hblank.
    destruct (PyStr.isspace c) eqn:Hc.
    + cbn [PyStr.split_ws]. by rewrite Hc, Hblank.
    + cbn [PyStr.split_ws]. rewrite Hc, Hblank.
      destruct s as [|c' s']; [done |]. by destruct (PyStr.isspace c').
  - destruct s as [|c' s']; [done |].
    pose proof (rstrip_head _ _ _ _ Hr) as ->.
    change (PyStr.split_ws (String c (String c' r))
            = PyStr.split_ws (String c (String c' s'))).
    cbn [PyStr.split_ws] in *. destruct (PyStr.isspace c); [done |].
    destruct (PyStr.isspace c'); by rewrite IH.
Qed.

Lemma split_ws_strip (s : string) : PyStr.split_ws (PyStr.strip s) = PyStr.split_ws s.
Proof. unfold PyStr.strip. by rewrite split_ws_rstrip, split_ws_lstrip. Qed.

(** *** The second piece of a split *)

Lemma split_on_head (c : ascii) (s : string) :
  PyStr.split_on c s !! 0%nat = Some (TextSpec.before_first c s).
Proof.
  induction s as [|c' s IH]; [done |].
  cbn [PyStr.split_on TextSpec.before_first].
  destruct (Ascii.eqb c' c); [done |].
  destruct (PyStr.split_on c s) as [|p rest]; [done |].
  cbn in *. by injection IH as ->.
Qed.

Lemma split_on_second (c : ascii) (s : string) :
  PyStr.split_on c s !! 1%nat = TextSpec.before_first c <$> PyStr.after_first c s.
Proof.
  induction s as [|c' s IH]; [done |].
  cbn [PyStr.split_on PyStr.after_first].
  destruct (Ascii.eqb c' c).
  - cbn. apply split_on_head.
  - destruct (PyStr.split_on c s) as [|p rest] eqn:Hs; [| exact IH].
    cbn in IH. cbn. done.
Qed.

(** X1. For a post whose title and body are strings, the row holds the
    trimmed title and body, their lengths in characters, and as the word
    count the number of runs of non-space characters of the body. *)
Theorem X1_post_text_fields `{Pandas} (now : string)
    (posts : list (gmap string value)) (df : DataFrame) (i : nat)
    (r : gmap string value) (title body : string) :
  Transform.transform_posts_data now posts = Ok df ->
  posts !! i = Some r ->
  r !! "title" = Some (VStr title) ->
  r !! "body" = Some (VStr body) ->
  cell df "title" i = Some (VStr (PyStr.strip title))
  /\ cell df "body" i = Some (VStr (PyStr.strip body))
  /\ cell df "title_length" i
     = Some (VInt (Z.of_nat (String.length (PyStr.strip title))))
  /\ cell df "body_length" i
     = Some (VInt (Z.of_nat (String.length (PyStr.strip body))))
  /\ cell df "word_count" i
     = Some (VInt (Z.of_nat (length (PyStr.split_ws body)))).
Proof.
  intros Hdf%transform_posts_data_returned Hi Htitle Hbody. subst df.
  rewrite !(cell_posts_frame now posts _ i r Hi).
  unfold TransformSpec.post_row. cbv zeta. rewrite Htitle, Hbody.
  cbn [default from_option id str_cell strip_f len_f split_ws_f isna].
  rewrite length_fmap, split_ws_strip.
  repeat split;
    repeat (rewrite lookup_insert_ne by done); by rewrite lookup_insert_eq.
Qed.

(** X1 on the post "hi there". *)
Lemma X1_witness :
  exists df,
    Transform.transform_posts_data Examples.stamp [Examples.post_hello] = Ok df
    /\ cell df "title" 0 = Some (VStr "hi there")
    /\ cell df "word_count" 0 = Some (VInt 3).
Proof.
  exists (TransformSpec.posts_frame Examples.stamp [Examples.post_hello]).
  assert (Transform.transform_posts_data Examples.stamp [Examples.post_hello]
          = Ok (TransformSpec.posts_frame Examples.stamp [Examples.post_hello]))
    as Hdf by (apply transform_posts_data_returns; reflexivity).
  destruct (X1_post_text_fields Examples.stamp [Examples.post_hello] _ 0
              Examples.post_hello " hi there " "  a bc   d " Hdf
              eq_refl eq_refl eq_refl) as (Htitle & _ & _ & _ & Hwords).
  split; [exact Hdf |]. split; [exact Htitle | exact Hwords].
Defined.

(** X2. A record whose address is no dict (a null, a text, or no address
    at all while another record has one) gets the empty string as city and
    zipcode, the empty string as both coordinates and the flag false; a
    record whose company is no dict gets the empty string as company name
    and catch phrase. *)
Theorem X2_block_that_is_no_dict `{Pandas} (now : string)
    (users : list (gmap string value)) (df : DataFrame) (i : nat)
    (r : gmap string value) :
  Transform.transform_users_data now users = Ok df ->
  users !! i = Some r ->
  (Transform.is_dict (default NaN (r !! "address")) = false ->
   cell df "city" i = Some (VStr "")
   /\ cell df "zipcode" i = Some (VStr "")
   /\ cell df "lat" i = Some (VStr "")
   /\ cell df "lng" i = Some (VStr "")
   /\ cell df "has_coordinates" i = Some (VBool false))
  /\ (Transform.is_dict (default NaN (r !! "company")) = false ->
      cell df "company_name" i = Some (VStr "")
      /\ cell df "company_catchphrase" i = Some (VStr "")).
Proof.
  intros Hdf%transform_users_data_returned Hi. subst df.
  rewrite !(cell_users_frame now users _ i r Hi).
  unfold TransformSpec.user_row. cbv zeta. rewrite !lookup_fmap.
  split; intros Hblock.
  - assert (forall k, TransformSpec.field_or_empty_value k
                        (default NaN (r !! "address")) = VStr "") as Hfield
      by (intros k; by destruct (default NaN (r !! "address"))).
    assert (forall k, TransformSpec.geo_value k
                        (default NaN (r !! "address")) = VNone) as Hgeo
      by (intros k; by destruct (default NaN (r !! "address"))).
    rewrite !Hfield, !Hgeo, to_numeric_coerce_None.
    repeat split;
      repeat (rewrite lookup_insert_ne by done); by rewrite lookup_insert_eq.
  - assert (forall k, TransformSpec.field_or_empty_value k
                        (default NaN (r !! "company")) = VStr "") as Hfield
      by (intros k; by destruct (default NaN (r !! "company"))).
    rewrite !Hfield.
    split; repeat (rewrite lookup_insert_ne by done); by rewrite lookup_insert_eq.
Qed.

(** X2 on a user whose address is null and whose company is a text. *)
Lemma X2_witness :
  exists df,
    Transform.transform_users_data Examples.stamp
      [Examples.bob; MoreExamples.user_without_address] = Ok df
    /\ cell df "city" 1 = Some (VStr "")
    /\ cell df "lat" 1 = Some (VStr "")
    /\ cell df "has_coordinates" 1 = Some (VBool false)
    /\ cell df "company_name" 1 = Some (VStr "").
Proof.
  assert (Transform.transform_users_data Examples.stamp
            [Examples.bob; MoreExamples.user_without_address]
          = Ok (TransformSpec.users_frame Examples.stamp
                  [Examples.bob; MoreExamples.user_without_address])) as Hdf
    by (apply transform_users_data_returns; reflexivity).
  destruct (X2_block_that_is_no_dict Examples.stamp
              [Examples.bob; MoreExamples.user_without_address] _ 1
              MoreExamples.user_without_address Hdf eq_refl)
    as [Haddress Hcompany].
  destruct (Haddress eq_refl) as (Hcity & _ & Hlat & _ & Hflag).
  destruct (Hcompany eq_refl) as (Hname & _).
  eexists. split; [exact Hdf |]. split; [exact Hcity |]. split; [exact Hlat |].
  split; [exact Hflag | exact Hname].
Defined.

(** X3. The domain of an e-mail is the text between the first "@" of the
    lower-cased address and the next "@" or the end; an address without
    "@" has the empty string as its domain. *)
Theorem X3_email_domain_rule `{Pandas} (now : string)
    (users : list (gmap string value)) (df : DataFrame) (i : nat)
    (r : gmap string value) (e : string) :
  Transform.transform_users_data now users = Ok df ->
  users !! i = Some r ->
  r !! "email" = Some (VStr e) ->
  cell df "email" i = Some (VStr (PyStr.lower e))
  /\ cell df "email_domain" i
     = Some (VStr (default "" (TextSpec.domain_of (PyStr.lower e))))
  /\ (PyStr.count "@" e = 0%nat -> cell df "email_domain" i = Some (VStr "")).
Proof.
  intros Hdf%transform_users_data_returned Hi He. subst df.
  rewrite !(cell_users_frame now users _ i r Hi).
  unfold TransformSpec.user_row. cbv zeta. rewrite !lookup_fmap, He.
  repeat (rewrite lookup_insert_ne by done). rewrite lookup_insert_eq.
  repeat (rewrite lookup_insert_ne by done). rewrite lookup_insert_eq.
  cbn [default from_option id str_cell lower_f split_f get_f isna].
  rewrite list_lookup_fmap, split_on_second. unfold TextSpec.domain_of.
  split; [done |]. split.
  - by destruct (PyStr.after_first "@" (PyStr.lower e)).
  - intros Hat. rewrite <- count_at_lower in Hat.
    assert (PyStr.after_first "@" (PyStr.lower e) = None) as ->; [| done].
    clear -Hat. induction (PyStr.lower e) as [|c s IH]; [done |].
    cbn in *. destruct (Ascii.eqb c "@"); [done | by apply IH].
Qed.

(** X3 on an address without "@". *)
Lemma X3_witness :
  exists df,
    Transform.transform_users_data Examples.stamp
      [Examples.bob; MoreExamples.user_without_address] = Ok df
    /\ cell df "email" 1 = Some (VStr "cy.example")
    /\ cell df "email_domain" 1 = Some (VStr "").
Proof.
  assert (Transform.transform_users_data Examples.stamp
            [Examples.bob; MoreExamples.user_without_address]
          = Ok (TransformSpec.users_frame Examples.stamp
                  [Examples.bob; MoreExamples.user_without_address])) as Hdf
    by (apply transform_users_data_returns; reflexivity).
  destruct (X3_email_domain_rule Examples.stamp
              [Examples.bob; MoreExamples.user_without_address] _ 1
              MoreExamples.user_without_address "Cy.Example" Hdf eq_refl eq_refl)
    as (Hemail & _ & Hdomain).
  eexists. split; [exact Hdf |]. split; [exact Hemail | exact (Hdomain eq_refl)].
Defined.

(** *** The columns of the returned frames *)

Lemma metadata_lookup (name : string) (cols : list string) :
  (name, cols) ∈ Loader.metadata ->
  (name = "users" /\ cols = ["user_id"; "username"; "name"; "email"; "phone";
                            "website"; "city"; "zipcode"; "lat"; "lng";
                            "company_name"; "company_catchphrase";
                            "email_domain"; "has_coordinates"; "created_at"])
  \/ (name = "posts" /\ cols = ["post_id"; "user_id"; "title"; "body";
                               "title_length"; "body_length"; "word_count";
                               "post_category"; "created_at"]).
Proof.
  unfold Loader.metadata. rewrite !elem_of_cons, elem_of_nil.
  intros [[= -> ->] | [[= -> ->] | []]]; [by left | by right].
Qed.

(** X4. The frame [transform_users_data] returns has exactly the columns
    of the table "users" that the loader declares, and the frame
    [transform_posts_data] returns exactly those of the table "posts"; in
    both every column has one cell per record. *)
Theorem X4_frames_have_the_declared_columns `{Pandas} (now : string)
    (data : list (gmap string value)) (df : DataFrame) (cols : list string) :
  (Transform.transform_users_data now data = Ok df ->
   ("users", cols) ∈ Loader.metadata ->
   dom (columns df) = list_to_set cols /\ wf_frame df /\ df_len df = length data)
  /\ (Transform.transform_posts_data now data = Ok df ->
      ("posts", cols) ∈ Loader.metadata ->
      dom (columns df) = list_to_set cols /\ wf_frame df /\ df_len df = length data).
Proof.
  split.
  - intros Hdf%transform_users_data_returned Hcols. subst df.
    apply metadata_lookup in Hcols as [[_ ->] | [[=] _]].
    split; [| split; [apply wf_users_frame | done]].
    unfold TransformSpec.users_frame, fillna, TransformSpec.users_columns.
    cbn [columns]. cbv zeta.
    rewrite dom_fmap_L, !dom_insert_L, dom_singleton_L.
    cbn [list_to_set foldr]. set_solver.
  - intros Hdf%transform_posts_data_returned Hcols. subst df.
    apply metadata_lookup in Hcols as [[[=] _] | [_ ->]].
    split; [| split; [apply wf_posts_frame | done]].
    unfold TransformSpec.posts_frame, TransformSpec.posts_columns.
    cbn [columns]. cbv zeta.
    rewrite !dom_insert_L, dom_singleton_L.
    cbn [list_to_set foldr]. set_solver.
Qed.

(** X4 on the user and the post of the scenario. *)
Lemma X4_witness :
  (exists df,
     Transform.transform_users_data Examples.stamp [Examples.bob] = Ok df
     /\ wf_frame df /\ df_len df = 1%nat)
  /\ (exists df,
        Transform.transform_posts_data Examples.stamp [Examples.post_hello] = Ok df
        /\ wf_frame df /\ df_len df = 1%nat).
Proof.
  assert (Transform.transform_users_data Examples.stamp [Examples.bob]
          = Ok (TransformSpec.users_frame Examples.stamp [Examples.bob])) as Hu
    by (apply transform_users_data_returns; reflexivity).
  assert (Transform.transform_posts_data Examples.stamp [Examples.post_hello]
          = Ok (TransformSpec.posts_frame Examples.stamp [Examples.post_hello])) as Hp
    by (apply transform_posts_data_returns; reflexivity).
  split.
  - eexists. split; [exact Hu |].
    eapply (proj1 (X4_frames_have_the_declared_columns Examples.stamp [Examples.bob]
                     _ _) Hu).
    unfold Loader.metadata. apply list_elem_of_here.
  - eexists. split; [exact Hp |].
    eapply (proj2 (X4_frames_have_the_declared_columns Examples.stamp
                     [Examples.post_hello] _ _) Hp).
    unfold Loader.metadata. apply list_elem_of_further, list_elem_of_here.
Defined.

(** *** Which missing key is reported *)

Ltac split_keys :=
  repeat match goal with
         | Hand : _ && _ = true |- _ => apply andb_prop in Hand as [? ?]
         end.

Ltac read_keys :=
  repeat match goal with
         | Hkey : has_key _ _ = true |- _ => rewrite Hkey; clear Hkey; bind_ok
         end;
  match goal with
  | Hkey : has_key _ _ = false |- _ =>
      rewrite Hkey; cbv iota; rewrite result_bind_Raise; reflexivity
  end.

(** X5. When a key the transform reads first is in no record, the
    [KeyError] names the first such key in the order of the reads: "id",
    "username", "name", "email" for users and "id", "userId", "title" for
    posts. *)
Theorem X5_first_missing_key_is_reported `{Pandas} (now : string)
    (data : list (gmap string value)) (before after : list string) (k : string) :
  forallb (has_key data) before = true ->
  has_key data k = false ->
  (ReadOrder.users_first = (before ++ k :: after)%list ->
   Transform.transform_users_data now data = Raise (KeyError k))
  /\ (ReadOrder.posts_first = (before ++ k :: after)%list ->
      Transform.transform_posts_data now data = Raise (KeyError k)).
Proof.
  intros Hbefore Hk. split; intros Hsplit.
  - unfold ReadOrder.users_first in Hsplit.
    destruct before as [|a [|b [|c [|d before]]]]; cbn [app] in Hsplit;
      [| | | | by destruct before];
      simplify_eq; cbn [forallb] in Hbefore; split_keys;
      unfold Transform.transform_users_data; cbv zeta;
      rewrite !getitem_from_records; read_keys.
  - unfold ReadOrder.posts_first in Hsplit.
    destruct before as [|a [|b [|c before]]]; cbn [app] in Hsplit;
      [| | | by destruct before];
      simplify_eq; cbn [forallb] in Hbefore; split_keys;
      unfold Transform.transform_posts_data; cbv zeta;
      rewrite !getitem_from_records; read_keys.
Qed.
(** X5 on a record that has an "id" and no "username". *)
Lemma X5_witness :
  Transform.transform_users_data Examples.stamp [MoreExamples.nameless]
  = Raise (KeyError "username").
Proof.
  apply (proj1 (X5_first_missing_key_is_reported Examples.stamp
                  [MoreExamples.nameless] ["id"] ["name"; "email"] "username"
                  eq_refl eq_refl)).
  reflexivity.
Defined.

(** *** Missing values in the returned frames *)

(** X6. No cell of the frame [transform_users_data] returns is missing:
    the final fill replaces every null, the coordinates included. *)
Theorem X6_users_frame_has_no_null `{Pandas} (now : string)
    (users : list (gmap string value)) (df : DataFrame)
    (k : string) (i : nat) (v : value) :
  Transform.transform_users_data now users = Ok df ->
  cell df k i = Some v -> isna v = false.
Proof. apply users_frame_never_null. Qed.

(** X6 on the latitude of the user without geo. *)
Lemma X6_witness :
  exists df v,
    Transform.transform_users_data Examples.stamp [Examples.user_without_geo] = Ok df
    /\ cell df "lat" 0 = Some v /\ isna v = false.
Proof.
  destruct (user_without_geo_row Examples.stamp) as (Hdf & Hlat & _).
  eexists _, _. split; [exact Hdf |]. split; [exact Hlat |].
  exact (X6_users_frame_has_no_null Examples.stamp [Examples.user_without_geo]
           _ "lat" 0 _ Hdf Hlat).
Defined.

(** X7. The flag has_coordinates of a row is true exactly when neither
    lat nor lng of the row is the empty string the fill puts in. *)
Theorem X7_flag_and_filled_coordinates `{Pandas} (now : string)
    (users : list (gmap string value)) (df : DataFrame)
    (i : nat) (r : gmap string value) :
  Transform.transform_users_data now users = Ok df -> users !! i = Some r ->
  exists b lat lng,
    cell df "has_coordinates" i = Some (VBool b)
    /\ cell df "lat" i = Some lat /\ cell df "lng" i = Some lng
    /\ (b = true <-> lat <> VStr "" /\ lng <> VStr "").
Proof. apply has_coordinates_iff_present. Qed.

(** X7 on the user with both coordinates. *)
Lemma X7_witness :
  exists df b lat lng,
    Transform.transform_users_data Examples.stamp [Examples.bob] = Ok df
    /\ cell df "has_coordinates" 0 = Some (VBool b)
    /\ cell df "lat" 0 = Some lat /\ cell df "lng" 0 = Some lng
    /\ (b = true <-> lat <> VStr "" /\ lng <> VStr "").
Proof.
  assert (Transform.transform_users_data Examples.stamp [Examples.bob]
          = Ok (TransformSpec.users_frame Examples.stamp [Examples.bob])) as Hdf
    by (apply transform_users_data_returns; reflexivity).
  destruct (X7_flag_and_filled_coordinates Examples.stamp [Examples.bob] _ 0
              Examples.bob Hdf eq_refl) as (b & lat & lng & Hflag).
  exists (TransformSpec.users_frame Examples.stamp [Examples.bob]), b, lat, lng.
  split; [exact Hdf | exact Hflag].
Defined.

(** X8. The frame of posts is not filled: a record whose body is no text
    (a null, a number, or no body at all while another record has one)
    keeps a missing body, a missing length and word count, and gets the
    text "nan" as its category. *)
Theorem X8_post_without_text `{Pandas} (now : string)
    (posts : list (gmap string value)) (df : DataFrame) (i : nat)
    (r : gmap string value) :
  Transform.transform_posts_data now posts = Ok df ->
  posts !! i = Some r ->
  is_str (default NaN (r !! "body")) = false ->
  cell df "body" i = Some NaN
  /\ cell df "body_length" i = Some NaN
  /\ cell df "word_count" i = Some NaN
  /\ cell df "post_category" i = Some (VStr "nan").
Proof.
  intros Hdf%transform_posts_data_returned Hi Hbody. subst df.
  rewrite !(cell_posts_frame now posts _ i r Hi).
  unfold TransformSpec.post_row. cbv zeta.
  assert (str_cell strip_f (default NaN (r !! "body")) = NaN) as ->.
  { unfold str_cell. destruct (default NaN (r !! "body")) as [| | |[]| | | | |]; done. }
  cbn [str_cell isna cut_cell category_text].
  repeat split;
    repeat (rewrite lookup_insert_ne by done); by rewrite lookup_insert_eq.
Qed.

(** X8 on a post with a null body, beside one with a text. *)
Lemma X8_witness :
  exists df,
    Transform.transform_posts_data Examples.stamp
      [Examples.post_hello; MoreExamples.post_without_body] = Ok df
    /\ cell df "body" 1 = Some NaN
    /\ cell df "post_category" 1 = Some (VStr "nan").
Proof.
  assert (Transform.transform_posts_data Examples.stamp
            [Examples.post_hello; MoreExamples.post_without_body]
          = Ok (TransformSpec.posts_frame Examples.stamp
                  [Examples.post_hello; MoreExamples.post_without_body])) as Hdf
    by (apply transform_posts_data_returns; reflexivity).
  destruct (X8_post_without_text Examples.stamp
              [Examples.post_hello; MoreExamples.post_without_body] _ 1
              MoreExamples.post_without_body Hdf eq_refl eq_refl)
    as (Hbody & _ & _ & Hcat).
  eexists. split; [exact Hdf |]. split; [exact Hbody | exact Hcat].
Defined.

(** ** More on the loader *)

Lemma length_take (n : nat) (s : string) : (String.length (PyStr.take n s) <= n)%nat.
Proof.
  revert s. induction n as [|n IH]; intros [|c s]; simpl; try lia.
  specialize (IH s). lia.
Qed.

(** X9. After cleaning, every cell of a column under a length rule that
    the engine takes for a column of strings is a string of at most the
    length of the rule, whatever the cell held before. *)
Theorem X9_cleaned_text_fits_the_rule `{Pandas}
    (df df' : DataFrame) (table_type : string) (rules : list (string * nat))
    (col : string) (max_len : nat) (c : Series) (i : nat) (v : value) :
  wf_frame df ->
  Loader.LENGTH_RULES !! table_type = Some rules ->
  (col, max_len) ∈ rules ->
  columns df !! col = Some c ->
  is_string_dtype c = true ->
  Loader.clean_dataframe_for_db df table_type = Ok df' ->
  cell df' col i = Some v ->
  exists s, v = VStr s /\ (String.length s <= max_len)%nat.
Proof.
  intros Hwf Hrules Hrule Hc Hdt Hclean.
  destruct (clean_dataframe_for_db_spec df table_type Hwf)
    as (df2 & Hdf2 & _ & _ & Hcols).
  assert (df2 = df') as -> by congruence.
  destruct (length_rules_tables _ _ Hrules) as [Hnd Hcreated].
  assert (col <> "created_at") as Hcol.
  { intros ->. apply Hcreated. apply list_elem_of_fmap. by exists ("created_at", max_len). }
  unfold cell. rewrite Hcols, Hrules, Hc. cbn [default from_option id].
  cbn [fmap option_fmap option_map mbind option_bind].
  rewrite bool_decide_eq_false_2 by done.
  rewrite (enforce_rules_one rules col max_len c Hnd Hrule).
  unfold LoaderSpec.enforce_rule. cbn [fst snd].
  rewrite bool_decide_eq_true_2 by done. rewrite Hdt. cbn [andb].
  unfold str_map, astype_str. rewrite !list_lookup_fmap.
  destruct (c !! i) as [x|]; [| done]. cbn. intros [= <-].
  eexists. split; [reflexivity | apply length_take].
Qed.

(** X9 on the user names of the snapshot of two users. *)
Lemma X9_witness :
  exists s,
    cell Examples.processed_users_clean "username" 0 = Some (VStr s)
    /\ (String.length s <= 100)%nat.
Proof.
  assert (Loader.clean_dataframe_for_db Examples.processed_users "users"
          = Ok Examples.processed_users_clean) as Hclean
    by (vm_compute; reflexivity).
  assert ((("username", 100%nat) : string * nat)
            ∈ [("username", 100); ("name", 200); ("email", 200);
               ("phone", 50); ("website", 200); ("city", 100);
               ("zipcode", 20); ("company_name", 200);
               ("email_domain", 100)]%nat) as Hrule
    by apply list_elem_of_here.
  assert (is_string_dtype [VStr "bob"; VStr "al"] = true) as Hdt by reflexivity.
  destruct (X9_cleaned_text_fits_the_rule Examples.processed_users
              Examples.processed_users_clean "users" _ "username" 100
              [VStr "bob"; VStr "al"] 0 (VStr "bob")
              processed_users_wf eq_refl Hrule eq_refl Hdt Hclean eq_refl)
    as (s & Hs & Hlen).
  exists s. split; [by rewrite <- Hs | exact Hlen].
Defined.

(** X10. Cleaning keeps the set of columns, and leaves every column but
    created_at and those under a length rule of the table as it is; for a
    table without rules only created_at can change. *)
Theorem X10_cleaning_touches_no_other_column `{Pandas}
    (df df' : DataFrame) (table_type : string) :
  wf_frame df ->
  Loader.clean_dataframe_for_db df table_type = Ok df' ->
  dom (columns df') = dom (columns df)
  /\ (forall k,
        k <> "created_at" ->
        k ∉ (default [] (Loader.LENGTH_RULES !! table_type)).*1 ->
        columns df' !! k = columns df !! k)
  /\ (table_type <> "users" -> table_type <> "posts" ->
      forall k, k <> "created_at" -> columns df' !! k = columns df !! k).
Proof.
  intros Hwf Hclean.
  destruct (clean_dataframe_for_db_spec df table_type Hwf)
    as (df2 & Hdf2 & _ & _ & Hcols).
  assert (df2 = df') as -> by congruence.
  assert (forall k,
            k <> "created_at" ->
            k ∉ (default [] (Loader.LENGTH_RULES !! table_type)).*1 ->
            columns df' !! k = columns df !! k) as Hother.
  { intros k Hk Hrule. rewrite Hcols.
    destruct (columns df !! k) as [c|]; [| done]. cbn.
    rewrite bool_decide_eq_false_2 by done.
    by rewrite enforce_rules_other. }
  split; [| split; [exact Hother |]].
  - apply set_eq. intros k. rewrite !elem_of_dom, Hcols.
    by rewrite fmap_is_Some.
  - intros Hu Hp k Hk. apply Hother; [done |].
    assert (Loader.LENGTH_RULES !! table_type = None) as ->; [| apply not_elem_of_nil].
    unfold Loader.LENGTH_RULES. apply not_elem_of_list_to_map_1.
    cbn [fmap list_fmap fst]. rewrite !not_elem_of_cons. 
    split; [done |]. split; [done | apply not_elem_of_nil].
Qed.

(** X10 on the snapshot of two users: the identifiers are kept. *)
Lemma X10_witness :
  columns Examples.processed_users_clean !! "user_id"
  = columns Examples.processed_users !! "user_id".
Proof.
  assert (Loader.clean_dataframe_for_db Examples.processed_users "users"
          = Ok Examples.processed_users_clean) as Hclean
    by (vm_compute; reflexivity).
  destruct (X10_cleaning_touches_no_other_column Examples.processed_users
              Examples.processed_users_clean "users" processed_users_wf Hclean)
    as (_ & Hother & _).
  apply Hother; [done |].
  assert (Loader.LENGTH_RULES !! "users"
          = Some [("username", 100); ("name", 200); ("email", 200);
                  ("phone", 50); ("website", 200); ("city", 100);
                  ("zipcode", 20); ("company_name", 200);
                  ("email_domain", 100)]%nat) as -> by reflexivity.
  cbn [default from_option id fmap list_fmap fst].
  rewrite !not_elem_of_cons. repeat split; try done. apply not_elem_of_nil.
Defined.

(** ** The load stage as a whole *)

Lemma create_all_unfold (t : gmap string DataFrame) :
  Loader.create_all t =
    let posts_cols := ["post_id"; "user_id"; "title"; "body"; "title_length";
                       "body_length"; "word_count"; "post_category"; "created_at"] in
    let users_cols := ["user_id"; "username"; "name"; "email"; "phone"; "website";
                       "city"; "zipcode"; "lat"; "lng"; "company_name";
                       "company_catchphrase"; "email_domain"; "has_coordinates";
                       "created_at"] in
    let t1 := match t !! "posts" with
              | Some _ => t
              | None => <["posts" := Loader.empty_table posts_cols]> t
              end in
    match t1 !! "users" with
    | Some _ => t1
    | None => <["users" := Loader.empty_table users_cols]> t1
    end.
Proof. reflexivity. Qed.

Lemma create_all_keeps (t : gmap string DataFrame) (name : string) (df : DataFrame) :
  t !! name = Some df -> Loader.create_all t !! name = Some df.
Proof.
  intros Hdf. rewrite create_all_unfold. cbv zeta.
  destruct (t !! "posts") eqn:Hp, (t !! "users") eqn:Hu;
    repeat first [ rewrite Hu | rewrite Hp | rewrite lookup_insert_eq
                 | rewrite lookup_insert_ne by done ]; cbv iota;
    try done;
    repeat (rewrite lookup_insert_ne by congruence); done.
Qed.

Lemma create_all_declared (t : gmap string DataFrame) :
  is_Some (Loader.create_all t !! "users") /\ is_Some (Loader.create_all t !! "posts").
Proof.
  rewrite create_all_unfold. cbv zeta.
  destruct (t !! "posts") eqn:Hp, (t !! "users") eqn:Hu;
    repeat first [ rewrite Hu | rewrite Hp | rewrite lookup_insert_eq
                 | rewrite lookup_insert_ne by done ]; cbv iota;
    repeat first [ rewrite Hu | rewrite Hp | rewrite lookup_insert_eq
                 | rewrite lookup_insert_ne by done ]; split; done.
Qed.

Lemma create_all_fixed (t : gmap string DataFrame) :
  is_Some (t !! "users") -> is_Some (t !! "posts") -> Loader.create_all t = t.
Proof.
  intros [u Hu] [p Hp]. rewrite create_all_unfold. cbv zeta. by rewrite Hp, Hu.
Qed.

Section StageFacts.
Context `{Pandas}.
Variable today : string.
Variable engine_fault :
  Loader.engine_op -> gmap string DataFrame -> option (exn * gmap string DataFrame).
Hypothesis sound : forall op t, engine_fault op t = None.
Import Loader LoaderSpec StageSpec.

Lemma load_block_sound (filename table_name : string) (date : option string)
    (w : World) :
  load_block today engine_fault filename table_name date w =
    (Ok (block_result today (processed_files w) filename table_name date),
     put_table table_name
       (written_frame today (processed_files w) filename table_name date) w).
Proof.
  unfold block_result, written_frame. cbv zeta.
  destruct (processed_files w !! (default today date, filename)) as [df|] eqn:Hfile.
  - destruct (clean_dataframe_for_db df table_name) as [df_clean|e] eqn:Hclean.
    + by apply (load_block_loaded today engine_fault _ _ _ _ df df_clean).
    + unfold load_block, try_except, load_processed_data, pure_call.
      unfold mbind, Run_bind; cbn beta iota zeta. by rewrite Hfile, Hclean.
  - by apply load_block_missing.
Qed.

Lemma processed_files_put_table (table_name : string) (o : option DataFrame)
    (w : World) :
  processed_files (put_table table_name o w) = processed_files w.
Proof. by destruct o. Qed.

Lemma load_all_data_sound (date : option string) (w : World) :
  load_all_data today engine_fault date w =
    (Ok (<["posts" := block_result today (processed_files w)
                        "posts.parquet" "posts" date]>
         (<["users" := block_result today (processed_files w)
                         "users.parquet" "users" date]> ∅)),
     put_table "posts"
       (written_frame today (processed_files w) "posts.parquet" "posts" date)
       (put_table "users"
          (written_frame today (processed_files w) "users.parquet" "users" date)
          (set_tables (create_all (tables w)) w))).
Proof.
  rewrite load_all_data_blocks. unfold create_tables.
  unfold mbind at 1, Run_bind at 1. cbn beta iota zeta. rewrite sound.
  unfold mbind at 1, Run_bind at 1. cbn beta iota zeta.
  rewrite load_block_sound.
  unfold mbind at 1, Run_bind at 1. cbn beta iota zeta.
  rewrite load_block_sound.
  rewrite processed_files_put_table. cbn [processed_files set_tables].
  reflexivity.
Qed.

End StageFacts.

(** X11. With both snapshots on disk and a store that refuses nothing,
    [load_all_data] reports for each kind the number of rows of its
    snapshot and no error, leaves each table holding the cleaned snapshot,
    and touches no file. *)
Theorem X11_both_kinds_are_loaded `{Pandas} (today : string)
    (engine_fault :
      Loader.engine_op -> gmap string DataFrame -> option (exn * gmap string DataFrame))
    (date : option string) (w : World) (users_df posts_df : DataFrame) :
  let day := default today date in
  (forall op t, engine_fault op t = None) ->
  wf_frame users_df -> wf_frame posts_df ->
  processed_files w !! (day, "users.parquet") = Some users_df ->
  processed_files w !! (day, "posts.parquet") = Some posts_df ->
  exists users_clean posts_clean w',
    Loader.clean_dataframe_for_db users_df "users" = Ok users_clean
    /\ Loader.clean_dataframe_for_db posts_df "posts" = Ok posts_clean
    /\ Loader.load_all_data today engine_fault date w
       = (Ok (<["posts" := {| Loader.res_table := "posts";
                              Loader.res_count := df_len posts_df;
                              Loader.res_error := None |}]>
              (<["users" := {| Loader.res_table := "users";
                               Loader.res_count := df_len users_df;
                               Loader.res_error := None |}]> ∅)), w')
    /\ tables w' !! "users" = Some users_clean
    /\ tables w' !! "posts" = Some posts_clean
    /\ processed_files w' = processed_files w.
Proof.
  intros day Hsound Hwfu Hwfp Husers Hposts.
  destruct (clean_dataframe_for_db_spec users_df "users" Hwfu)
    as (uc & Huc & Hiu & _ & _).
  destruct (clean_dataframe_for_db_spec posts_df "posts" Hwfp)
    as (pc & Hpc & Hip & _ & _).
  exists uc, pc. eexists. split; [exact Huc |]. split; [exact Hpc |].
  rewrite (load_all_data_sound today engine_fault Hsound).
  unfold StageSpec.block_result, StageSpec.written_frame. cbv zeta.
  fold day. rewrite Husers, Hposts, Huc, Hpc. cbn [StageSpec.put_table].
  unfold df_len. rewrite Hiu, Hip. split; [reflexivity |].
  cbn [tables set_tables processed_files].
  split; [by rewrite lookup_insert_ne, lookup_insert_eq |].
  split; [by rewrite lookup_insert_eq | done].
Qed.

(** X11 on the two snapshots of the scenario. *)
Lemma X11_witness :
  exists results w',
    Loader.load_all_data Examples.day Examples.sound_engine None Examples.both_files
      = (Ok results, w')
    /\ Loader.res_count <$> results !! "users" = Some 2%nat
    /\ Loader.res_count <$> results !! "posts" = Some 1%nat.
Proof.
  destruct (X11_both_kinds_are_loaded Examples.day Examples.sound_engine None
              Examples.both_files Examples.processed_users Examples.processed_posts
              (fun _ _ => eq_refl) processed_users_wf processed_posts_wf
              eq_refl eq_refl)
    as (uc & pc & w' & _ & _ & Hload & _).
  eexists _, w'. split; [exact Hload |]. split; reflexivity.
Defined.

(** X12. A kind whose snapshot is missing is reported with the count 0,
    but its table is not emptied: a table the store already held keeps its
    rows, and a table it lacked is created empty. *)
Theorem X12_missing_snapshot_leaves_the_table `{Pandas} (today : string)
    (engine_fault :
      Loader.engine_op -> gmap string DataFrame -> option (exn * gmap string DataFrame))
    (date : option string) (w : World) :
  (forall op t, engine_fault op t = None) ->
  processed_files w !! (default today date, "users.parquet") = None ->
  exists results w',
    Loader.load_all_data today engine_fault date w = (Ok results, w')
    /\ Loader.res_count <$> results !! "users" = Some 0%nat
    /\ (forall old, tables w !! "users" = Some old -> tables w' !! "users" = Some old)
    /\ (tables w !! "users" = None ->
        exists cols, ("users", cols) ∈ Loader.metadata
                     /\ tables w' !! "users" = Some (Loader.empty_table cols)).
Proof.
  intros Hsound Husers.
  assert (StageSpec.written_frame today (processed_files w) "users.parquet"
            "users" date = None) as Hwritten
    by (unfold StageSpec.written_frame; by rewrite Husers).
  assert (Loader.res_count
            (StageSpec.block_result today (processed_files w) "users.parquet"
               "users" date) = 0%nat) as Hresult
    by (unfold StageSpec.block_result; cbv zeta; by rewrite Husers).
  assert (forall x,
            tables (StageSpec.put_table "posts" x
                      (set_tables (Loader.create_all (tables w)) w)) !! "users"
            = Loader.create_all (tables w) !! "users") as Htab.
  { intros [df|]; cbn [StageSpec.put_table tables set_tables]; [| done].
    by rewrite lookup_insert_ne. }
  eexists _, _.
  split; [apply (load_all_data_sound today engine_fault Hsound) |].
  rewrite Hwritten. cbn [StageSpec.put_table]. rewrite Htab.
  split; [by rewrite lookup_insert_ne, lookup_insert_eq, <- Hresult |].
  split.
  - intros old Hold. by apply create_all_keeps.
  - intros Hnone. eexists. split; [apply list_elem_of_here |].
    rewrite create_all_unfold. cbv zeta.
    destruct (tables w !! "posts");
      repeat (rewrite lookup_insert_ne by done); rewrite Hnone; cbv iota;
      by rewrite lookup_insert_eq.
Qed.

(** X12 where only the posts are on disk. *)
Lemma X12_witness :
  exists results w',
    Loader.load_all_data Examples.day Examples.sound_engine None
      Examples.posts_file_only = (Ok results, w')
    /\ Loader.res_count <$> results !! "users" = Some 0%nat.
Proof.
  destruct (X12_missing_snapshot_leaves_the_table Examples.day Examples.sound_engine
              None Examples.posts_file_only (fun _ _ => eq_refl) eq_refl)
    as (results & w' & Hload & Hcount & _).
  exists results, w'. split; [exact Hload | exact Hcount].
Defined.

(** X13. [load_all_data] raises exactly when the store refuses to create
    the tables, and then raises what the store raised before any file is
    read; the load stage of the orchestrator behaves as [load_all_data]
    with no date. *)
Theorem X13_load_raises_iff_creation_fails `{Pandas} (today : string)
    (engine_fault :
      Loader.engine_op -> gmap string DataFrame -> option (exn * gmap string DataFrame))
    (date : option string) (w : World) :
  (forall e w',
     Loader.load_all_data today engine_fault date w = (Raise e, w')
     <-> exists t', engine_fault Loader.OpCreateAll (tables w) = Some (e, t')
                    /\ w' = set_tables t' w)
  /\ Loader.run_load today engine_fault w
     = Loader.load_all_data today engine_fault None w.
Proof.
  split.
  - intros e w'. rewrite load_all_data_blocks. unfold Loader.create_tables.
    unfold mbind at 1, Run_bind at 1. cbn beta iota zeta.
    destruct (engine_fault Loader.OpCreateAll (tables w)) as [[e0 t0]|].
    + split.
      * intros [= <- <-]. by eexists.
      * intros (t' & [= <- <-] & ->). done.
    + unfold mbind at 1, Run_bind at 1. cbn beta iota zeta.
      destruct (load_block_returns today engine_fault "users.parquet" "users" date
                  (set_tables (Loader.create_all (tables w)) w)) as (r1 & w1 & ->).
      unfold mbind at 1, Run_bind at 1. cbn beta iota zeta.
      destruct (load_block_returns today engine_fault "posts.parquet" "posts" date w1)
        as (r2 & w2 & ->).
      split; [done | by intros (? & ? & _)].
  - unfold Loader.run_load, try_except, raise.
    by destruct (Loader.load_all_data today engine_fault None w) as [[r|e] w'].
Qed.

(** X13 on a store that cannot be opened. *)
Lemma X13_witness :
  Loader.load_all_data Examples.day SiteSpec.closed_store None Examples.both_files
  = (Raise (EngineError "unable to open database file"),
     set_tables (tables Examples.both_files) Examples.both_files).
Proof.
  apply (proj1 (X13_load_raises_iff_creation_fails Examples.day SiteSpec.closed_store
                  None Examples.both_files)).
  by exists (tables Examples.both_files).
Defined.

(** X14. Under a store that refuses nothing the load is idempotent: run
    again on the world it leaves, [load_all_data] returns the same results
    and leaves the world as it is. *)
Theorem X14_loading_again_changes_nothing `{Pandas} (today : string)
    (engine_fault :
      Loader.engine_op -> gmap string DataFrame -> option (exn * gmap string DataFrame))
    (date : option string) (w : World) :
  (forall op t, engine_fault op t = None) ->
  exists results w1,
    Loader.load_all_data today engine_fault date w = (Ok results, w1)
    /\ Loader.load_all_data today engine_fault date w1 = (Ok results, w1).
Proof.
  intros Hsound. eexists _, _.
  split; [apply (load_all_data_sound today engine_fault Hsound) |].
  rewrite (load_all_data_sound today engine_fault Hsound).
  rewrite !processed_files_put_table. cbn [processed_files set_tables].
  f_equal.
  destruct (create_all_declared (tables w)) as [[u Hu] [p Hp]].
  set (fu := StageSpec.written_frame today (processed_files w) "users.parquet"
               "users" date).
  set (fp := StageSpec.written_frame today (processed_files w) "posts.parquet"
               "posts" date).
  destruct w as [files t q]. cbn [tables processed_files] in *.
  set (c := Loader.create_all t) in *.
  destruct fu as [dfu|], fp as [dfp|];
    unfold StageSpec.put_table, set_tables;
    cbn [tables processed_files queries_run];
    (rewrite create_all_fixed
       by (rewrite ?lookup_insert_eq, ?lookup_insert_ne by done;
           rewrite ?lookup_insert_eq; done));
    f_equal.
  - rewrite (insert_insert_ne _ "users" "posts") by done.
    by rewrite !insert_insert_eq.
  - by rewrite insert_insert_eq.
  - by rewrite insert_insert_eq.
Qed.

(** X14 on the two snapshots of the scenario. *)
Lemma X14_witness :
  exists results w1,
    Loader.load_all_data Examples.day Examples.sound_engine None Examples.both_files
      = (Ok results, w1)
    /\ Loader.load_all_data Examples.day Examples.sound_engine None w1
       = (Ok results, w1).
Proof.
  exact (X14_loading_again_changes_nothing Examples.day Examples.sound_engine None
           Examples.both_files (fun _ _ => eq_refl)).
Defined.

(** ** Methods on the files *)

Lemma act_bind_unfold {A B : Type} (m : Act A) (f : A -> Act B) (s : Site) :
  (m ≫= f) s = match m s with
               | (Ok a, s') => f a s'
               | (Raise e, s') => (Raise e, s')
               end.
Proof. reflexivity. Qed.

Lemma act_try_reraise {A : Type} (body : Act A) (s : Site) :
  act_try body (fun e => act_raise e) s = body s.
Proof. unfold act_try, act_raise. by destruct (body s) as [[a|e] s']. Qed.

(** ** The extractor *)

Lemma append_empty (t : string) : EmptyString +:+ t = t.
Proof. reflexivity. Qed.

Lemma append_String (c : ascii) (s t : string) :
  String c s +:+ t = String c (s +:+ t).
Proof. reflexivity. Qed.





Section ExtractorFacts.
Variable base_url : string.
Variable today : string.
Variable http_get :
  string -> option (gmap string string) -> result (list (gmap string value)).
Variable raw_fault :
  string * string -> list (gmap string value) ->
  gmap (string * string) (list (gmap string value)) ->
  option (exn * gmap (string * string) (list (gmap string value))).
Import Extractor.

Lemma extract_and_save_unfold (endpoint filename : string)
    (params : option (gmap string string)) (s : Site) :
  extract_and_save base_url today http_get raw_fault endpoint filename params s =
    match http_get (request_url base_url endpoint) params with
    | Raise e => (Raise e, s)
    | Ok data =>
        match raw_fault (today, filename) data (raw_files s) with
        | Some (e, files') => (Raise e, set_raw_files files' s)
        | None =>
            (Ok data, set_raw_files (<[(today, filename) := data]> (raw_files s)) s)
        end
    end.
Proof.
  unfold extract_and_save. rewrite act_bind_unfold.
  unfold fetch_data. cbv zeta. rewrite act_try_reraise. unfold act_pure.
  destruct (http_get _ params) as [data|e]; [| done].
  rewrite act_bind_unfold. unfold save_raw_data. cbv zeta.
  rewrite act_bind_unfold. unfold create_directories, mret, Act_ret.
  cbv iota beta.
  rewrite act_try_reraise. cbn [default from_option id].
  by destruct (raw_fault _ data (raw_files s)) as [[e files']|].
Qed.

End ExtractorFacts.

(** X16. When the request fails, [extract_and_save] raises the exception
    of the request and writes nothing; when the request succeeds and the
    write fails, it raises the exception of the write, and the data that
    was fetched is lost to the caller. *)
Theorem X16_failed_extraction (base_url today : string)
    (http_get :
      string -> option (gmap string string) -> result (list (gmap string value)))
    (raw_fault :
      string * string -> list (gmap string value) ->
      gmap (string * string) (list (gmap string value)) ->
      option (exn * gmap (string * string) (list (gmap string value))))
    (endpoint filename : string) (params : option (gmap string string)) (s : Site) :
  (forall e,
     http_get (Extractor.request_url base_url endpoint) params = Raise e ->
     Extractor.extract_and_save base_url today http_get raw_fault
       endpoint filename params s = (Raise e, s))
  /\ (forall data e files',
        http_get (Extractor.request_url base_url endpoint) params = Ok data ->
        raw_fault (today, filename) data (raw_files s) = Some (e, files') ->
        Extractor.extract_and_save base_url today http_get raw_fault
          endpoint filename params s = (Raise e, set_raw_files files' s)).
Proof.
  split.
  - intros e Hget. by rewrite extract_and_save_unfold, Hget.
  - intros data e files' Hget Hfault. by rewrite extract_and_save_unfold, Hget, Hfault.
Qed.

(** X16 on the API that serves no posts. *)
Lemma X16_witness :
  Extractor.extract_and_save "http://api/" Examples.day SiteSpec.api_without_posts
    SiteSpec.sound_raw "/posts" "posts.json" None SiteSpec.empty_site
  = (Raise (ValueError "404 Client Error"), SiteSpec.empty_site).
Proof.
  apply (proj1 (X16_failed_extraction "http://api/" Examples.day
                  SiteSpec.api_without_posts SiteSpec.sound_raw
                  "/posts" "posts.json" None SiteSpec.empty_site)).
  reflexivity.
Defined.

(** X17. What [extract_and_save] returns is what it saved, under the
    date of the day and the file name, and what the transformer reads back
    from that file; no other file and nothing of the store is touched. *)
Theorem X17_saved_data_is_read_back (base_url today : string)
    (http_get :
      string -> option (gmap string string) -> result (list (gmap string value)))
    (raw_fault :
      string * string -> list (gmap string value) ->
      gmap (string * string) (list (gmap string value)) ->
      option (exn * gmap (string * string) (list (gmap string value))))
    (endpoint filename : string) (params : option (gmap string string)) (s : Site)
    (data : list (gmap string value)) :
  http_get (Extractor.request_url base_url endpoint) params = Ok data ->
  raw_fault (today, filename) data (raw_files s) = None ->
  exists s',
    Extractor.extract_and_save base_url today http_get raw_fault
      endpoint filename params s = (Ok data, s')
    /\ raw_files s' = <[(today, filename) := data]> (raw_files s)
    /\ world s' = world s /\ report_files s' = report_files s
    /\ TransformFiles.load_raw_data today filename None s' = (Ok data, s')
    /\ TransformFiles.load_raw_data today filename (Some today) s' = (Ok data, s').
Proof.
  intros Hget Hfault. eexists.
  split; [by rewrite extract_and_save_unfold, Hget, Hfault |].
  unfold TransformFiles.load_raw_data. cbn [raw_files world report_files set_raw_files].
  cbn [default from_option id]. by rewrite lookup_insert_eq.
Qed.

(** X17 on the users the API serves. *)
Lemma X17_witness :
  exists s',
    Extractor.extract_and_save "http://api/" Examples.day SiteSpec.api
      SiteSpec.sound_raw "/users" "users.json" None SiteSpec.empty_site
    = (Ok [Examples.bob], s')
    /\ TransformFiles.load_raw_data Examples.day "users.json" None s'
       = (Ok [Examples.bob], s').
Proof.
  destruct (X17_saved_data_is_read_back "http://api/" Examples.day SiteSpec.api
              SiteSpec.sound_raw "/users" "users.json" None SiteSpec.empty_site
              [Examples.bob] eq_refl eq_refl)
    as (s' & Hsave & _ & _ & _ & Hread & _).
  exists s'. split; [exact Hsave | exact Hread].
Defined.

(** ** The files of the transformer *)

Section TransformFilesFacts.
Context `{Pandas}.
Variable now : string.
Variable today : string.
Variable parquet_fault :
  string * string -> DataFrame -> gmap (string * string) DataFrame ->
  option (exn * gmap (string * string) DataFrame).
Import TransformFiles.

Lemma process_data_unfold (raw_filename processed_filename data_type : string)
    (s : Site) :
  process_data now today parquet_fault raw_filename processed_filename data_type s =
    match raw_files s !! (today, raw_filename) with
    | None => (Raise (FileNotFoundError (today +:+ "/" +:+ raw_filename)), s)
    | Some data =>
        match FilesSpec.transform_for data_type now data with
        | Raise e => (Raise e, s)
        | Ok df =>
            match parquet_fault (today, processed_filename) df
                    (processed_files (world s)) with
            | Some (e, files') => (Raise e, set_processed_files files' s)
            | None =>
                (Ok df,
                 set_processed_files
                   (<[(today, processed_filename) := df]>
                      (processed_files (world s))) s)
            end
        end
    end.
Proof.
  unfold process_data. rewrite act_bind_unfold.
  unfold load_raw_data. cbn [default from_option id].
  destruct (raw_files s !! (today, raw_filename)) as [data|]; [| done].
  rewrite act_bind_unfold. unfold FilesSpec.transform_for.
  assert (forall r : result DataFrame,
            match act_pure r s with
            | (Ok a, s') =>
                (_ ← save_to_parquet today parquet_fault a processed_filename;
                 mret a) s'
            | (Raise e, s') => (Raise e, s')
            end =
            match r with
            | Raise e => (Raise e, s)
            | Ok df =>
                match parquet_fault (today, processed_filename) df
                        (processed_files (world s)) with
                | Some (e, files') => (Raise e, set_processed_files files' s)
                | None =>
                    (Ok df,
                     set_processed_files
                       (<[(today, processed_filename) := df]>
                          (processed_files (world s))) s)
                end
            end) as Hsave.
  { intros [df|e]; [| done]. unfold act_pure. cbv iota beta.
    rewrite act_bind_unfold. unfold save_to_parquet. rewrite act_bind_unfold.
    unfold create_processed_directory, mret, Act_ret. cbv iota beta zeta.
    unfold write_table.
    by destruct (parquet_fault _ df (processed_files (world s))) as [[e files']|]. }
  destruct (String.eqb data_type "users"); [apply Hsave |].
  destruct (String.eqb data_type "posts"); [apply Hsave | done].
Qed.

End TransformFilesFacts.

(** X18. [process_data] looks for the raw file before it looks at the
    data type: without the file of the day it raises [FileNotFoundError]
    whatever the type; with the file and a type other than "users" and
    "posts" it raises [ValueError]. In both cases nothing is written. *)
Theorem X18_process_data_refuses `{Pandas} (now today : string)
    (parquet_fault :
      string * string -> DataFrame -> gmap (string * string) DataFrame ->
      option (exn * gmap (string * string) DataFrame))
    (raw_filename processed_filename data_type : string) (s : Site) :
  (raw_files s !! (today, raw_filename) = None ->
   TransformFiles.process_data now today parquet_fault
     raw_filename processed_filename data_type s
   = (Raise (FileNotFoundError (today +:+ "/" +:+ raw_filename)), s))
  /\ (is_Some (raw_files s !! (today, raw_filename)) ->
      data_type <> "users" -> data_type <> "posts" ->
      TransformFiles.process_data now today parquet_fault
        raw_filename processed_filename data_type s
      = (Raise (ValueError "Unknown data type"), s)).
Proof.
  split.
  - intros Hfile. by rewrite process_data_unfold, Hfile.
  - intros [data Hfile] Hu Hp. rewrite process_data_unfold, Hfile.
    unfold FilesSpec.transform_for.
    apply String.eqb_neq in Hu, Hp. by rewrite Hu, Hp.
Qed.

(** X18 on a site without files. *)
Lemma X18_witness :
  TransformFiles.process_data Examples.stamp Examples.day SiteSpec.sound_parquet
    "users.json" "users.parquet" "comments" SiteSpec.empty_site
  = (Raise (FileNotFoundError "2024-05-01/users.json"), SiteSpec.empty_site).
Proof.
  apply (proj1 (X18_process_data_refuses Examples.stamp Examples.day
                  SiteSpec.sound_parquet "users.json" "users.parquet" "comments"
                  SiteSpec.empty_site)).
  reflexivity.
Defined.

(** X19. When the transform raises, [process_data] raises the same
    exception and writes no snapshot; so it does on a raw file that holds
    the empty array, with the [KeyError] of "id". *)
Theorem X19_failed_transform_writes_nothing `{Pandas} (now today : string)
    (parquet_fault :
      string * string -> DataFrame -> gmap (string * string) DataFrame ->
      option (exn * gmap (string * string) DataFrame))
    (raw_filename processed_filename : string) (s : Site)
    (data : list (gmap string value)) :
  raw_files s !! (today, raw_filename) = Some data ->
  (forall e,
     Transform.transform_users_data now data = Raise e ->
     TransformFiles.process_data now today parquet_fault
       raw_filename processed_filename "users" s = (Raise e, s))
  /\ (forall e,
        Transform.transform_posts_data now data = Raise e ->
        TransformFiles.process_data now today parquet_fault
          raw_filename processed_filename "posts" s = (Raise e, s))
  /\ (data = [] ->
      TransformFiles.process_data now today parquet_fault
        raw_filename processed_filename "users" s = (Raise (KeyError "id"), s)
      /\ TransformFiles.process_data now today parquet_fault
           raw_filename processed_filename "posts" s = (Raise (KeyError "id"), s)).
Proof.
  intros Hfile. split; [| split].
  - intros e He. rewrite process_data_unfold, Hfile.
    unfold FilesSpec.transform_for. cbn [String.eqb Ascii.eqb Bool.eqb]. by rewrite He.
  - intros e He. rewrite process_data_unfold, Hfile.
    unfold FilesSpec.transform_for. cbn [String.eqb Ascii.eqb Bool.eqb]. by rewrite He.
  - intros ->. rewrite !process_data_unfold, Hfile.
    unfold FilesSpec.transform_for. cbn [String.eqb Ascii.eqb Bool.eqb].
    by rewrite transform_users_data_empty, transform_posts_data_empty.
Qed.

(** X19 on a raw file that holds the empty array. *)
Lemma X19_witness :
  TransformFiles.process_data Examples.stamp Examples.day SiteSpec.sound_parquet
    "users.json" "users.parquet" "users"
    (SiteSpec.site_with {[ (Examples.day, "users.json") := [] ]}
       (Examples.world_with ∅))
  = (Raise (KeyError "id"),
     SiteSpec.site_with {[ (Examples.day, "users.json") := [] ]}
       (Examples.world_with ∅)).
Proof.
  assert (raw_files (SiteSpec.site_with {[ (Examples.day, "users.json") := [] ]}
                       (Examples.world_with ∅)) !! (Examples.day, "users.json")
          = Some []) as Hfile by (vm_compute; reflexivity).
  destruct (X19_failed_transform_writes_nothing Examples.stamp Examples.day
              SiteSpec.sound_parquet "users.json" "users.parquet"
              (SiteSpec.site_with {[ (Examples.day, "users.json") := [] ]}
                 (Examples.world_with ∅)) [] Hfile) as (_ & _ & Hempty).
  exact (proj1 (Hempty eq_refl)).
Defined.

(** X20. When the transform returns and the snapshot is written,
    [process_data] returns the frame of the transform, the snapshot of the
    day under the processed file name holds that frame, the loader reads
    it back from there, and neither a raw file nor a table is touched. *)
Theorem X20_snapshot_is_what_the_loader_reads `{Pandas} (now today : string)
    (parquet_fault :
      string * string -> DataFrame -> gmap (string * string) DataFrame ->
      option (exn * gmap (string * string) DataFrame))
    (raw_filename processed_filename data_type : string) (s : Site)
    (data : list (gmap string value)) (df : DataFrame) :
  raw_files s !! (today, raw_filename) = Some data ->
  FilesSpec.transform_for data_type now data = Ok df ->
  parquet_fault (today, processed_filename) df (processed_files (world s)) = None ->
  exists s',
    TransformFiles.process_data now today parquet_fault
      raw_filename processed_filename data_type s = (Ok df, s')
    /\ processed_files (world s')
       = <[(today, processed_filename) := df]> (processed_files (world s))
    /\ raw_files s' = raw_files s
    /\ tables (world s') = tables (world s)
    /\ report_files s' = report_files s
    /\ Loader.load_processed_data today processed_filename None (world s')
       = (Ok df, world s').
Proof.
  intros Hfile Hdf Hfault. eexists.
  split; [by rewrite process_data_unfold, Hfile, Hdf, Hfault |].
  unfold Loader.load_processed_data, TransformFiles.set_processed_files.
  cbn [world set_world processed_files tables raw_files report_files].
  cbn [default from_option id]. by rewrite lookup_insert_eq.
Qed.

(** X20 on a raw file of one post. *)
Lemma X20_witness :
  exists df s',
    TransformFiles.process_data Examples.stamp Examples.day SiteSpec.sound_parquet
      "posts.json" "posts.parquet" "posts"
      (SiteSpec.site_with {[ (Examples.day, "posts.json") := [Examples.post_hello] ]}
         (Examples.world_with ∅)) = (Ok df, s')
    /\ Loader.load_processed_data Examples.day "posts.parquet" None (world s')
       = (Ok df, world s').
Proof.
  assert (FilesSpec.transform_for "posts" Examples.stamp [Examples.post_hello]
          = Ok (TransformSpec.posts_frame Examples.stamp [Examples.post_hello])) as Hdf
    by (apply transform_posts_data_returns; reflexivity).
  assert (raw_files (SiteSpec.site_with
                       {[ (Examples.day, "posts.json") := [Examples.post_hello] ]}
                       (Examples.world_with ∅)) !! (Examples.day, "posts.json")
          = Some [Examples.post_hello]) as Hfile by apply lookup_singleton_eq.
  destruct (X20_snapshot_is_what_the_loader_reads Examples.stamp Examples.day
              SiteSpec.sound_parquet "posts.json" "posts.parquet" "posts"
              (SiteSpec.site_with
                 {[ (Examples.day, "posts.json") := [Examples.post_hello] ]}
                 (Examples.world_with ∅))
              [Examples.post_hello] _ Hfile Hdf eq_refl)
    as (s' & Hrun & _ & _ & _ & _ & Hread).
  eexists _, s'. split; [exact Hrun | exact Hread].
Defined.

(** ** The reports of the analytics *)

Lemma fmap_lookup_seq (s : Series) (n : nat) :
  length s = n -> (fun i => default NaN (s !! i)) <$> seq 0 n = s.
Proof.
  intros Hlen. apply list_eq. intros i. rewrite list_lookup_fmap.
  destruct (decide (i < n)%nat) as [Hi|Hi].
  - rewrite lookup_seq_lt by done. cbn.
    destruct (lookup_lt_is_Some_2 s i ltac:(lia)) as [x Hx]. by rewrite Hx.
  - rewrite lookup_seq_ge by lia. cbn. symmetry. apply lookup_ge_None_2. lia.
Qed.

Lemma existsb_same {A : Type} (P : A -> bool) (b : bool) (l : list A) :
  (forall x, x ∈ l -> P x = b) -> l <> [] -> existsb P l = b.
Proof.
  induction l as [|x l IH]; [done |]. intros HP _. cbn [existsb].
  rewrite (HP x) by apply list_elem_of_here.
  destruct l as [|y l]; [cbn; by destruct b |].
  rewrite IH; [by destruct b | | done].
  intros z Hz. apply HP. by apply list_elem_of_further.
Qed.

(** The rows of a frame, made a frame again, are the frame: every column
    of a frame has a cell in every row. *)
Lemma from_records_to_dict_records (df : DataFrame) :
  wf_frame df -> index df <> 0%nat ->
  DataFrame_from_records (Analytics.to_dict_records df) = df.
Proof.
  intros Hwf Hrows. destruct df as [n cols]. cbn [index] in Hrows.
  unfold wf_frame in Hwf. cbn [index columns] in Hwf.
  assert (forall k,
            columns (DataFrame_from_records
                       (Analytics.to_dict_records (mkDataFrame n cols))) !! k
            = cols !! k) as Hcols.
  { intros k.
    pose proof (getitem_from_records
                  (Analytics.to_dict_records (mkDataFrame n cols)) k) as Hget.
    unfold getitem in Hget.
    assert (has_key (Analytics.to_dict_records (mkDataFrame n cols)) k
            = bool_decide (is_Some (cols !! k))) as Hkey.
    { unfold has_key, Analytics.to_dict_records. cbn [index columns].
      apply existsb_same.
      - intros r. rewrite list_elem_of_fmap. intros (i & -> & _).
        rewrite lookup_fmap. apply bool_decide_ext. by rewrite fmap_is_Some.
      - destruct n; [done |]. discriminate. }
    rewrite Hkey in Hget.
    destruct (cols !! k) as [c|] eqn:Hc.
    - rewrite bool_decide_eq_true_2 in Hget by done.
      destruct (columns _ !! k) as [c'|]; [| done]. injection Hget as ->.
      f_equal. unfold column_of, Analytics.to_dict_records. cbn [index columns].
      rewrite <- list_fmap_compose.
      etrans; [| apply (fmap_lookup_seq c n (Hwf k c Hc))].
      apply list_fmap_ext. intros i j _. cbn. by rewrite lookup_fmap, Hc.
    - rewrite bool_decide_eq_false_2 in Hget by (by intros [? ?]).
      by destruct (columns _ !! k). }
  unfold DataFrame_from_records in *. cbn [columns] in Hcols. f_equal.
  - unfold Analytics.to_dict_records. cbn [index]. by rewrite length_fmap, length_seq.
  - apply map_eq. exact Hcols.
Qed.

Lemma to_dict_records_nil (df : DataFrame) :
  Analytics.to_dict_records df = [] <-> index df = 0%nat.
Proof.
  unfold Analytics.to_dict_records. destruct (index df); [done |].
  cbn [seq fmap list_fmap]. split; intros; discriminate.
Qed.

Section ReportFacts.
Variable now : string.
Variable csv_stamp : string.
Variable json_stamp : string.
Variable db_path : string.
Variable read_sql :
  Analytics.sql_query -> gmap string DataFrame -> result DataFrame.
Variable report_fault :
  string -> report_file -> gmap string report_file ->
  option (exn * gmap string report_file).
Import Reports ReportSpec.

Lemma generate_report_runs (w : World) :
  Analytics.generate_report now db_path read_sql w =
    (Ok (report_of read_sql now db_path (tables w)),
     log_query "user_post_activity"
       (log_query "post_statistics" (log_query "user_statistics" w))).
Proof.
  unfold Analytics.generate_report, Analytics.analytics_functions,
    Analytics.user_statistics, Analytics.post_statistics,
    Analytics.user_post_activity, Analytics.execute_query, report_of, entry_of.
  cbn [for_each]. unfold Analytics.run_analysis, try_except, raise, mbind, Run_bind,
    mret, Run_ret.
  destruct (read_sql Analytics.user_statistics_sql (tables w));
    cbn beta iota zeta; cbn [tables log_query];
    destruct (read_sql Analytics.post_statistics_sql (tables w));
    cbn beta iota zeta; cbn [tables log_query];
    destruct (read_sql Analytics.user_post_activity_sql (tables w));
    cbn beta iota zeta; reflexivity.
Qed.

Lemma items_report_of (t : gmap string DataFrame) :
  items (report_of read_sql now db_path t) =
    [("user_statistics", entry_of read_sql t Analytics.user_statistics_sql);
     ("post_statistics", entry_of read_sql t Analytics.post_statistics_sql);
     ("user_post_activity", entry_of read_sql t Analytics.user_post_activity_sql)].
Proof.
  unfold items, analysis_names, report_of. cbn [Analytics.analytics omap list_omap].
  repeat first [ rewrite lookup_insert_eq | rewrite lookup_insert_ne by done ].
  reflexivity.
Qed.

Hypothesis sound : forall name file files, report_fault name file files = None.

Lemma set_report_files_same (s : Site) : set_report_files (report_files s) s = s.
Proof. by destruct s. Qed.

Lemma save_csv_sound (saved : list string) (name : string) (e : Analytics.entry)
    (s : Site) :
  save_csv csv_stamp report_fault saved (name, e) s =
    (Ok (saved ++ csv_of csv_stamp name e)%list,
     set_report_files (put_csv csv_stamp name e (report_files s)) s).
Proof.
  unfold save_csv, csv_of, put_csv.
  destruct (Analytics.entry_data e) as [|r data].
  - unfold mret, Act_ret. by rewrite app_nil_r, set_report_files_same.
  - rewrite act_bind_unfold. unfold write_report. rewrite sound.
    reflexivity.
Qed.

Lemma run_analytics_sound (s : Site) :
  let t := tables (world s) in
  let rep := report_of read_sql now db_path t in
  let e1 := entry_of read_sql t Analytics.user_statistics_sql in
  let e2 := entry_of read_sql t Analytics.post_statistics_sql in
  let e3 := entry_of read_sql t Analytics.user_post_activity_sql in
  let saved := (csv_of csv_stamp "user_statistics" e1
                ++ csv_of csv_stamp "post_statistics" e2
                ++ csv_of csv_stamp "user_post_activity" e3)%list in
  run_analytics now csv_stamp json_stamp db_path read_sql report_fault s =
    (Ok {| json_report := json_name json_stamp;
           csv_files := saved;
           queries_executed := analysis_names;
           total_csv_files := length saved |},
     set_report_files
       (<[json_name json_stamp := JsonFile rep]>
          (put_csv csv_stamp "user_post_activity" e3
             (put_csv csv_stamp "post_statistics" e2
                (put_csv csv_stamp "user_statistics" e1 (report_files s)))))
       (set_world
          (log_query "user_post_activity"
             (log_query "post_statistics"
                (log_query "user_statistics" (world s)))) s)).
Proof.
  intros t rep e1 e2 e3 saved.
  unfold run_analytics. rewrite act_bind_unfold.
  unfold on_world. rewrite generate_report_runs. fold t. fold rep. cbv iota beta.
  rewrite act_bind_unfold. unfold save_csv_reports.
  unfold rep at 1. rewrite items_report_of. fold e1 e2 e3.
  cbn [for_each]. rewrite act_bind_unfold, save_csv_sound. cbv iota beta.
  rewrite act_bind_unfold, save_csv_sound. cbv iota beta.
  rewrite act_bind_unfold, save_csv_sound. cbv iota beta.
  unfold mret at 1, Act_ret at 1. cbv iota beta.
  rewrite act_bind_unfold. unfold save_json_report, write_report. rewrite sound.
  cbv iota beta. unfold mret, Act_ret.
  unfold rep at 1. rewrite items_report_of.
  cbn [report_files set_report_files raw_files world set_world app fmap list_fmap fst].
  rewrite <- !app_assoc. reflexivity.
Qed.

End ReportFacts.

Lemma report_names_differ (a b : string) :
  ReportSpec.csv_name "user_statistics" a <> ReportSpec.csv_name "post_statistics" a
  /\ ReportSpec.csv_name "user_statistics" a <> ReportSpec.csv_name "user_post_activity" a
  /\ ReportSpec.csv_name "post_statistics" a <> ReportSpec.csv_name "user_post_activity" a
  /\ ReportSpec.json_name b <> ReportSpec.csv_name "user_statistics" a
  /\ ReportSpec.json_name b <> ReportSpec.csv_name "post_statistics" a
  /\ ReportSpec.json_name b <> ReportSpec.csv_name "user_post_activity" a.
Proof.
  unfold ReportSpec.csv_name, ReportSpec.json_name.
  rewrite !append_String, !append_empty. repeat split; intros [=].
Qed.

Lemma lookup_put_csv_ne (stamp name : string) (e : Analytics.entry)
    (files : gmap string report_file) (key : string) :
  ReportSpec.csv_name name stamp <> key ->
  ReportSpec.put_csv stamp name e files !! key = files !! key.
Proof.
  intros Hkey. unfold ReportSpec.put_csv.
  destruct (Analytics.entry_data e); [done |]. by rewrite lookup_insert_ne.
Qed.

Ltac not_listed :=
  cbn [app]; rewrite ?not_elem_of_cons;
  repeat split; first [done | apply not_elem_of_nil | by apply not_eq_sym].

Ltac listed :=
  rewrite !elem_of_app, !elem_of_cons; auto.

Section ReportCorollaries.
Variable read_sql :
  Analytics.sql_query -> gmap string DataFrame -> result DataFrame.
Import Reports ReportSpec.

Lemma csv_of_answered (stamp name : string) (t : gmap string DataFrame)
    (q : Analytics.sql_query) :
  csv_of stamp name (entry_of read_sql t q)
  = if answered read_sql t q then [csv_name name stamp] else [].
Proof.
  unfold csv_of, entry_of, answered.
  destruct (read_sql q t) as [df|e]; [| done].
  cbn [Analytics.entry_data Analytics.success_entry].
  unfold Analytics.to_dict_records. by destruct (index df).
Qed.

Lemma put_csv_unanswered (stamp name : string) (t : gmap string DataFrame)
    (q : Analytics.sql_query) (files : gmap string report_file) :
  answered read_sql t q = false ->
  put_csv stamp name (entry_of read_sql t q) files = files.
Proof.
  unfold put_csv, entry_of, answered.
  destruct (read_sql q t) as [df|e]; [| done].
  cbn [Analytics.entry_data Analytics.success_entry].
  unfold Analytics.to_dict_records. by destruct (index df).
Qed.

Lemma lookup_put_csv_answer (stamp name : string) (t : gmap string DataFrame)
    (q : Analytics.sql_query) (files : gmap string report_file) (df : DataFrame) :
  read_sql q t = Ok df -> wf_frame df -> index df <> 0%nat ->
  put_csv stamp name (entry_of read_sql t q) files !! csv_name name stamp
  = Some (CsvFile df).
Proof.
  intros Hq Hwf Hrows. unfold put_csv, entry_of. rewrite Hq.
  cbn [Analytics.entry_data Analytics.success_entry].
  destruct (Analytics.to_dict_records df) as [|r data] eqn:Hdata.
  - by apply to_dict_records_nil in Hdata.
  - rewrite lookup_insert_eq, <- Hdata. by rewrite from_records_to_dict_records.
Qed.

End ReportCorollaries.

(** X21. When the reports can be written, [run_analytics] returns; it
    lists the three queries as executed, those that failed included,
    counts one CSV file for each query that returned a row at least, and
    writes the JSON report, which holds an entry for every query; the
    tables and the files of the data are left as they are. *)
Theorem X21_every_query_is_listed (now csv_stamp json_stamp db_path : string)
    (read_sql : Analytics.sql_query -> gmap string DataFrame -> result DataFrame)
    (report_fault :
      string -> report_file -> gmap string report_file ->
      option (exn * gmap string report_file))
    (s : Site) :
  (forall name file files, report_fault name file files = None) ->
  exists res s',
    Reports.run_analytics now csv_stamp json_stamp db_path read_sql report_fault s
    = (Ok res, s')
    /\ Reports.queries_executed res
       = ["user_statistics"; "post_statistics"; "user_post_activity"]
    /\ Reports.total_csv_files res
       = length (List.filter (ReportSpec.answered read_sql (tables (world s)))
                   (ReportSpec.analyses.*2))
    /\ Reports.total_csv_files res = length (Reports.csv_files res)
    /\ report_files s' !! Reports.json_report res
       = Some (JsonFile (ReportSpec.report_of read_sql now db_path (tables (world s))))
    /\ (forall q, q ∈ ReportSpec.analyses.*2 ->
        exists name,
          (name, q) ∈ ReportSpec.analyses
          /\ Analytics.analytics
               (ReportSpec.report_of read_sql now db_path (tables (world s))) !! name
             = Some (ReportSpec.entry_of read_sql (tables (world s)) q))
    /\ tables (world s') = tables (world s)
    /\ processed_files (world s') = processed_files (world s)
    /\ raw_files s' = raw_files s.
Proof.
  intros Hsound. eexists _, _.
  split; [apply (run_analytics_sound now csv_stamp json_stamp db_path read_sql
                   report_fault Hsound) |].
  cbn [Reports.queries_executed Reports.total_csv_files Reports.csv_files
       Reports.json_report].
  split; [reflexivity |]. split.
  - rewrite !csv_of_answered. cbn [ReportSpec.analyses fmap list_fmap snd List.filter].
    destruct (ReportSpec.answered read_sql _ Analytics.user_statistics_sql),
      (ReportSpec.answered read_sql _ Analytics.post_statistics_sql),
      (ReportSpec.answered read_sql _ Analytics.user_post_activity_sql); reflexivity.
  - split; [reflexivity |].
    split; [cbn [report_files set_report_files]; apply lookup_insert_eq |].
    split; [| done].
    intros q. cbn [ReportSpec.analyses fmap list_fmap snd].
    rewrite !elem_of_cons, elem_of_nil. unfold ReportSpec.report_of.
    cbn [Analytics.analytics].
    intros [-> | [-> | [-> | []]]].
    + exists "user_statistics". split; [apply list_elem_of_here |].
      by repeat first [ rewrite lookup_insert_eq | rewrite lookup_insert_ne by done ].
    + exists "post_statistics".
      split; [apply list_elem_of_further, list_elem_of_here |].
      by repeat first [ rewrite lookup_insert_eq | rewrite lookup_insert_ne by done ].
    + exists "user_post_activity".
      split; [do 2 apply list_elem_of_further; apply list_elem_of_here |].
      by repeat first [ rewrite lookup_insert_eq | rewrite lookup_insert_ne by done ].
Qed.

(** X21 on a store that answers one query with a row, one with no row,
    and fails the third. *)
Lemma X21_witness :
  exists res s',
    Reports.run_analytics Examples.stamp "20240501_100000" "20240501_100001"
      "local.db" ReportSpec.partial_store SiteSpec.sound_reports SiteSpec.empty_site
    = (Ok res, s')
    /\ length (Reports.queries_executed res) = 3%nat
    /\ Reports.total_csv_files res = 1%nat.
Proof.
  destruct (X21_every_query_is_listed Examples.stamp "20240501_100000"
              "20240501_100001" "local.db" ReportSpec.partial_store
              SiteSpec.sound_reports SiteSpec.empty_site (fun _ _ _ => eq_refl))
    as (res & s' & Hrun & Hlisted & Hcount & _).
  exists res, s'. split; [exact Hrun |].
  split; [by rewrite Hlisted | by rewrite Hcount].
Defined.

(** X22. When the reports can be written, the CSV file of a query that
    returned a frame with a row at least holds that frame, under the name
    of the query and the time stamp; for a query that failed or returned
    no row no CSV file is written and none is listed. *)
Theorem X22_csv_file_holds_the_answer (now csv_stamp json_stamp db_path : string)
    (read_sql : Analytics.sql_query -> gmap string DataFrame -> result DataFrame)
    (report_fault :
      string -> report_file -> gmap string report_file ->
      option (exn * gmap string report_file))
    (s : Site) (name : string) (q : Analytics.sql_query) :
  (forall name file files, report_fault name file files = None) ->
  (name, q) ∈ ReportSpec.analyses ->
  exists res s',
    Reports.run_analytics now csv_stamp json_stamp db_path read_sql report_fault s
    = (Ok res, s')
    /\ (forall df,
          read_sql q (tables (world s)) = Ok df -> wf_frame df ->
          index df <> 0%nat ->
          report_files s' !! ReportSpec.csv_name name csv_stamp = Some (CsvFile df)
          /\ ReportSpec.csv_name name csv_stamp ∈ Reports.csv_files res)
    /\ (ReportSpec.answered read_sql (tables (world s)) q = false ->
        report_files s' !! ReportSpec.csv_name name csv_stamp
        = report_files s !! ReportSpec.csv_name name csv_stamp
        /\ ReportSpec.csv_name name csv_stamp ∉ Reports.csv_files res).
Proof.
  intros Hsound Hname. eexists _, _.
  split; [apply (run_analytics_sound now csv_stamp json_stamp db_path read_sql
                   report_fault Hsound) |].
  cbn [Reports.csv_files report_files set_report_files].
  destruct (report_names_differ csv_stamp json_stamp)
    as (Hup & Hua & Hpa & Hju & Hjp & Hja).
  unfold ReportSpec.analyses in Hname.
  rewrite !elem_of_cons, elem_of_nil in Hname.
  destruct Hname as [[= -> ->] | [[= -> ->] | [[= -> ->] | []]]].
  - split.
    + intros df Hq Hwf Hrows.
      assert (ReportSpec.answered read_sql (tables (world s))
                Analytics.user_statistics_sql = true) as Hans.
      { unfold ReportSpec.answered. rewrite Hq. by destruct (index df). }
      split.
      * rewrite lookup_insert_ne by done.
        rewrite !lookup_put_csv_ne by (by apply not_eq_sym).
        by apply lookup_put_csv_answer.
      * rewrite (csv_of_answered read_sql _ "user_statistics"), Hans. listed.
    + intros Hans. split.
      * rewrite lookup_insert_ne by done.
        rewrite !lookup_put_csv_ne by (by apply not_eq_sym).
        by rewrite put_csv_unanswered.
      * rewrite !csv_of_answered, Hans.
        destruct (ReportSpec.answered read_sql _ Analytics.post_statistics_sql),
          (ReportSpec.answered read_sql _ Analytics.user_post_activity_sql);
          not_listed.
  - split.
    + intros df Hq Hwf Hrows.
      assert (ReportSpec.answered read_sql (tables (world s))
                Analytics.post_statistics_sql = true) as Hans.
      { unfold ReportSpec.answered. rewrite Hq. by destruct (index df). }
      split.
      * rewrite lookup_insert_ne by done.
        rewrite lookup_put_csv_ne by (by apply not_eq_sym).
        by apply lookup_put_csv_answer.
      * rewrite (csv_of_answered read_sql _ "post_statistics"), Hans. listed.
    + intros Hans. split.
      * rewrite lookup_insert_ne by done.
        rewrite lookup_put_csv_ne by (by apply not_eq_sym).
        rewrite put_csv_unanswered by done. by rewrite lookup_put_csv_ne.
      * rewrite !csv_of_answered, Hans.
        destruct (ReportSpec.answered read_sql _ Analytics.user_statistics_sql),
          (ReportSpec.answered read_sql _ Analytics.user_post_activity_sql);
          not_listed.
  - split.
    + intros df Hq Hwf Hrows.
      assert (ReportSpec.answered read_sql (tables (world s))
                Analytics.user_post_activity_sql = true) as Hans.
      { unfold ReportSpec.answered. rewrite Hq. by destruct (index df). }
      split.
      * rewrite lookup_insert_ne by done.
        by apply lookup_put_csv_answer.
      * rewrite (csv_of_answered read_sql _ "user_post_activity"), Hans. listed.
    + intros Hans. split.
      * rewrite lookup_insert_ne by done.
        rewrite put_csv_unanswered by done. by rewrite !lookup_put_csv_ne.
      * rewrite !csv_of_answered, Hans.
        destruct (ReportSpec.answered read_sql _ Analytics.user_statistics_sql),
          (ReportSpec.answered read_sql _ Analytics.post_statistics_sql);
          not_listed.
Qed.

(** X22 on the query that the store answers with one row. *)
Lemma X22_witness :
  exists res s',
    Reports.run_analytics Examples.stamp "20240501_100000" "20240501_100001"
      "local.db" ReportSpec.partial_store SiteSpec.sound_reports SiteSpec.empty_site
    = (Ok res, s')
    /\ report_files s' !! "user_statistics_20240501_100000.csv"
       = Some (CsvFile ReportSpec.one_row).
Proof.
  assert (("user_statistics", Analytics.user_statistics_sql) ∈ ReportSpec.analyses)
    as Hname by apply list_elem_of_here.
  assert (wf_frame ReportSpec.one_row) as Hwf.
  { apply wf_frame_insert; [done | apply wf_frame_no_column]. }
  destruct (X22_csv_file_holds_the_answer Examples.stamp "20240501_100000"
              "20240501_100001" "local.db" ReportSpec.partial_store
              SiteSpec.sound_reports SiteSpec.empty_site "user_statistics"
              Analytics.user_statistics_sql (fun _ _ _ => eq_refl) Hname)
    as (res & s' & Hrun & Hfile & _).
  exists res, s'. split; [exact Hrun |].
  exact (proj1 (Hfile ReportSpec.one_row eq_refl Hwf ltac:(discriminate))).
Defined.

(** ** What a method leaves as it is *)

Lemma keeps_act_ret {A B : Type} (part : Site -> B) (a : A) :
  keeps part (mret a : Act A).
Proof. by intros s r s' [= _ <-]. Qed.

Lemma keeps_act_raise {A B : Type} (part : Site -> B) (e : exn) :
  keeps part (act_raise e : Act A).
Proof. by intros s r s' [= _ <-]. Qed.

Lemma keeps_act_pure {A B : Type} (part : Site -> B) (x : result A) :
  keeps part (act_pure x).
Proof. by intros s r s' [= _ <-]. Qed.

Lemma keeps_act_bind {A B C : Type} (part : Site -> C) (m : Act A) (f : A -> Act B) :
  keeps part m -> (forall a, keeps part (f a)) -> keeps part (m ≫= f).
Proof.
  intros Hm Hf s r s'. rewrite act_bind_unfold.
  destruct (m s) as [[a|e] s1] eqn:Hms.
  - intros Hfa. rewrite (Hf a _ _ _ Hfa). by apply (Hm _ _ _ Hms).
  - intros [= _ <-]. by apply (Hm _ _ _ Hms).
Qed.

Lemma keeps_act_try {A B : Type} (part : Site -> B) (body : Act A)
    (handler : exn -> Act A) :
  keeps part body -> (forall e, keeps part (handler e)) ->
  keeps part (act_try body handler).
Proof.
  intros Hm Hh s r s'. unfold act_try.
  destruct (body s) as [[a|e] s1] eqn:Hms.
  - intros [= _ <-]. by apply (Hm _ _ _ Hms).
  - intros Hhe. rewrite (Hh e _ _ _ Hhe). by apply (Hm _ _ _ Hms).
Qed.

Lemma keeps_act_for_each {A B C : Type} (part : Site -> C) (step : B -> A -> Act B)
    (xs : list A) (acc : B) :
  (forall acc x, keeps part (step acc x)) -> keeps part (for_each step xs acc).
Proof.
  intros Hstep. revert acc. induction xs as [|x xs IH]; intros acc.
  - apply keeps_act_ret.
  - cbn [for_each]. apply keeps_act_bind; [apply Hstep | apply IH].
Qed.

Lemma keeps_run_ret {A B : Type} (part : World -> B) (a : A) :
  keeps part (mret a : Run A).
Proof. by intros s r s' [= _ <-]. Qed.

Lemma keeps_run_raise {A B : Type} (part : World -> B) (e : exn) :
  keeps part (raise e : Run A).
Proof. by intros s r s' [= _ <-]. Qed.

Lemma keeps_run_pure {A B : Type} (part : World -> B) (x : result A) :
  keeps part (pure_call x).
Proof. by intros s r s' [= _ <-]. Qed.

Lemma keeps_run_bind {A B C : Type} (part : World -> C) (m : Run A) (f : A -> Run B) :
  keeps part m -> (forall a, keeps part (f a)) -> keeps part (m ≫= f).
Proof.
  intros Hm Hf w r w'. unfold mbind, Run_bind.
  destruct (m w) as [[a|e] w1] eqn:Hmw.
  - intros Hfa. rewrite (Hf a _ _ _ Hfa). by apply (Hm _ _ _ Hmw).
  - intros [= _ <-]. by apply (Hm _ _ _ Hmw).
Qed.

Lemma keeps_run_try {A B : Type} (part : World -> B) (body : Run A)
    (handler : exn -> Run A) :
  keeps part body -> (forall e, keeps part (handler e)) ->
  keeps part (try_except body handler).
Proof.
  intros Hm Hh w r w'. unfold try_except.
  destruct (body w) as [[a|e] w1] eqn:Hmw.
  - intros [= _ <-]. by apply (Hm _ _ _ Hmw).
  - intros Hhe. rewrite (Hh e _ _ _ Hhe). by apply (Hm _ _ _ Hmw).
Qed.

Lemma keeps_on_world {A B : Type} (part : World -> B) (m : Run A) :
  keeps part m -> keeps (fun s => part (world s)) (on_world m).
Proof.
  intros Hm s r s'. unfold on_world.
  destruct (m (world s)) as [r0 w'] eqn:Hmw. intros [= _ <-].
  cbn [world set_world]. by apply (Hm _ _ _ Hmw).
Qed.

Lemma keeps_on_world_files {A : Type} (m : Run A) :
  keeps raw_files (on_world m) /\ keeps report_files (on_world m).
Proof.
  split; intros s r s'; unfold on_world;
    destruct (m (world s)) as [r0 w']; by intros [= _ <-].
Qed.

Section Footprints.
Context `{Pandas}.
Variable api_url : string.
Variable db_path : string.
Variable out : Pipeline.Outside.

Lemma extract_and_save_keeps {B : Type} (part : Site -> B) (today : string)
    (endpoint filename : string) (params : option (gmap string string)) :
  (forall f s, part (set_raw_files f s) = part s) ->
  keeps part (Extractor.extract_and_save api_url today (Pipeline.http_get out)
                (Pipeline.raw_fault out) endpoint filename params).
Proof.
  intros Hpart s r s'. rewrite extract_and_save_unfold.
  destruct (Pipeline.http_get out _ params) as [data|e]; [| by intros [= _ <-]].
  destruct (Pipeline.raw_fault out _ data (raw_files s)) as [[e files']|];
    intros [= _ <-]; apply Hpart.
Qed.

Lemma run_extract_keeps {B : Type} (part : Site -> B) :
  (forall f s, part (set_raw_files f s) = part s) ->
  keeps part (Pipeline.run_extract api_url out).
Proof.
  intros Hpart. unfold Pipeline.run_extract. cbv zeta.
  apply keeps_act_try; [| intros e; apply keeps_act_raise].
  apply keeps_act_bind; [by apply extract_and_save_keeps |]. intros users.
  apply keeps_act_bind; [by apply extract_and_save_keeps |]. intros posts.
  apply keeps_act_ret.
Qed.

Lemma process_data_keeps {B : Type} (part : Site -> B) (now today : string)
    (raw_filename processed_filename data_type : string) :
  (forall f s, part (TransformFiles.set_processed_files f s) = part s) ->
  keeps part (TransformFiles.process_data now today (Pipeline.parquet_fault out)
                raw_filename processed_filename data_type).
Proof.
  intros Hpart s r s'. rewrite process_data_unfold.
  destruct (raw_files s !! _) as [data|]; [| by intros [= _ <-]].
  destruct (FilesSpec.transform_for _ _ _) as [df|e]; [| by intros [= _ <-]].
  destruct (Pipeline.parquet_fault out _ df _) as [[e files']|];
    intros [= _ <-]; apply Hpart.
Qed.

Lemma run_transform_keeps {B : Type} (part : Site -> B) :
  (forall f s, part (TransformFiles.set_processed_files f s) = part s) ->
  keeps part (Pipeline.run_transform out).
Proof.
  intros Hpart. unfold Pipeline.run_transform. cbv zeta.
  apply keeps_act_try; [| intros e; apply keeps_act_raise].
  apply keeps_act_bind; [by apply process_data_keeps |]. intros users.
  apply keeps_act_bind; [by apply process_data_keeps |]. intros posts.
  apply keeps_act_ret.
Qed.

Lemma load_all_data_keeps {B : Type} (part : World -> B) (today : string)
    (date : option string) :
  (forall t w, part (set_tables t w) = part w) ->
  keeps part (Loader.load_all_data today (Pipeline.engine_fault out) date).
Proof.
  intros Hpart.
  assert (keeps part (Loader.create_tables (Pipeline.engine_fault out))) as Hcreate.
  { intros w r w'. unfold Loader.create_tables.
    destruct (Pipeline.engine_fault out _ _) as [[e t']|]; intros [= _ <-];
      apply Hpart. }
  assert (forall filename table_name,
            keeps part (LoaderSpec.load_block today (Pipeline.engine_fault out)
                          filename table_name date)) as Hblock.
  { intros filename table_name. unfold LoaderSpec.load_block.
    apply keeps_run_try; [| intros e; apply keeps_run_ret].
    apply keeps_run_bind.
    { intros w r w'. unfold Loader.load_processed_data.
      destruct (processed_files w !! _); by intros [= _ <-]. }
    intros df. apply keeps_run_bind; [apply keeps_run_pure |]. intros df_clean.
    apply keeps_run_bind.
    { unfold Loader.load_to_database.
      apply keeps_run_try; [| intros e; apply keeps_run_raise].
      intros w r w'. unfold Loader.to_sql.
      destruct (Pipeline.engine_fault out _ _) as [[e t']|]; intros [= _ <-];
        apply Hpart. }
    intros _. intros w r w'. unfold Loader.verify_data_load.
    destruct (Pipeline.engine_fault out _ _) as [[e t']|];
      [intros [= _ <-]; apply Hpart |].
    destruct (tables w !! table_name); by intros [= _ <-]. }
  rewrite load_all_data_blocks.
  apply keeps_run_bind; [exact Hcreate |]. intros _.
  apply keeps_run_bind; [apply Hblock |]. intros r1. cbv zeta.
  apply keeps_run_bind; [apply Hblock |]. intros r2.
  apply keeps_run_ret.
Qed.

Lemma run_load_keeps {B : Type} (part : World -> B) :
  (forall t w, part (set_tables t w) = part w) ->
  keeps (fun s => part (world s)) (Pipeline.run_load out).
Proof.
  intros Hpart. unfold Pipeline.run_load. apply keeps_on_world.
  unfold Loader.run_load.
  apply keeps_run_try; [| intros e; apply keeps_run_raise].
  by apply load_all_data_keeps.
Qed.

Lemma run_analytics_keeps {B : Type} (part : Site -> B) :
  (forall f s, part (set_report_files f s) = part s) ->
  (forall name w s, part (set_world (log_query name w) s) = part (set_world w s)) ->
  (forall s, part (set_world (world s) s) = part s) ->
  keeps part (Pipeline.run_analytics db_path out).
Proof.
  intros Hfiles Hlog Hsame. unfold Pipeline.run_analytics.
  apply keeps_act_try; [| intros e; apply keeps_act_raise].
  assert (forall filename file,
            keeps part (Reports.write_report (Pipeline.report_fault out)
                          filename file)) as Hwrite.
  { intros filename file s r s'. unfold Reports.write_report.
    destruct (Pipeline.report_fault out _ _ _) as [[e files']|];
      intros [= _ <-]; apply Hfiles. }
  unfold Reports.run_analytics.
  apply keeps_act_bind.
  { intros s r s'. unfold on_world. rewrite generate_report_runs.
    intros [= _ <-]. by rewrite !Hlog, Hsame. }
  intros rep. apply keeps_act_bind.
  { unfold Reports.save_csv_reports. apply keeps_act_for_each.
    intros acc [name e]. unfold Reports.save_csv.
    destruct (Analytics.entry_data e); [apply keeps_act_ret |].
    apply keeps_act_bind; [apply Hwrite |]. intros p. apply keeps_act_ret. }
  intros csv. apply keeps_act_bind; [apply Hwrite |]. intros json.
  apply keeps_act_ret.
Qed.

End Footprints.

(** X23. Whether it returns or raises, and whatever the network, the disk
    and the store do: the extraction touches no snapshot, no table and no
    report; the transformation touches no raw file, no table and no
    report; the load touches no file at all; and the analytics touch no
    raw file, no snapshot and no table. *)
Theorem X23_stages_keep_to_their_files `{Pandas} (api_url db_path : string)
    (out : Pipeline.Outside) :
  (keeps world (Pipeline.run_extract api_url out)
   /\ keeps report_files (Pipeline.run_extract api_url out))
  /\ (keeps raw_files (Pipeline.run_transform out)
      /\ keeps (fun s => tables (world s)) (Pipeline.run_transform out)
      /\ keeps report_files (Pipeline.run_transform out))
  /\ (keeps raw_files (Pipeline.run_load out)
      /\ keeps (fun s => processed_files (world s)) (Pipeline.run_load out)
      /\ keeps report_files (Pipeline.run_load out))
  /\ (keeps raw_files (Pipeline.run_analytics db_path out)
      /\ keeps (fun s => processed_files (world s)) (Pipeline.run_analytics db_path out)
      /\ keeps (fun s => tables (world s)) (Pipeline.run_analytics db_path out)).
Proof.
  split; [| split; [| split]].
  - split; by apply run_extract_keeps.
  - repeat split; by apply run_transform_keeps.
  - split; [apply keeps_on_world_files |].
    split; [by apply (run_load_keeps out processed_files) |].
    apply keeps_on_world_files.
  - repeat split; by apply run_analytics_keeps.
Qed.

(** ** The stages of the orchestrator *)

Section StageRuns.
Context `{Pandas}.
Variable api_url : string.
Variable db_path : string.
Variable out : Pipeline.Outside.
Import Pipeline PipelineSpec.

Lemma run_extract_returns (s : Site) (users posts : list (gmap string value)) :
  http_get out (Extractor.request_url api_url "/users") None = Ok users ->
  http_get out (Extractor.request_url api_url "/posts") None = Ok posts ->
  raw_fault out (extract_day out, "users.json") users (raw_files s) = None ->
  raw_fault out (extract_day out, "posts.json") posts
    (<[(extract_day out, "users.json") := users]> (raw_files s)) = None ->
  run_extract api_url out s
  = (Ok (extract_results users posts), extracted (extract_day out) users posts s).
Proof.
  intros Husers Hposts Hwrite1 Hwrite2.
  unfold run_extract. cbv zeta. rewrite act_try_reraise.
  rewrite act_bind_unfold, extract_and_save_unfold, Husers, Hwrite1.
  rewrite act_bind_unfold, extract_and_save_unfold, Hposts.
  cbn [raw_files set_raw_files]. rewrite Hwrite2. reflexivity.
Qed.

Lemma run_extract_posts_fail (s : Site) (users : list (gmap string value))
    (e : exn) :
  http_get out (Extractor.request_url api_url "/users") None = Ok users ->
  http_get out (Extractor.request_url api_url "/posts") None = Raise e ->
  raw_fault out (extract_day out, "users.json") users (raw_files s) = None ->
  run_extract api_url out s
  = (Raise e,
     set_raw_files (<[(extract_day out, "users.json") := users]> (raw_files s)) s).
Proof.
  intros Husers Hposts Hwrite1.
  unfold run_extract. cbv zeta. rewrite act_try_reraise.
  rewrite act_bind_unfold, extract_and_save_unfold, Husers, Hwrite1.
  by rewrite act_bind_unfold, extract_and_save_unfold, Hposts.
Qed.

Lemma run_transform_returns (s : Site) (users posts : list (gmap string value))
    (users_df posts_df : DataFrame) :
  raw_files s !! (transform_day out, "users.json") = Some users ->
  raw_files s !! (transform_day out, "posts.json") = Some posts ->
  Transform.transform_users_data (transform_now out) users = Ok users_df ->
  Transform.transform_posts_data (transform_now out) posts = Ok posts_df ->
  parquet_fault out (transform_day out, "users.parquet") users_df
    (processed_files (world s)) = None ->
  parquet_fault out (transform_day out, "posts.parquet") posts_df
    (<[(transform_day out, "users.parquet") := users_df]>
       (processed_files (world s))) = None ->
  run_transform out s
  = (Ok (transform_results users_df posts_df),
     transformed (transform_day out) users_df posts_df s).
Proof.
  intros Husers Hposts Hudf Hpdf Hwrite1 Hwrite2.
  unfold run_transform. cbv zeta. rewrite act_try_reraise.
  rewrite act_bind_unfold, process_data_unfold, Husers.
  unfold FilesSpec.transform_for at 1. cbn [String.eqb Ascii.eqb Bool.eqb].
  rewrite Hudf, Hwrite1.
  rewrite act_bind_unfold, process_data_unfold.
  cbn [raw_files TransformFiles.set_processed_files set_world world processed_files].
  rewrite Hposts.
  unfold FilesSpec.transform_for at 1. cbn [String.eqb Ascii.eqb Bool.eqb].
  rewrite Hpdf, Hwrite2. reflexivity.
Qed.

Lemma run_transform_missing (s : Site) :
  raw_files s !! (transform_day out, "users.json") = None ->
  run_transform out s
  = (Raise (FileNotFoundError (transform_day out +:+ "/" +:+ "users.json")), s).
Proof.
  intros Husers. unfold run_transform. cbv zeta. rewrite act_try_reraise.
  by rewrite act_bind_unfold, process_data_unfold, Husers.
Qed.

Lemma run_load_returns (s : Site) :
  engine_fault out Loader.OpCreateAll (tables (world s)) = None ->
  exists r s', run_load out s = (Ok r, s').
Proof.
  intros Hcreate. unfold run_load, on_world, Loader.run_load, try_except, raise.
  destruct (Loader.load_all_data (load_day out) (engine_fault out) None (world s))
    as [[r|e] w'] eqn:Hload; [by eexists _, _ |].
  apply load_all_data_raises_only_creating in Hload as [t' Hfault]. congruence.
Qed.

Lemma run_full_pipeline_unfold (s : Site) :
  run_full_pipeline api_url db_path out s =
    match run_extract api_url out s with
    | (Raise e, s1) => (Raise e, s1)
    | (Ok extract, s1) =>
        match run_transform out s1 with
        | (Raise e, s2) => (Raise e, s2)
        | (Ok transform, s2) =>
            match run_load out s2 with
            | (Raise e, s3) => (Raise e, s3)
            | (Ok load, s3) =>
                match run_analytics db_path out s3 with
                | (Raise e, s4) => (Raise e, s4)
                | (Ok analytics, s4) =>
                    (Ok {| results_start_time := start_time out;
                           stage_extract := extract;
                           stage_transform := transform;
                           stage_load := load;
                           stage_analytics := analytics;
                           results_end_time := end_time out;
                           results_duration := duration_micros out;
                           results_success := true |}, s4)
                end
            end
        end
    end.
Proof.
  unfold run_full_pipeline. rewrite act_try_reraise, act_bind_unfold.
  destruct (run_extract api_url out s) as [[extract|e] s1]; [| done].
  rewrite act_bind_unfold.
  destruct (run_transform out s1) as [[transform|e] s2]; [| done].
  rewrite act_bind_unfold.
  destruct (run_load out s2) as [[load|e] s3]; [| done].
  rewrite act_bind_unfold.
  by destruct (run_analytics db_path out s3) as [[analytics|e] s4].
Qed.

Lemma run_analytics_returns (s : Site) :
  (forall name file files, report_fault out name file files = None) ->
  exists r s',
    run_analytics db_path out s = (Ok r, s')
    /\ tables (world s') = tables (world s).
Proof.
  intros Hsound. unfold run_analytics. rewrite act_try_reraise.
  rewrite (run_analytics_sound _ _ _ _ _ _ Hsound). by eexists _, _.
Qed.

End StageRuns.

(** X24. The extraction is not undone when it fails half way: when the
    users are fetched and saved and the request for the posts fails,
    [run_extract] raises the exception of the request, and leaves the new
    file of the users beside whatever file of the posts there was. *)
Theorem X24_extraction_is_not_undone (api_url : string) (out : Pipeline.Outside)
    (s : Site) (users : list (gmap string value)) (e : exn) :
  let day := Pipeline.extract_day out in
  Pipeline.http_get out (Extractor.request_url api_url "/users") None = Ok users ->
  Pipeline.http_get out (Extractor.request_url api_url "/posts") None = Raise e ->
  Pipeline.raw_fault out (day, "users.json") users (raw_files s) = None ->
  exists s',
    Pipeline.run_extract api_url out s = (Raise e, s')
    /\ raw_files s' !! (day, "users.json") = Some users
    /\ raw_files s' !! (day, "posts.json") = raw_files s !! (day, "posts.json").
Proof.
  intros day Husers Hposts Hwrite. eexists.
  split; [by apply run_extract_posts_fail |].
  cbn [raw_files set_raw_files]. fold day.
  split; [apply lookup_insert_eq |].
  apply lookup_insert_ne. by intros [=].
Qed.

(** X24 on the API that serves no posts. *)
Lemma X24_witness :
  exists s',
    Pipeline.run_extract "http://api"
      (PipelineSpec.calm SiteSpec.api_without_posts Examples.sound_engine Examples.day)
      SiteSpec.empty_site
    = (Raise (ValueError "404 Client Error"), s')
    /\ raw_files s' !! (Examples.day, "users.json")
       = Some [Examples.bob]
    /\ raw_files s' !! (Examples.day, "posts.json") = None.
Proof.
  destruct (X24_extraction_is_not_undone "http://api"
              (PipelineSpec.calm SiteSpec.api_without_posts Examples.sound_engine
                 Examples.day)
              SiteSpec.empty_site [Examples.bob]
              (ValueError "404 Client Error") eq_refl eq_refl eq_refl)
    as (s' & Hrun & Husers & Hposts).
  exists s'. split; [exact Hrun |]. split; [exact Husers | exact Hposts].
Defined.

(** X25. Once the extraction and the transformation have returned, the
    pipeline ends with success whenever the store creates its tables and
    the reports can be written: neither a load that the store refuses nor
    a query that fails makes it raise. *)
Theorem X25_success_despite_failed_loads `{Pandas} (api_url db_path : string)
    (out : Pipeline.Outside) (s s1 s2 : Site)
    (extract : gmap string Pipeline.extract_entry)
    (transform : gmap string Pipeline.transform_entry) :
  Pipeline.run_extract api_url out s = (Ok extract, s1) ->
  Pipeline.run_transform out s1 = (Ok transform, s2) ->
  Pipeline.engine_fault out Loader.OpCreateAll (tables (world s2)) = None ->
  (forall name file files, Pipeline.report_fault out name file files = None) ->
  exists res s',
    Pipeline.run_full_pipeline api_url db_path out s = (Ok res, s')
    /\ Pipeline.results_success res = true
    /\ Pipeline.stage_extract res = extract
    /\ Pipeline.stage_transform res = transform
    /\ exists s3, Pipeline.run_load out s2 = (Ok (Pipeline.stage_load res), s3).
Proof.
  intros Hextract Htransform Hcreate Hsound.
  rewrite run_full_pipeline_unfold, Hextract, Htransform.
  destruct (run_load_returns out s2 Hcreate) as (load & s3 & Hload).
  rewrite Hload.
  destruct (run_analytics_returns db_path out s3 Hsound)
    as (analytics & s4 & Hrun & Htables).
  rewrite Hrun. eexists _, _. split; [reflexivity |].
  cbn [Pipeline.results_success Pipeline.stage_extract Pipeline.stage_transform
       Pipeline.stage_load].
  repeat split. by exists s3.
Qed.

(** X25 where the store is locked for the users: the load reports the
    error, and the pipeline ends with success. *)
Lemma X25_witness :
  exists res s',
    Pipeline.run_full_pipeline "http://api" "local.db"
      (PipelineSpec.calm SiteSpec.api Examples.users_locked Examples.day)
      SiteSpec.empty_site = (Ok res, s')
    /\ Pipeline.results_success res = true
    /\ Loader.res_error <$> Pipeline.stage_load res !! "users"
       = Some (Some "database is locked").
Proof.
  set (out := PipelineSpec.calm SiteSpec.api Examples.users_locked Examples.day).
  set (users := [Examples.bob]).
  set (posts := [Examples.post_hello]).
  assert (Pipeline.run_extract "http://api" out SiteSpec.empty_site
          = (Ok (PipelineSpec.extract_results users posts),
             PipelineSpec.extracted Examples.day users posts SiteSpec.empty_site))
    as Hextract by (by apply run_extract_returns).
  assert (Pipeline.run_transform out
            (PipelineSpec.extracted Examples.day users posts SiteSpec.empty_site)
          = (Ok (PipelineSpec.transform_results
                   (TransformSpec.users_frame Examples.stamp users)
                   (TransformSpec.posts_frame Examples.stamp posts)),
             PipelineSpec.transformed Examples.day
               (TransformSpec.users_frame Examples.stamp users)
               (TransformSpec.posts_frame Examples.stamp posts)
               (PipelineSpec.extracted Examples.day users posts SiteSpec.empty_site)))
    as Htransform.
  { apply (run_transform_returns out _ users posts).
    - cbn [raw_files PipelineSpec.extracted set_raw_files].
      rewrite lookup_insert_ne by (by intros [=]). apply lookup_insert_eq.
    - cbn [raw_files PipelineSpec.extracted set_raw_files]. apply lookup_insert_eq.
    - apply transform_users_data_returns. reflexivity.
    - apply transform_posts_data_returns. reflexivity.
    - reflexivity.
    - reflexivity. }
  destruct (X25_success_despite_failed_loads "http://api" "local.db" out _ _ _ _ _
              Hextract Htransform eq_refl (fun _ _ _ => eq_refl))
    as (res & s' & Hrun & Hsuccess & _ & _ & s3 & Hload).
  exists res, s'. split; [exact Hrun |]. split; [exact Hsuccess |].
  assert (exists r s3',
            Pipeline.run_load out
              (PipelineSpec.transformed Examples.day
                 (TransformSpec.users_frame Examples.stamp users)
                 (TransformSpec.posts_frame Examples.stamp posts)
                 (PipelineSpec.extracted Examples.day users posts SiteSpec.empty_site))
            = (Ok r, s3')
            /\ Loader.res_error <$> r !! "users" = Some (Some "database is locked"))
    as (r & s3' & Hload' & Herror).
  { destruct (clean_dataframe_for_db_spec
                (TransformSpec.users_frame Examples.stamp users) "users"
                (wf_users_frame Examples.stamp users)) as (uc & Huc & _).
    set (w2 := world
                 (PipelineSpec.transformed Examples.day
                    (TransformSpec.users_frame Examples.stamp users)
                    (TransformSpec.posts_frame Examples.stamp posts)
                    (PipelineSpec.extracted Examples.day users posts
                       SiteSpec.empty_site))).
    set (created := set_tables (Loader.create_all (tables w2)) w2).
    assert (processed_files created !! (Examples.day, "users.parquet")
            = Some (TransformSpec.users_frame Examples.stamp users)) as Hfile.
    { cbn [created processed_files set_tables w2 world PipelineSpec.transformed
           TransformFiles.set_processed_files set_world].
      rewrite lookup_insert_ne by (by intros [=]). apply lookup_insert_eq. }
    assert (Examples.users_locked (Loader.OpToSql "users" uc) (tables created)
            = Some (EngineError "database is locked", tables created)) as Hfault
      by reflexivity.
    unfold Pipeline.run_load, on_world, Loader.run_load, try_except.
    rewrite load_all_data_blocks. unfold Loader.create_tables.
    unfold mbind at 1, Run_bind at 1. cbn beta iota zeta.
    change (Pipeline.engine_fault out) with Examples.users_locked.
    change (Pipeline.load_day out) with Examples.day.
    cbn [Examples.users_locked]. fold w2. fold created.
    unfold mbind at 1, Run_bind at 1. cbn beta iota zeta.
    rewrite (load_block_write_fault Examples.day Examples.users_locked
               "users.parquet" "users" None created
               (TransformSpec.users_frame Examples.stamp users) uc
               (EngineError "database is locked") (tables created)
               Hfile Huc Hfault).
    unfold mbind at 1, Run_bind at 1. cbn beta iota zeta.
    destruct (load_block_returns Examples.day Examples.users_locked
                "posts.parquet" "posts" None
                (set_tables (tables created) created))
      as (r2 & w3 & Hposts).
    rewrite Hposts. unfold mret, Run_ret. eexists _, _. split; [reflexivity |].
    by rewrite lookup_insert_ne, lookup_insert_eq. }
  rewrite Hload' in Hload. injection Hload as <- _. exact Herror.
Defined.

(** X26. A stage that raises stops the pipeline. When the extraction
    raises, the pipeline raises the same exception and nothing of the
    store or the reports is touched; when the transformation raises after
    the extraction returned, the pipeline raises the same exception, no
    table is touched, no query is sent and no report is written. *)
Theorem X26_failed_stage_stops_the_pipeline `{Pandas} (api_url db_path : string)
    (out : Pipeline.Outside) (s : Site) :
  (forall e s1,
     Pipeline.run_extract api_url out s = (Raise e, s1) ->
     Pipeline.run_full_pipeline api_url db_path out s = (Raise e, s1)
     /\ world s1 = world s /\ report_files s1 = report_files s)
  /\ (forall extract s1 e s2,
        Pipeline.run_extract api_url out s = (Ok extract, s1) ->
        Pipeline.run_transform out s1 = (Raise e, s2) ->
        Pipeline.run_full_pipeline api_url db_path out s = (Raise e, s2)
        /\ tables (world s2) = tables (world s)
        /\ queries_run (world s2) = queries_run (world s)
        /\ report_files s2 = report_files s).
Proof.
  split.
  - intros e s1 Hextract. rewrite run_full_pipeline_unfold, Hextract.
    split; [done |]. split.
    + by apply (run_extract_keeps api_url out world (fun _ _ => eq_refl)
                  _ _ _ Hextract).
    + by apply (run_extract_keeps api_url out report_files (fun _ _ => eq_refl)
                  _ _ _ Hextract).
  - intros extract s1 e s2 Hextract Htransform.
    rewrite run_full_pipeline_unfold, Hextract, Htransform. split; [done |].
    pose proof (run_extract_keeps api_url out world (fun _ _ => eq_refl) _ _ _ Hextract)
      as Hworld.
    pose proof (run_extract_keeps api_url out report_files (fun _ _ => eq_refl)
                  _ _ _ Hextract) as Hreports.
    pose proof (run_transform_keeps out (fun s => tables (world s))
                  (fun _ _ => eq_refl) _ _ _ Htransform) as Htables.
    pose proof (run_transform_keeps out (fun s => queries_run (world s))
                  (fun _ _ => eq_refl) _ _ _ Htransform) as Hqueries.
    pose proof (run_transform_keeps out report_files (fun _ _ => eq_refl)
                  _ _ _ Htransform) as Hreports2.
    cbn beta in Htables, Hqueries. rewrite Htables, Hqueries, Hreports2, Hworld.
    done.
Qed.

(** X26 on the API that serves no posts. *)
Lemma X26_witness :
  exists s1,
    Pipeline.run_full_pipeline "http://api" "local.db"
      (PipelineSpec.calm SiteSpec.api_without_posts Examples.sound_engine Examples.day)
      SiteSpec.empty_site
    = (Raise (ValueError "404 Client Error"), s1)
    /\ world s1 = world SiteSpec.empty_site.
Proof.
  set (out := PipelineSpec.calm SiteSpec.api_without_posts Examples.sound_engine
                Examples.day).
  assert (Pipeline.run_extract "http://api" out SiteSpec.empty_site
          = (Raise (ValueError "404 Client Error"),
             set_raw_files
               (<[(Examples.day, "users.json")
                  := [Examples.bob]]>
                  (raw_files SiteSpec.empty_site)) SiteSpec.empty_site))
    as Hextract by (by apply run_extract_posts_fail).
  destruct (proj1 (X26_failed_stage_stops_the_pipeline "http://api" "local.db" out
                     SiteSpec.empty_site) _ _ Hextract) as (Hrun & Hworld & _).
  eexists. split; [exact Hrun | exact Hworld].
Defined.

(** X27. When nothing outside fails, the records are well formed and the
    three stages read the same date, the pipeline ends with success and
    the counts agree from end to end: for users and for posts, the number
    of records fetched is the number of rows transformed, the count the
    load reports without error, and the number of rows of the table. *)
Theorem X27_counts_agree_end_to_end `{Pandas} (api_url db_path : string)
    (out : Pipeline.Outside) (s : Site) (users posts : list (gmap string value)) :
  let day := Pipeline.extract_day out in
  let loaded name (n : nat) :=
    {| Loader.res_table := name; Loader.res_count := n; Loader.res_error := None |} in
  Pipeline.http_get out (Extractor.request_url api_url "/users") None = Ok users ->
  Pipeline.http_get out (Extractor.request_url api_url "/posts") None = Ok posts ->
  TransformSpec.users_wellformed users = true ->
  TransformSpec.posts_wellformed posts = true ->
  (forall path data files, Pipeline.raw_fault out path data files = None) ->
  (forall path df files, Pipeline.parquet_fault out path df files = None) ->
  (forall op t, Pipeline.engine_fault out op t = None) ->
  (forall name file files, Pipeline.report_fault out name file files = None) ->
  Pipeline.transform_day out = day ->
  Pipeline.load_day out = day ->
  exists res s',
    Pipeline.run_full_pipeline api_url db_path out s = (Ok res, s')
    /\ Pipeline.results_success res = true
    /\ Pipeline.extract_count <$> Pipeline.stage_extract res !! "users"
       = Some (length users)
    /\ Pipeline.extract_count <$> Pipeline.stage_extract res !! "posts"
       = Some (length posts)
    /\ Pipeline.transform_count <$> Pipeline.stage_transform res !! "users"
       = Some (length users)
    /\ Pipeline.transform_count <$> Pipeline.stage_transform res !! "posts"
       = Some (length posts)
    /\ Pipeline.stage_load res !! "users" = Some (loaded "users" (length users))
    /\ Pipeline.stage_load res !! "posts" = Some (loaded "posts" (length posts))
    /\ df_len <$> tables (world s') !! "users" = Some (length users)
    /\ df_len <$> tables (world s') !! "posts" = Some (length posts).
Proof.
  intros day loaded Husers Hposts Hwfu Hwfp Hraw Hparquet Hengine Hreports
    Htday Hlday.
  set (now := Pipeline.transform_now out).
  set (users_df := TransformSpec.users_frame now users).
  set (posts_df := TransformSpec.posts_frame now posts).
  destruct (clean_dataframe_for_db_spec users_df "users" (wf_users_frame now users))
    as (uc & Huc & Hiu & _).
  destruct (clean_dataframe_for_db_spec posts_df "posts" (wf_posts_frame now posts))
    as (pc & Hpc & Hip & _).
  set (s1 := PipelineSpec.extracted day users posts s).
  set (s2 := PipelineSpec.transformed day users_df posts_df s1).
  assert (Pipeline.run_extract api_url out s
          = (Ok (PipelineSpec.extract_results users posts), s1)) as Hextract
    by (by apply run_extract_returns).
  assert (Pipeline.run_transform out s1
          = (Ok (PipelineSpec.transform_results users_df posts_df), s2)) as Htransform.
  { unfold s2. rewrite <- Htday.
    apply (run_transform_returns out s1 users posts); try done.
    - rewrite Htday. cbn [s1 raw_files PipelineSpec.extracted set_raw_files].
      rewrite lookup_insert_ne by (by intros [=]). apply lookup_insert_eq.
    - rewrite Htday. cbn [s1 raw_files PipelineSpec.extracted set_raw_files].
      apply lookup_insert_eq.
    - by apply transform_users_data_returns.
    - by apply transform_posts_data_returns. }
  set (w3 := StageSpec.put_table "posts" (Some pc)
               (StageSpec.put_table "users" (Some uc)
                  (set_tables (Loader.create_all (tables (world s2))) (world s2)))).
  assert (Pipeline.run_load out s2
          = (Ok (<["posts" := loaded "posts" (length posts)]>
                 (<["users" := loaded "users" (length users)]> ∅)),
             set_world w3 s2)) as Hload.
  { unfold Pipeline.run_load, on_world, Loader.run_load, try_except.
    rewrite (load_all_data_sound _ _ Hengine).
    unfold StageSpec.block_result, StageSpec.written_frame. cbv zeta.
    rewrite Hlday. cbn [default from_option id].
    assert (processed_files (world s2) !! (day, "users.parquet") = Some users_df)
      as ->.
    { cbn [s2 world PipelineSpec.transformed TransformFiles.set_processed_files
           set_world processed_files].
      rewrite lookup_insert_ne by (by intros [=]). apply lookup_insert_eq. }
    assert (processed_files (world s2) !! (day, "posts.parquet") = Some posts_df)
      as ->.
    { cbn [s2 world PipelineSpec.transformed TransformFiles.set_processed_files
           set_world processed_files]. apply lookup_insert_eq. }
    rewrite Huc, Hpc, Hiu, Hip. reflexivity. }
  destruct (run_analytics_returns db_path out (set_world w3 s2) Hreports)
    as (analytics & s4 & Hrun & Htables).
  exists {| Pipeline.results_start_time := Pipeline.start_time out;
            Pipeline.stage_extract := PipelineSpec.extract_results users posts;
            Pipeline.stage_transform := PipelineSpec.transform_results users_df posts_df;
            Pipeline.stage_load :=
              <["posts" := loaded "posts" (length posts)]>
              (<["users" := loaded "users" (length users)]> ∅);
            Pipeline.stage_analytics := analytics;
            Pipeline.results_end_time := Pipeline.end_time out;
            Pipeline.results_duration := Pipeline.duration_micros out;
            Pipeline.results_success := true |}, s4.
  split; [by rewrite run_full_pipeline_unfold, Hextract, Htransform, Hload, Hrun |].
  cbn [Pipeline.results_success Pipeline.stage_extract Pipeline.stage_transform
       Pipeline.stage_load].
  split; [done |].
  unfold PipelineSpec.extract_results, PipelineSpec.transform_results.
  split; [by rewrite lookup_insert_ne, lookup_insert_eq |].
  split; [by rewrite lookup_insert_eq |].
  split; [by rewrite lookup_insert_ne, lookup_insert_eq |].
  split; [by rewrite lookup_insert_eq |].
  split; [by rewrite lookup_insert_ne, lookup_insert_eq |].
  split; [by rewrite lookup_insert_eq |].
  rewrite Htables. cbn [world set_world w3 StageSpec.put_table tables set_tables].
  split.
  - rewrite lookup_insert_ne, lookup_insert_eq by done. cbn. unfold df_len.
    by rewrite Hiu.
  - rewrite lookup_insert_eq. cbn. unfold df_len. by rewrite Hip.
Qed.

(** X27 on the API that serves one user and one post. *)
Lemma X27_witness :
  exists res s',
    Pipeline.run_full_pipeline "http://api" "local.db"
      (PipelineSpec.calm SiteSpec.api Examples.sound_engine Examples.day)
      SiteSpec.empty_site = (Ok res, s')
    /\ Loader.res_count <$> Pipeline.stage_load res !! "users" = Some 1%nat
    /\ Loader.res_count <$> Pipeline.stage_load res !! "posts" = Some 1%nat
    /\ df_len <$> tables (world s') !! "users" = Some 1%nat.
Proof.
  destruct (X27_counts_agree_end_to_end "http://api" "local.db"
              (PipelineSpec.calm SiteSpec.api Examples.sound_engine Examples.day)
              SiteSpec.empty_site [Examples.bob]
              [Examples.post_hello] eq_refl eq_refl eq_refl eq_refl
              (fun _ _ _ => eq_refl) (fun _ _ _ => eq_refl) (fun _ _ => eq_refl)
              (fun _ _ _ => eq_refl) eq_refl eq_refl)
    as (res & s' & Hrun & _ & _ & _ & _ & _ & Husers & Hposts & Htable & _).
  exists res, s'. split; [exact Hrun |].
  split; [by rewrite Husers |]. split; [by rewrite Hposts | exact Htable].
Defined.

(** X28. Each stage reads the date of the day anew: when the date of the
    transformation is not the date under which the extraction saved, and
    no raw file of the new date exists, the pipeline raises
    [FileNotFoundError] after the extraction has written its files, and
    nothing of the store is touched. *)
Theorem X28_day_change_between_stages `{Pandas} (api_url db_path : string)
    (out : Pipeline.Outside) (s : Site) (users posts : list (gmap string value)) :
  Pipeline.http_get out (Extractor.request_url api_url "/users") None = Ok users ->
  Pipeline.http_get out (Extractor.request_url api_url "/posts") None = Ok posts ->
  (forall path data files, Pipeline.raw_fault out path data files = None) ->
  Pipeline.transform_day out <> Pipeline.extract_day out ->
  raw_files s !! (Pipeline.transform_day out, "users.json") = None ->
  exists s1,
    Pipeline.run_full_pipeline api_url db_path out s
    = (Raise (FileNotFoundError (Pipeline.transform_day out +:+ "/" +:+ "users.json")),
       s1)
    /\ raw_files s1 !! (Pipeline.extract_day out, "users.json") = Some users
    /\ raw_files s1 !! (Pipeline.extract_day out, "posts.json") = Some posts
    /\ world s1 = world s.
Proof.
  intros Husers Hposts Hraw Hday Hnone.
  exists (PipelineSpec.extracted (Pipeline.extract_day out) users posts s).
  rewrite run_full_pipeline_unfold.
  rewrite (run_extract_returns api_url out s users posts) by done.
  rewrite run_transform_missing.
  - split; [done |]. cbn [raw_files PipelineSpec.extracted set_raw_files world].
    split; [| split; [apply lookup_insert_eq | done]].
    rewrite lookup_insert_ne by (by intros [=]). apply lookup_insert_eq.
  - cbn [raw_files PipelineSpec.extracted set_raw_files].
    rewrite !lookup_insert_ne by (intros [=]; congruence). exact Hnone.
Qed.

(** X28 where the transformation runs on the day after. *)
Lemma X28_witness :
  exists s1,
    Pipeline.run_full_pipeline "http://api" "local.db"
      (PipelineSpec.calm SiteSpec.api Examples.sound_engine "2024-05-02")
      SiteSpec.empty_site
    = (Raise (FileNotFoundError "2024-05-02/users.json"), s1)
    /\ raw_files s1 !! (Examples.day, "users.json")
       = Some [Examples.bob].
Proof.
  destruct (X28_day_change_between_stages "http://api" "local.db"
              (PipelineSpec.calm SiteSpec.api Examples.sound_engine "2024-05-02")
              SiteSpec.empty_site [Examples.bob]
              [Examples.post_hello] eq_refl eq_refl (fun _ _ _ => eq_refl)
              ltac:(discriminate) eq_refl)
    as (s1 & Hrun & Husers & _).
  exists s1. split; [exact Hrun | exact Husers].
Defined.

(** X29. [run_single_stage] knows the four stages by their exact names
    and nothing else: for any other name, "full" included, it raises
    [ValueError] and touches nothing; for a name it knows it runs that
    stage and no other. *)
Theorem X29_single_stage_by_name `{Pandas} (api_url db_path : string)
    (out : Pipeline.Outside) (stage : string) (s : Site) :
  (stage ∉ ["extract"; "transform"; "load"; "analytics"] ->
   Pipeline.run_single_stage api_url db_path out stage s
   = (Raise (ValueError
               ("Unknown stage: " +:+ stage +:+
                ". Available: ['extract', 'transform', 'load', 'analytics']")), s))
  /\ Pipeline.run_single_stage api_url db_path out "extract"
     = (r ← Pipeline.run_extract api_url out; mret (Pipeline.ExtractResults r))
  /\ Pipeline.run_single_stage api_url db_path out "transform"
     = (r ← Pipeline.run_transform out; mret (Pipeline.TransformResults r))
  /\ Pipeline.run_single_stage api_url db_path out "load"
     = (r ← Pipeline.run_load out; mret (Pipeline.LoadResults r))
  /\ Pipeline.run_single_stage api_url db_path out "analytics"
     = (r ← Pipeline.run_analytics db_path out; mret (Pipeline.AnalyticsResults r)).
Proof.
  split; [| repeat split; reflexivity].
  rewrite !not_elem_of_cons. intros (He & Ht & Hl & Ha & _).
  unfold Pipeline.run_single_stage, Pipeline.stages. cbn [Pipeline.stage_lookup].
  apply not_eq_sym, String.eqb_neq in He, Ht, Hl, Ha.
  by rewrite He, Ht, Hl, Ha.
Qed.

(** X29 on the name "full". *)
Lemma X29_witness :
  Pipeline.run_single_stage "http://api" "local.db"
    (PipelineSpec.calm SiteSpec.api Examples.sound_engine Examples.day) "full"
    SiteSpec.empty_site
  = (Raise (ValueError
              "Unknown stage: full. Available: ['extract', 'transform', 'load', 'analytics']"),
     SiteSpec.empty_site).
Proof.
  apply (proj1 (X29_single_stage_by_name "http://api" "local.db"
                  (PipelineSpec.calm SiteSpec.api Examples.sound_engine Examples.day)
                  "full" SiteSpec.empty_site)).
  rewrite !not_elem_of_cons. repeat split; try done. apply not_elem_of_nil.
Defined.
